(** * The exit gate of the deep loop (stop hook v2.1)

    A shallow embedding of the stop hook's decision procedure: the hook
    reads a handful of JSON records and marker files under [.deep/],
    prints a directive and leaves with exit code 0 (the session may end)
    or 2 (the session must go on).

    How the program is modelled.
    - A record file is missing, present but unreadable or unparseable
      ([Unreadable]: [readFileSync] or [JSON.parse] throws), or present
      with a parsed record ([Parsed]).  Parsed records are typed after
      the layout the project writes; a scalar field read through
      truthiness, [||] or [!==] is a [jsval], so that an absent field,
      [null], [false] and [0] are told apart exactly where JavaScript
      tells them apart.  A file that parses to a value of another shape
      (a state that is a string, a task list that holds [null]) has no
      counterpart here; the hook does not guard against such a value
      everywhere, and the theorems say nothing about it.
    - Numbers are integers; a time stamp is a number of milliseconds,
      [None] standing for an invalid date ([NaN]).  The hook adds
      numbers as IEEE doubles, here the sum is the integer sum: the two
      agree when the operands and the sum lie within 2^53 of zero
      ([in_exact_range]), and every theorem about a sum is stated for
      such numbers.
    - A string key looked up in a plain object finds the object's own
      entry or, for the names of [Object.prototype]
      ([object_prototype_member]), what every object inherits.
    - The file-system calls that the hook guards with [try]/[catch] may
      throw; deleting and writing a file always succeed.
    - The three one-shot markers are present or absent; what they hold
      is not modelled.  Nor is the prose of the directives: an [Output]
      token stands for each, with the values printed in it.
    - One evaluation happens at one instant [now] in a process [pid].
    - [process.exit] ends the evaluation: the monad [M] has a third
      outcome besides returning and throwing. *)

From Stdlib Require Import ZArith String List Bool Lia.
From stdpp Require Import base option gmap strings.
Import ListNotations.
Local Open Scope string_scope.
Local Open Scope list_scope.
Local Open Scope Z_scope.

(** ** JavaScript scalars *)

Inductive jsval : Type :=
| JUndefined
| JNull
| JBool (b : bool)
| JNum (n : Z).

(** [!!v] *)
Definition truthy (v : jsval) : bool :=
  match v with
  | JBool b => b
  | JNum n => negb (n =? 0)
  | JUndefined | JNull => false
  end.

(** [v === true] and [v === false] *)
Definition is_true (v : jsval) : bool :=
  match v with JBool true => true | _ => false end.

Definition is_false (v : jsval) : bool :=
  match v with JBool false => true | _ => false end.

(** [ToNumber v]; [None] is [NaN]. *)
Definition to_number (v : jsval) : option Z :=
  match v with
  | JUndefined => None
  | JNull => Some 0
  | JBool b => Some (if b then 1 else 0)
  | JNum n => Some n
  end.

(** [a >= b]: false as soon as one side is [NaN]. *)
Definition js_ge (a b : jsval) : bool :=
  match to_number a, to_number b with
  | Some x, Some y => y <=? x
  | _, _ => false
  end.

(** [v || d] read as a number, for a numeric default [d]. *)
Definition or_num (v : jsval) (d : Z) : Z :=
  if truthy v then
    match to_number v with Some n => n | None => d end
  else d.

(** [l.slice(-n)] *)
Definition slice_last {A : Type} (n : nat) (l : list A) : list A :=
  skipn (length l - n) l.

(** The integers that doubles hold, and add, exactly. *)
Definition in_exact_range (n : Z) : Prop := - 2 ^ 53 <= n <= 2 ^ 53.

(** The properties every plain object inherits from [Object.prototype]:
    [o[key]] for one of these names, when [o] holds no entry of its own
    under it, is a function or an object, so it is truthy and has none
    of the fields of an entry. *)
Definition object_prototype_member (key : string) : bool :=
  existsb (String.eqb key)
    ["constructor"; "__proto__"; "hasOwnProperty"; "isPrototypeOf";
     "propertyIsEnumerable"; "toLocaleString"; "toString"; "valueOf";
     "__defineGetter__"; "__defineSetter__"; "__lookupGetter__"; "__lookupSetter__"].

(** ** Configuration *)

Definition STALE_THRESHOLD_MS : Z := 8 * 60 * 60 * 1000.
Definition DEFAULT_TASK_STALE_HOURS : Z := 24.
Definition MAX_CONSECUTIVE_FAILURES : Z := 3.
Definition LOCK_TIMEOUT_MS : Z := 5 * 60 * 1000.
Definition RLM_SUB_CALL_WARNING : Z := 30.
Definition RLM_SUB_CALL_LIMIT : Z := 50.

(** ** The persisted records *)

Inductive Phase : Type :=
| PLAN | BUILD | REVIEW | FIX | SHIP | COMPLETE | CANCELLED.

Definition Phase_eqb (p q : Phase) : bool :=
  match p, q with
  | PLAN, PLAN | BUILD, BUILD | REVIEW, REVIEW | FIX, FIX
  | SHIP, SHIP | COMPLETE, COMPLETE | CANCELLED, CANCELLED => true
  | _, _ => false
  end.

(** [state.json] *)
Record SessionState : Type := {
  phase : Phase;
  iteration : jsval;
  maxIterations : jsval;
  complete : jsval;
  lastActivity : option Z
}.

(** [test-results.json]: [r_tests] is [results.results?.tests], and so on. *)
Record CategoryResult : Type := { ran : jsval; passed : jsval }.

Record TestResults : Type := {
  r_tests : option CategoryResult;
  r_types : option CategoryResult;
  r_lint : option CategoryResult;
  r_build : option CategoryResult;
  allPassed : jsval
}.

(** [git-results.json], flattened: [pr_created] is [results.pr?.created],
    [requirePR] is [(results.enforcement || {}).requirePR], and so on. *)
Record GitResults : Type := {
  isGitRepo : jsval;
  hasGhCli : jsval;
  pr_created : jsval;
  ci_checked : jsval;
  ci_passed : jsval;
  merge_merged : jsval;
  requirePR : jsval;
  requireCIPass : jsval;
  requireMerge : jsval
}.

(** [validation-state.json] *)
Record ValidationError : Type := {
  v_file : option string;
  v_message : string;
  v_line : jsval;
  v_timestamp : option Z
}.

Record ValidationState : Type := {
  v_errors : option (list ValidationError);
  filesValidated : jsval
}.

(** [persistent-tasks.json] *)
Record PersistentTask : Type := {
  t_id : string;
  t_content : string;
  t_status : string;
  t_createdAt : option Z
}.

Record TasksData : Type := {
  staleThresholdHours : jsval;
  tasks : list PersistentTask
}.

(** [failures.json]: task id to failure entry. *)
Record ErrorEntry : Type := { e_error : string; e_timestamp : Z }.

Record FailureEntry : Type := {
  f_count : Z;
  f_errors : list ErrorEntry;
  f_lastFailure : option Z
}.

(** [NEEDS_USER] *)
Record Escalation : Type := {
  esc_taskId : string;
  esc_failures : Z;
  esc_errors : list ErrorEntry;
  esc_createdAt : Z
}.

(** [agent.lock] *)
Record Lock : Type := { agentId : string; acquiredAt : option Z }.

(** [rlm-context.json] (one burst) and [rlm-costs.json] (cumulative) *)
Record RlmContext : Type := { sub_calls : jsval; cost_estimate : option string }.

Record CostSession : Type := {
  cs_timestamp : Z;
  cs_sub_calls : Z;
  cs_cost_estimate : string
}.

Record RlmCosts : Type := {
  total_sub_calls : jsval;
  last_updated : option Z;
  sessions : option (list CostSession)
}.

(** ** The working directory *)

Inductive file (A : Type) : Type :=
| Unreadable
| Parsed (a : A).
Arguments Unreadable {A}.
Arguments Parsed {A} a.

(** [None] is a missing file.  The state file carries its modification
    time, the only one the hook looks at. *)
Record FS : Type := {
  STATE_FILE : option (Z * file SessionState);
  FORCE_EXIT_FILE : bool;
  FORCE_COMPLETE_FILE : bool;
  RALPH_HANDOFF_FILE : bool;
  ESCALATION_FILE : option (file Escalation);
  PERSISTENT_TASKS_FILE : option (file TasksData);
  TEST_RESULTS_FILE : option (file TestResults);
  GIT_RESULTS_FILE : option (file GitResults);
  LOCK_FILE : option (file Lock);
  FAILURE_FILE : option (file (gmap string FailureEntry));
  RLM_CONTEXT_FILE : option (file RlmContext);
  RLM_COSTS_FILE : option (file RlmCosts);
  VALIDATION_STATE_FILE : option (file ValidationState)
}.

Definition set_STATE_FILE (v : option (Z * file SessionState)) (d : FS) : FS :=
  {| STATE_FILE := v;
     FORCE_EXIT_FILE := FORCE_EXIT_FILE d;
     FORCE_COMPLETE_FILE := FORCE_COMPLETE_FILE d;
     RALPH_HANDOFF_FILE := RALPH_HANDOFF_FILE d;
     ESCALATION_FILE := ESCALATION_FILE d;
     PERSISTENT_TASKS_FILE := PERSISTENT_TASKS_FILE d;
     TEST_RESULTS_FILE := TEST_RESULTS_FILE d;
     GIT_RESULTS_FILE := GIT_RESULTS_FILE d;
     LOCK_FILE := LOCK_FILE d;
     FAILURE_FILE := FAILURE_FILE d;
     RLM_CONTEXT_FILE := RLM_CONTEXT_FILE d;
     RLM_COSTS_FILE := RLM_COSTS_FILE d;
     VALIDATION_STATE_FILE := VALIDATION_STATE_FILE d |}.

Definition set_FORCE_EXIT_FILE (v : bool) (d : FS) : FS :=
  {| STATE_FILE := STATE_FILE d;
     FORCE_EXIT_FILE := v;
     FORCE_COMPLETE_FILE := FORCE_COMPLETE_FILE d;
     RALPH_HANDOFF_FILE := RALPH_HANDOFF_FILE d;
     ESCALATION_FILE := ESCALATION_FILE d;
     PERSISTENT_TASKS_FILE := PERSISTENT_TASKS_FILE d;
     TEST_RESULTS_FILE := TEST_RESULTS_FILE d;
     GIT_RESULTS_FILE := GIT_RESULTS_FILE d;
     LOCK_FILE := LOCK_FILE d;
     FAILURE_FILE := FAILURE_FILE d;
     RLM_CONTEXT_FILE := RLM_CONTEXT_FILE d;
     RLM_COSTS_FILE := RLM_COSTS_FILE d;
     VALIDATION_STATE_FILE := VALIDATION_STATE_FILE d |}.

Definition set_FORCE_COMPLETE_FILE (v : bool) (d : FS) : FS :=
  {| STATE_FILE := STATE_FILE d;
     FORCE_EXIT_FILE := FORCE_EXIT_FILE d;
     FORCE_COMPLETE_FILE := v;
     RALPH_HANDOFF_FILE := RALPH_HANDOFF_FILE d;
     ESCALATION_FILE := ESCALATION_FILE d;
     PERSISTENT_TASKS_FILE := PERSISTENT_TASKS_FILE d;
     TEST_RESULTS_FILE := TEST_RESULTS_FILE d;
     GIT_RESULTS_FILE := GIT_RESULTS_FILE d;
     LOCK_FILE := LOCK_FILE d;
     FAILURE_FILE := FAILURE_FILE d;
     RLM_CONTEXT_FILE := RLM_CONTEXT_FILE d;
     RLM_COSTS_FILE := RLM_COSTS_FILE d;
     VALIDATION_STATE_FILE := VALIDATION_STATE_FILE d |}.

Definition set_RALPH_HANDOFF_FILE (v : bool) (d : FS) : FS :=
  {| STATE_FILE := STATE_FILE d;
     FORCE_EXIT_FILE := FORCE_EXIT_FILE d;
     FORCE_COMPLETE_FILE := FORCE_COMPLETE_FILE d;
     RALPH_HANDOFF_FILE := v;
     ESCALATION_FILE := ESCALATION_FILE d;
     PERSISTENT_TASKS_FILE := PERSISTENT_TASKS_FILE d;
     TEST_RESULTS_FILE := TEST_RESULTS_FILE d;
     GIT_RESULTS_FILE := GIT_RESULTS_FILE d;
     LOCK_FILE := LOCK_FILE d;
     FAILURE_FILE := FAILURE_FILE d;
     RLM_CONTEXT_FILE := RLM_CONTEXT_FILE d;
     RLM_COSTS_FILE := RLM_COSTS_FILE d;
     VALIDATION_STATE_FILE := VALIDATION_STATE_FILE d |}.

Definition set_ESCALATION_FILE (v : option (file Escalation)) (d : FS) : FS :=
  {| STATE_FILE := STATE_FILE d;
     FORCE_EXIT_FILE := FORCE_EXIT_FILE d;
     FORCE_COMPLETE_FILE := FORCE_COMPLETE_FILE d;
     RALPH_HANDOFF_FILE := RALPH_HANDOFF_FILE d;
     ESCALATION_FILE := v;
     PERSISTENT_TASKS_FILE := PERSISTENT_TASKS_FILE d;
     TEST_RESULTS_FILE := TEST_RESULTS_FILE d;
     GIT_RESULTS_FILE := GIT_RESULTS_FILE d;
     LOCK_FILE := LOCK_FILE d;
     FAILURE_FILE := FAILURE_FILE d;
     RLM_CONTEXT_FILE := RLM_CONTEXT_FILE d;
     RLM_COSTS_FILE := RLM_COSTS_FILE d;
     VALIDATION_STATE_FILE := VALIDATION_STATE_FILE d |}.

Definition set_PERSISTENT_TASKS_FILE (v : option (file TasksData)) (d : FS) : FS :=
  {| STATE_FILE := STATE_FILE d;
     FORCE_EXIT_FILE := FORCE_EXIT_FILE d;
     FORCE_COMPLETE_FILE := FORCE_COMPLETE_FILE d;
     RALPH_HANDOFF_FILE := RALPH_HANDOFF_FILE d;
     ESCALATION_FILE := ESCALATION_FILE d;
     PERSISTENT_TASKS_FILE := v;
     TEST_RESULTS_FILE := TEST_RESULTS_FILE d;
     GIT_RESULTS_FILE := GIT_RESULTS_FILE d;
     LOCK_FILE := LOCK_FILE d;
     FAILURE_FILE := FAILURE_FILE d;
     RLM_CONTEXT_FILE := RLM_CONTEXT_FILE d;
     RLM_COSTS_FILE := RLM_COSTS_FILE d;
     VALIDATION_STATE_FILE := VALIDATION_STATE_FILE d |}.

Definition set_TEST_RESULTS_FILE (v : option (file TestResults)) (d : FS) : FS :=
  {| STATE_FILE := STATE_FILE d;
     FORCE_EXIT_FILE := FORCE_EXIT_FILE d;
     FORCE_COMPLETE_FILE := FORCE_COMPLETE_FILE d;
     RALPH_HANDOFF_FILE := RALPH_HANDOFF_FILE d;
     ESCALATION_FILE := ESCALATION_FILE d;
     PERSISTENT_TASKS_FILE := PERSISTENT_TASKS_FILE d;
     TEST_RESULTS_FILE := v;
     GIT_RESULTS_FILE := GIT_RESULTS_FILE d;
     LOCK_FILE := LOCK_FILE d;
     FAILURE_FILE := FAILURE_FILE d;
     RLM_CONTEXT_FILE := RLM_CONTEXT_FILE d;
     RLM_COSTS_FILE := RLM_COSTS_FILE d;
     VALIDATION_STATE_FILE := VALIDATION_STATE_FILE d |}.

Definition set_GIT_RESULTS_FILE (v : option (file GitResults)) (d : FS) : FS :=
  {| STATE_FILE := STATE_FILE d;
     FORCE_EXIT_FILE := FORCE_EXIT_FILE d;
     FORCE_COMPLETE_FILE := FORCE_COMPLETE_FILE d;
     RALPH_HANDOFF_FILE := RALPH_HANDOFF_FILE d;
     ESCALATION_FILE := ESCALATION_FILE d;
     PERSISTENT_TASKS_FILE := PERSISTENT_TASKS_FILE d;
     TEST_RESULTS_FILE := TEST_RESULTS_FILE d;
     GIT_RESULTS_FILE := v;
     LOCK_FILE := LOCK_FILE d;
     FAILURE_FILE := FAILURE_FILE d;
     RLM_CONTEXT_FILE := RLM_CONTEXT_FILE d;
     RLM_COSTS_FILE := RLM_COSTS_FILE d;
     VALIDATION_STATE_FILE := VALIDATION_STATE_FILE d |}.

Definition set_LOCK_FILE (v : option (file Lock)) (d : FS) : FS :=
  {| STATE_FILE := STATE_FILE d;
     FORCE_EXIT_FILE := FORCE_EXIT_FILE d;
     FORCE_COMPLETE_FILE := FORCE_COMPLETE_FILE d;
     RALPH_HANDOFF_FILE := RALPH_HANDOFF_FILE d;
     ESCALATION_FILE := ESCALATION_FILE d;
     PERSISTENT_TASKS_FILE := PERSISTENT_TASKS_FILE d;
     TEST_RESULTS_FILE := TEST_RESULTS_FILE d;
     GIT_RESULTS_FILE := GIT_RESULTS_FILE d;
     LOCK_FILE := v;
     FAILURE_FILE := FAILURE_FILE d;
     RLM_CONTEXT_FILE := RLM_CONTEXT_FILE d;
     RLM_COSTS_FILE := RLM_COSTS_FILE d;
     VALIDATION_STATE_FILE := VALIDATION_STATE_FILE d |}.

Definition set_FAILURE_FILE (v : option (file (gmap string FailureEntry))) (d : FS) : FS :=
  {| STATE_FILE := STATE_FILE d;
     FORCE_EXIT_FILE := FORCE_EXIT_FILE d;
     FORCE_COMPLETE_FILE := FORCE_COMPLETE_FILE d;
     RALPH_HANDOFF_FILE := RALPH_HANDOFF_FILE d;
     ESCALATION_FILE := ESCALATION_FILE d;
     PERSISTENT_TASKS_FILE := PERSISTENT_TASKS_FILE d;
     TEST_RESULTS_FILE := TEST_RESULTS_FILE d;
     GIT_RESULTS_FILE := GIT_RESULTS_FILE d;
     LOCK_FILE := LOCK_FILE d;
     FAILURE_FILE := v;
     RLM_CONTEXT_FILE := RLM_CONTEXT_FILE d;
     RLM_COSTS_FILE := RLM_COSTS_FILE d;
     VALIDATION_STATE_FILE := VALIDATION_STATE_FILE d |}.

Definition set_RLM_CONTEXT_FILE (v : option (file RlmContext)) (d : FS) : FS :=
  {| STATE_FILE := STATE_FILE d;
     FORCE_EXIT_FILE := FORCE_EXIT_FILE d;
     FORCE_COMPLETE_FILE := FORCE_COMPLETE_FILE d;
     RALPH_HANDOFF_FILE := RALPH_HANDOFF_FILE d;
     ESCALATION_FILE := ESCALATION_FILE d;
     PERSISTENT_TASKS_FILE := PERSISTENT_TASKS_FILE d;
     TEST_RESULTS_FILE := TEST_RESULTS_FILE d;
     GIT_RESULTS_FILE := GIT_RESULTS_FILE d;
     LOCK_FILE := LOCK_FILE d;
     FAILURE_FILE := FAILURE_FILE d;
     RLM_CONTEXT_FILE := v;
     RLM_COSTS_FILE := RLM_COSTS_FILE d;
     VALIDATION_STATE_FILE := VALIDATION_STATE_FILE d |}.

Definition set_RLM_COSTS_FILE (v : option (file RlmCosts)) (d : FS) : FS :=
  {| STATE_FILE := STATE_FILE d;
     FORCE_EXIT_FILE := FORCE_EXIT_FILE d;
     FORCE_COMPLETE_FILE := FORCE_COMPLETE_FILE d;
     RALPH_HANDOFF_FILE := RALPH_HANDOFF_FILE d;
     ESCALATION_FILE := ESCALATION_FILE d;
     PERSISTENT_TASKS_FILE := PERSISTENT_TASKS_FILE d;
     TEST_RESULTS_FILE := TEST_RESULTS_FILE d;
     GIT_RESULTS_FILE := GIT_RESULTS_FILE d;
     LOCK_FILE := LOCK_FILE d;
     FAILURE_FILE := FAILURE_FILE d;
     RLM_CONTEXT_FILE := RLM_CONTEXT_FILE d;
     RLM_COSTS_FILE := v;
     VALIDATION_STATE_FILE := VALIDATION_STATE_FILE d |}.

Definition set_VALIDATION_STATE_FILE (v : option (file ValidationState)) (d : FS) : FS :=
  {| STATE_FILE := STATE_FILE d;
     FORCE_EXIT_FILE := FORCE_EXIT_FILE d;
     FORCE_COMPLETE_FILE := FORCE_COMPLETE_FILE d;
     RALPH_HANDOFF_FILE := RALPH_HANDOFF_FILE d;
     ESCALATION_FILE := ESCALATION_FILE d;
     PERSISTENT_TASKS_FILE := PERSISTENT_TASKS_FILE d;
     TEST_RESULTS_FILE := TEST_RESULTS_FILE d;
     GIT_RESULTS_FILE := GIT_RESULTS_FILE d;
     LOCK_FILE := LOCK_FILE d;
     FAILURE_FILE := FAILURE_FILE d;
     RLM_CONTEXT_FILE := RLM_CONTEXT_FILE d;
     RLM_COSTS_FILE := RLM_COSTS_FILE d;
     VALIDATION_STATE_FILE := v |}.

(** The working directory with nothing in it. *)
Definition empty_FS : FS :=
  {| STATE_FILE := None;
     FORCE_EXIT_FILE := false;
     FORCE_COMPLETE_FILE := false;
     RALPH_HANDOFF_FILE := false;
     ESCALATION_FILE := None;
     PERSISTENT_TASKS_FILE := None;
     TEST_RESULTS_FILE := None;
     GIT_RESULTS_FILE := None;
     LOCK_FILE := None;
     FAILURE_FILE := None;
     RLM_CONTEXT_FILE := None;
     RLM_COSTS_FILE := None;
     VALIDATION_STATE_FILE := None |}.

(** ** What an evaluation says and does *)

(** The line written to the error stream before [process.exit(2)]. *)
Inductive BlockReason : Type :=
| CostLimitReached
| IterationLimit
| ContinuePhase (p : Phase)
| ValidationErrors
| TestsUnverified
| GitIncomplete
| TasksRemaining (n : nat).

Inductive EscalationKind : Type :=
| EscalationPending     (* the marker was found *)
| EscalationRequired.   (* the marker was just written *)

Inductive Decision : Type :=
| ALLOW
| BLOCK (r : BlockReason)
| ESCALATE (k : EscalationKind).

Definition exit_code (d : Decision) : Z :=
  match d with
  | ALLOW => 0
  | BLOCK _ | ESCALATE _ => 2
  end.

(** The directives written to the output stream, without their prose. *)
Inductive Output : Type :=
| OutForceExit
| OutForceComplete
| OutRalphHandoff
| OutEscalationPending (taskId : string)
| OutCostLimit (subCalls : Z)
| OutCostWarning (subCalls : Z)
| OutStale
| OutIterationLimit (iter max : jsval)
| OutPhasePrompt (p : Phase) (iter max : jsval)
| OutValidationErrors (recent : list ValidationError)
| OutTestsNotVerified (missing failed : list string)
| OutGitIncomplete (missing failed : list string)
| OutEscalationRequired (taskId : string) (count : Z) (errors : list ErrorEntry)
| OutTasksRemaining (n : nat) (content id : string)
| OutOK.

Inductive FileName : Type :=
| STATE | FORCE_EXIT | FORCE_COMPLETE | RALPH_HANDOFF | NEEDS_USER
| AGENT_LOCK | FAILURES | RLM_COSTS.

Inductive Event : Type :=
| Print (o : Output)
| Write (f : FileName)
| Unlink (f : FileName).

Record World : Type := { files : FS; trace : list Event }.

Record Env : Type := { now : Z; pid : string }.

(** ** The monad of the hook: state, exceptions and [process.exit] *)

Inductive Outcome (A : Type) : Type :=
| Ret (a : A) (w : World)
| Throw (w : World)
| Exit (d : Decision) (w : World).
Arguments Ret {A} a w.
Arguments Throw {A} w.
Arguments Exit {A} d w.

Definition M (A : Type) : Type := World -> Outcome A.

Definition ret {A : Type} (a : A) : M A := fun w => Ret a w.

Definition bind {A B : Type} (m : M A) (k : A -> M B) : M B :=
  fun w =>
    match m w with
    | Ret a w' => k a w'
    | Throw w' => Throw w'
    | Exit d w' => Exit d w'
    end.

Declare Scope gate_scope.
Delimit Scope gate_scope with gate.
Notation "x <- m ;; k" := (bind m (fun x => k))
  (at level 100, m at next level, k at level 200, right associativity) : gate_scope.
Notation "m ;; k" := (bind m (fun _ => k))
  (at level 100, k at level 200, right associativity) : gate_scope.
Local Open Scope gate_scope.

(** [try { m } catch { h }] *)
Definition try_catch {A : Type} (m : M A) (h : M A) : M A :=
  fun w =>
    match m w with
    | Throw w' => h w'
    | r => r
    end.

(** A [TypeError] raised by the code itself. *)
Definition throw {A : Type} : M A := fun w => Throw w.

(** [process.exit] after the line [d] on the error stream. *)
Definition exit {A : Type} (d : Decision) : M A := fun w => Exit d w.

Definition log (o : Output) : M unit :=
  fun w => Ret tt {| files := files w; trace := trace w ++ [Print o] |}.

Definition modify (e : Event) (f : FS -> FS) : M unit :=
  fun w => Ret tt {| files := f (files w); trace := trace w ++ [e] |}.

Definition writeFileSync (n : FileName) (f : FS -> FS) : M unit := modify (Write n) f.
Definition unlinkSync (n : FileName) (f : FS -> FS) : M unit := modify (Unlink n) f.

Definition present {A : Type} (o : option A) : bool :=
  match o with Some _ => true | None => false end.

Definition existsSync {A : Type} (get : FS -> option A) : M bool :=
  fun w => Ret (present (get (files w))) w.

Definition existsMarker (get : FS -> bool) : M bool :=
  fun w => Ret (get (files w)) w.

(** [JSON.parse(fs.readFileSync(f, 'utf8'))] *)
Definition readJSON {A : Type} (get : FS -> option (file A)) : M A :=
  fun w =>
    match get (files w) with
    | Some (Parsed a) => Ret a w
    | Some Unreadable | None => Throw w
    end.

Definition state_content (d : FS) : option (file SessionState) :=
  match STATE_FILE d with
  | Some (_, c) => Some c
  | None => None
  end.

(** [fs.statSync(STATE_FILE).mtimeMs] *)
Definition statSync_mtimeMs : M Z :=
  fun w =>
    match STATE_FILE (files w) with
    | Some (mtime, _) => Ret mtime w
    | None => Throw w
    end.

(** ** Edge case 1: infinite loop prevention *)

Definition js_or (a b : jsval) : jsval := if truthy a then a else b.

Inductive IterCheck : Type :=
| NotBlocked
| Blocked (iter max : jsval).

Definition checkIterationLimit (state : option SessionState) : IterCheck :=
  match state with
  | None => NotBlocked
  | Some st =>
      if negb (truthy (maxIterations st)) then NotBlocked
      else
        let iter := js_or (iteration st) (JNum 0) in
        let max := maxIterations st in
        if js_ge iter max then Blocked iter max else NotBlocked
  end.

(** ** Edge case 2: staleness detection *)

Definition isStateStale (env : Env) : M bool :=
  try_catch
    (mtimeMs <- statSync_mtimeMs ;;
     ret (now env - mtimeMs >? STALE_THRESHOLD_MS))
    (ret true).

(** ** Edge case 3: incomplete work on exit *)

Record TestVerdict : Type := {
  tv_valid : bool;
  tv_missing : list string;
  tv_failed : list string
}.

Definition is_nil {A : Type} (l : list A) : bool :=
  match l with [] => true | _ :: _ => false end.

(** One turn of the loop over the four categories. *)
Definition check_category (acc : list string * list string)
    (c : string * option CategoryResult) : list string * list string :=
  let '(missing, failed) := acc in
  let '(cat, r) := c in
  match r with
  | None => (missing ++ [cat +:+ ": no results"], failed)
  | Some r =>
      if negb (truthy (ran r)) then (missing ++ [cat +:+ ": not run"], failed)
      else if negb (truthy (passed r)) then (missing, failed ++ [cat +:+ ": failed"])
      else (missing, failed)
  end.

Definition categories (results : TestResults) : list (string * option CategoryResult) :=
  [("tests", r_tests results); ("types", r_types results);
   ("lint", r_lint results); ("build", r_build results)].

Definition verifyTestResults : M TestVerdict :=
  try_catch
    (e <- existsSync TEST_RESULTS_FILE ;;
     if negb e then
       ret {| tv_valid := false;
              tv_missing := ["test-results.json not found"];
              tv_failed := [] |}
     else
       results <- readJSON TEST_RESULTS_FILE ;;
       let '(missing, failed) := fold_left check_category (categories results) ([], []) in
       let failed :=
         if negb (truthy (allPassed results)) && is_nil missing && is_nil failed
         then failed ++ ["allPassed is false"] else failed in
       ret {| tv_valid := is_nil missing && is_nil failed;
              tv_missing := missing;
              tv_failed := failed |})
    (ret {| tv_valid := false;
            tv_missing := ["Cannot read test results"];
            tv_failed := [] |}).

Record GitVerdict : Type := {
  gv_valid : bool;
  gv_skip : bool;
  gv_skipReason : option string;
  gv_missing : list string;
  gv_failed : list string
}.

Definition git_skip (reason : string) : GitVerdict :=
  {| gv_valid := true; gv_skip := true; gv_skipReason := Some reason;
     gv_missing := []; gv_failed := [] |}.

Definition verifyGitResults : M GitVerdict :=
  try_catch
    (e <- existsSync GIT_RESULTS_FILE ;;
     if negb e then ret (git_skip "No git-results.json")
     else
       results <- readJSON GIT_RESULTS_FILE ;;
       if negb (truthy (isGitRepo results)) then ret (git_skip "Not a git repo")
       else if negb (truthy (hasGhCli results)) then ret (git_skip "No gh CLI")
       else
         let missing1 :=
           if negb (is_false (requirePR results)) && negb (truthy (pr_created results))
           then ["PR not created"] else [] in
         let '(missing2, failed) :=
           if negb (is_false (requireCIPass results)) then
             if negb (truthy (ci_checked results)) then (missing1 ++ ["CI not checked"], [])
             else if negb (truthy (ci_passed results)) then (missing1, ["CI failed"])
             else (missing1, [])
           else (missing1, []) in
         let missing :=
           if negb (is_false (requireMerge results)) && negb (truthy (merge_merged results))
           then missing2 ++ ["PR not merged"] else missing2 in
         ret {| gv_valid := is_nil missing && is_nil failed;
                gv_skip := false;
                gv_skipReason := None;
                gv_missing := missing;
                gv_failed := failed |})
    (ret (git_skip "Cannot read git results")).

(** ** Edge case 4: lost context recovery *)

Definition readPersistentTasks : M (option TasksData) :=
  try_catch
    (e <- existsSync PERSISTENT_TASKS_FILE ;;
     if negb e then ret None
     else
       d <- readJSON PERSISTENT_TASKS_FILE ;;
       ret (Some d))
    (ret None).

Definition task_pending (env : Env) (staleMs : Z) (t : PersistentTask) : bool :=
  if String.eqb (t_status t) "completed" || String.eqb (t_status t) "blocked" then false
  else
    match t_createdAt t with
    | Some created => now env - created <=? staleMs
    | None => false
    end.

Definition getPendingTasks (env : Env) (tasksData : option TasksData) : list PersistentTask :=
  match tasksData with
  | None => []
  | Some d =>
      if is_nil (tasks d) then []
      else
        let staleMs :=
          or_num (staleThresholdHours d) DEFAULT_TASK_STALE_HOURS * 60 * 60 * 1000 in
        List.filter (task_pending env staleMs) (tasks d)
  end.

(** ** Edge case 8: parallel task coordination *)

Inductive LockResult : Type :=
| Acquired
| NotAcquired (holder : string) (age : Z).

(** [Date.now() - new Date(lock.acquiredAt).getTime()]; [None] is [NaN]. *)
Definition lock_age (env : Env) (lock : Lock) : option Z :=
  match acquiredAt lock with
  | Some t => Some (now env - t)
  | None => None
  end.

Definition acquireLock (env : Env) : M LockResult :=
  try_catch
    (e <- existsSync LOCK_FILE ;;
     held <-
       (if e then
          lock <- readJSON LOCK_FILE ;;
          match lock_age env lock with
          | Some age =>
              if age <? LOCK_TIMEOUT_MS then ret (Some (NotAcquired (agentId lock) age))
              else ret None
          | None => ret None
          end
        else ret None) ;;
     match held with
     | Some r => ret r
     | None =>
         let lockData := {| agentId := pid env; acquiredAt := Some (now env) |} in
         writeFileSync AGENT_LOCK (set_LOCK_FILE (Some (Parsed lockData))) ;;
         ret Acquired
     end)
    (ret Acquired).

Definition releaseLock (env : Env) : M unit :=
  try_catch
    (e <- existsSync LOCK_FILE ;;
     if e then
       lock <- readJSON LOCK_FILE ;;
       if String.eqb (agentId lock) (pid env)
       then unlinkSync AGENT_LOCK (set_LOCK_FILE None)
       else ret tt
     else ret tt)
    (ret tt).

(** ** Edge case 10: stuck approach detection *)

(** [failures[taskId]] is the task's own entry when the log holds one.
    For a task without an entry the lookup finds nothing and the entry
    is created, unless the task is named like a member of
    [Object.prototype]: the lookup then finds that member, which is
    truthy, no entry is created, and [failures[taskId].errors.push]
    throws.  The counter is a double ([count++]). *)
Definition trackFailure (env : Env) (taskId error : string) : M Z :=
  try_catch
    (e <- existsSync FAILURE_FILE ;;
     failures <- (if e then readJSON FAILURE_FILE else ret (∅ : gmap string FailureEntry)) ;;
     entry <-
       match failures !! taskId with
       | Some f => ret f
       | None =>
           if object_prototype_member taskId then throw
           else ret {| f_count := 0; f_errors := []; f_lastFailure := None |}
       end ;;
     let entry' :=
       {| f_count := f_count entry + 1;
          f_errors := f_errors entry ++ [{| e_error := error; e_timestamp := now env |}];
          f_lastFailure := Some (now env) |} in
     writeFileSync FAILURES (set_FAILURE_FILE (Some (Parsed (<[taskId := entry']> failures)))) ;;
     ret (f_count entry'))
    (ret 0).

Inductive EscalationCheck : Type :=
| NoEscalation
| Escalate (taskId : string) (count : Z) (errors : list ErrorEntry).

(** [failures[taskId]] for a task without an entry of its own is
    [undefined] or a member of [Object.prototype]; either way there is no
    [count] that reaches the maximum. *)
Definition checkUserEscalation (env : Env) (taskId : string) : M EscalationCheck :=
  try_catch
    (e <- existsSync FAILURE_FILE ;;
     if negb e then ret NoEscalation
     else
       failures <- readJSON FAILURE_FILE ;;
       match (failures : gmap string FailureEntry) !! taskId with
       | Some taskFailures =>
           if MAX_CONSECUTIVE_FAILURES <=? f_count taskFailures then
             let escalation :=
               {| esc_taskId := taskId;
                  esc_failures := f_count taskFailures;
                  esc_errors := slice_last 3 (f_errors taskFailures);
                  esc_createdAt := now env |} in
             writeFileSync NEEDS_USER (set_ESCALATION_FILE (Some (Parsed escalation))) ;;
             ret (Escalate taskId (f_count taskFailures) (slice_last 3 (f_errors taskFailures)))
           else ret NoEscalation
       | None => ret NoEscalation
       end)
    (ret NoEscalation).

(** ** Edge case 11: RLM cost tracking *)

Inductive RlmCheck : Type :=
| RlmOk
| RlmWarning (subCalls : Z)    (* ok, with a warning *)
| RlmBlocked (subCalls : Z).   (* not ok, blocked *)

(** [s || d] for a string that may be absent: the empty string is falsy. *)
Definition default_string (o : option string) (d : string) : string :=
  match o with
  | Some s => if String.eqb s "" then d else s
  | None => d
  end.

Definition default_list {A : Type} (o : option (list A)) : list A :=
  match o with Some l => l | None => [] end.

(** The cumulative record after one more burst.  The running total is a
    sum of doubles, exact within [in_exact_range]. *)
Definition update_costs (env : Env) (context : RlmContext) (costs : RlmCosts) : RlmCosts :=
  let subCalls := or_num (sub_calls context) 0 in
  let pushed :=
    default_list (sessions costs) ++
      [{| cs_timestamp := now env;
          cs_sub_calls := subCalls;
          cs_cost_estimate := default_string (cost_estimate context) "unknown" |}] in
  {| total_sub_calls := JNum (or_num (total_sub_calls costs) 0 + subCalls);
     last_updated := Some (now env);
     sessions :=
       Some (if (10 <? length pushed)%nat then slice_last 10 pushed else pushed) |}.

Definition checkRlmCosts (env : Env) : M RlmCheck :=
  try_catch
    (e <- existsSync RLM_CONTEXT_FILE ;;
     if negb e then ret RlmOk
     else
       context <- readJSON RLM_CONTEXT_FILE ;;
       let subCalls := or_num (sub_calls context) 0 in
       e' <- existsSync RLM_COSTS_FILE ;;
       costs <-
         (if e' then readJSON RLM_COSTS_FILE
          else ret {| total_sub_calls := JNum 0; last_updated := None; sessions := Some [] |}) ;;
       writeFileSync RLM_COSTS
         (set_RLM_COSTS_FILE (Some (Parsed (update_costs env context costs)))) ;;
       if RLM_SUB_CALL_LIMIT <=? subCalls then ret (RlmBlocked subCalls)
       else if RLM_SUB_CALL_WARNING <=? subCalls then ret (RlmWarning subCalls)
       else ret RlmOk)
    (ret RlmOk).

(** ** Edge case 12: validation error tracking *)

Inductive ValidationCheck : Type :=
| ValidationOk
| ValidationFailed (recentErrors : list ValidationError).

Definition is_recent (env : Env) (e : ValidationError) : bool :=
  match v_timestamp e with
  | Some t => t >? now env - 60 * 60 * 1000
  | None => false
  end.

(** [err.file || 'unknown'] *)
Definition file_key (err : ValidationError) : string := default_string (v_file err) "unknown".

(** One turn of the loop that groups the recent errors by file,
    [byFile] holding the groups in the order they were opened:
    [if (!byFile[file]) byFile[file] = []; byFile[file].push(err)].
    When [file] names a member of [Object.prototype] and no group of its
    own, [byFile[file]] is that member, no group is opened and [push]
    throws: [None]. *)
Definition group_error (byFile : option (list (string * list ValidationError)))
    (err : ValidationError) : option (list (string * list ValidationError)) :=
  match byFile with
  | None => None
  | Some groups =>
      let file := file_key err in
      if existsb (fun g => String.eqb (fst g) file) groups then
        Some (map (fun g => if String.eqb (fst g) file then (fst g, snd g ++ [err]) else g)
                groups)
      else if object_prototype_member file then None
      else Some (groups ++ [(file, [err])])
  end.

Definition group_by_file (recentErrors : list ValidationError)
    : option (list (string * list ValidationError)) :=
  fold_left group_error recentErrors (Some []).

(** The message is made from the groups; the model keeps the errors
    they were made from. *)
Definition checkValidationErrors (env : Env) : M ValidationCheck :=
  try_catch
    (e <- existsSync VALIDATION_STATE_FILE ;;
     if negb e then ret ValidationOk
     else
       state <- readJSON VALIDATION_STATE_FILE ;;
       let errors := default_list (v_errors state) in
       let recentErrors := List.filter (is_recent env) errors in
       if is_nil recentErrors then ret ValidationOk
       else
         match group_by_file recentErrors with
         | Some byFile => ret (ValidationFailed recentErrors)
         | None => throw
         end)
    (ret ValidationOk).

(** ** Main hook logic *)

Definition readState : M (option SessionState) :=
  try_catch
    (e <- existsSync STATE_FILE ;;
     if negb e then ret None
     else
       st <- readJSON state_content ;;
       ret (Some st))
    (ret None).

Definition shouldForceExit : M bool :=
  e <- existsMarker FORCE_EXIT_FILE ;;
  if e then
    try_catch (unlinkSync FORCE_EXIT (set_FORCE_EXIT_FILE false)) (ret tt) ;;
    ret true
  else ret false.

Definition shouldForceComplete : M bool :=
  e <- existsMarker FORCE_COMPLETE_FILE ;;
  if e then
    try_catch
      (log OutForceComplete ;;
       unlinkSync FORCE_COMPLETE (set_FORCE_COMPLETE_FILE false))
      (ret tt) ;;
    ret true
  else ret false.

Definition shouldRalphHandoff : M bool :=
  e <- existsMarker RALPH_HANDOFF_FILE ;;
  if e then
    try_catch (unlinkSync RALPH_HANDOFF (set_RALPH_HANDOFF_FILE false)) (ret tt) ;;
    ret true
  else ret false.

(** [prompts[phase] || null]: the five working phases have a prompt.  The
    text of the prompt (header, status summaries, reminders) is not
    modelled; the token keeps the phase and the two counters. *)
Definition getPhasePrompt (state : SessionState) : option Output :=
  match phase state with
  | PLAN | BUILD | REVIEW | FIX | SHIP =>
      Some (OutPhasePrompt (phase state) (iteration state) (maxIterations state))
  | COMPLETE | CANCELLED => None
  end.

(** The blocks of [main], in the order of the source. *)

Definition forceExitCheck : M unit :=
  b <- shouldForceExit ;;
  if b then log OutForceExit ;; exit ALLOW else ret tt.

Definition forceCompleteCheck : M unit :=
  b <- shouldForceComplete ;;
  if b then exit ALLOW else ret tt.

Definition ralphHandoffCheck : M unit :=
  b <- shouldRalphHandoff ;;
  if b then log OutRalphHandoff ;; exit ALLOW else ret tt.

Definition userEscalationCheck : M unit :=
  e <- existsSync ESCALATION_FILE ;;
  if e then
    try_catch
      (esc <- readJSON ESCALATION_FILE ;;
       log (OutEscalationPending (esc_taskId esc)) ;;
       exit (ESCALATE EscalationPending))
      (ret tt)
  else ret tt.

Definition rlmCostCheck (env : Env) : M unit :=
  rlmCheck <- checkRlmCosts env ;;
  match rlmCheck with
  | RlmBlocked n => log (OutCostLimit n) ;; exit (BLOCK CostLimitReached)
  | RlmWarning n => log (OutCostWarning n)
  | RlmOk => ret tt
  end.

(** [state.complete !== true && state.phase !== 'COMPLETE' && state.phase !== 'SHIP'] *)
Definition in_loop (st : SessionState) : bool :=
  negb (is_true (complete st))
  && negb (Phase_eqb (phase st) COMPLETE)
  && negb (Phase_eqb (phase st) SHIP).

(** [state.iteration = (state.iteration || 0) + 1; state.lastActivity = now];
    the sum is a sum of doubles, exact within [in_exact_range]. *)
Definition next_iteration (env : Env) (st : SessionState) : SessionState :=
  {| phase := phase st;
     iteration := JNum (or_num (iteration st) 0 + 1);
     maxIterations := maxIterations st;
     complete := complete st;
     lastActivity := Some (now env) |}.

(** [state.phase = p; state.complete = false] *)
Definition revert_to (p : Phase) (st : SessionState) : SessionState :=
  {| phase := p;
     iteration := iteration st;
     maxIterations := maxIterations st;
     complete := JBool false;
     lastActivity := lastActivity st |}.

Definition write_state (env : Env) (st : SessionState) : M unit :=
  writeFileSync STATE (set_STATE_FILE (Some (now env, Parsed st))).

(** The block returns the state object, which it may have mutated. *)
Definition deepLoopCheck (env : Env) (state : option SessionState) : M (option SessionState) :=
  match state with
  | Some st =>
      if in_loop st then
        stale <- isStateStale env ;;
        if stale then log OutStale ;; ret state
        else
          match checkIterationLimit state with
          | Blocked iter max =>
              log (OutIterationLimit iter max) ;;
              exit (BLOCK IterationLimit)
          | NotBlocked =>
              let st' := next_iteration env st in
              write_state env st' ;;
              match getPhasePrompt st' with
              | Some prompt =>
                  log prompt ;;
                  exit (BLOCK (ContinuePhase (phase st')))
              | None => ret (Some st')
              end
          end
      else ret state
  | None => ret None
  end.

Definition verifyCompletion (env : Env) (state : option SessionState) : M unit :=
  match state with
  | Some st =>
      if is_true (complete st) || Phase_eqb (phase st) COMPLETE || Phase_eqb (phase st) SHIP
      then
        validationCheck <- checkValidationErrors env ;;
        match validationCheck with
        | ValidationFailed recent =>
            log (OutValidationErrors recent) ;;
            write_state env (revert_to FIX st) ;;
            exit (BLOCK ValidationErrors)
        | ValidationOk => ret tt
        end ;;
        testV <- verifyTestResults ;;
        (if negb (tv_valid testV) then
           log (OutTestsNotVerified (tv_missing testV) (tv_failed testV)) ;;
           write_state env (revert_to REVIEW st) ;;
           exit (BLOCK TestsUnverified)
         else ret tt) ;;
        gitV <- verifyGitResults ;;
        if negb (gv_skip gitV) && negb (gv_valid gitV) then
          log (OutGitIncomplete (gv_missing gitV) (gv_failed gitV)) ;;
          write_state env (revert_to REVIEW st) ;;
          exit (BLOCK GitIncomplete)
        else ret tt
      else ret tt
  | None => ret tt
  end.

(** [pendingTasks.find(t => t.status === 'in_progress') || pendingTasks[0]] *)
Definition in_progress (t : PersistentTask) : bool := String.eqb (t_status t) "in_progress".

Definition current_task (first : PersistentTask) (pendingTasks : list PersistentTask)
    : PersistentTask :=
  match List.find in_progress pendingTasks with
  | Some t => t
  | None => first
  end.

Definition persistentTasksCheck (env : Env) (tasksData : option TasksData) : M unit :=
  let pendingTasks := getPendingTasks env tasksData in
  match pendingTasks with
  | first :: _ =>
      let current := current_task first pendingTasks in
      escCheck <- checkUserEscalation env (t_id current) ;;
      match escCheck with
      | Escalate taskId count errors =>
          log (OutEscalationRequired taskId count errors) ;;
          exit (ESCALATE EscalationRequired)
      | NoEscalation =>
          log (OutTasksRemaining (length pendingTasks) (t_content current) (t_id current)) ;;
          exit (BLOCK (TasksRemaining (length pendingTasks)))
      end
  | [] => ret tt
  end.

Definition main (env : Env) : M unit :=
  forceExitCheck ;;
  forceCompleteCheck ;;
  ralphHandoffCheck ;;
  userEscalationCheck ;;
  state <- readState ;;
  tasksData <- readPersistentTasks ;;
  rlmCostCheck env ;;
  state <- deepLoopCheck env state ;;
  verifyCompletion env state ;;
  persistentTasksCheck env tasksData ;;
  releaseLock env ;;
  log OutOK ;;
  exit ALLOW.

(** Everything [main] does before it looks at the backlog; it hands over
    the backlog it has read. *)
Definition beforeTasks (env : Env) : M (option TasksData) :=
  forceExitCheck ;;
  forceCompleteCheck ;;
  ralphHandoffCheck ;;
  userEscalationCheck ;;
  state <- readState ;;
  tasksData <- readPersistentTasks ;;
  rlmCostCheck env ;;
  state <- deepLoopCheck env state ;;
  verifyCompletion env state ;;
  ret tasksData.

(** ** Running the hook *)

Definition start (d : FS) : World := {| files := d; trace := [] |}.

(** One evaluation of the gate on the working directory [d]. *)
Definition run (env : Env) (d : FS) : Outcome unit := main env (start d).

Definition decision {A : Type} (o : Outcome A) : option Decision :=
  match o with
  | Exit d _ => Some d
  | Ret _ _ | Throw _ => None
  end.

Definition final {A : Type} (o : Outcome A) : World :=
  match o with
  | Ret _ w | Throw w | Exit _ w => w
  end.

Definition after (env : Env) (d : FS) : FS := files (final (run env d)).

Definition writes_to (n : FileName) (e : Event) : bool :=
  match e, n with
  | Write STATE, STATE | Write FORCE_EXIT, FORCE_EXIT
  | Write FORCE_COMPLETE, FORCE_COMPLETE | Write RALPH_HANDOFF, RALPH_HANDOFF
  | Write NEEDS_USER, NEEDS_USER | Write AGENT_LOCK, AGENT_LOCK
  | Write FAILURES, FAILURES | Write RLM_COSTS, RLM_COSTS => true
  | _, _ => false
  end.

(** The record in a file, when there is one to read. *)
Definition parsed {A : Type} (o : option (file A)) : option A :=
  match o with
  | Some (Parsed a) => Some a
  | Some Unreadable | None => None
  end.

(** Evaluations one after the other, nothing else touching the directory:
    the decisions, the directory left, the events. *)
Fixpoint decisions (envs : list Env) (d : FS) : list (option Decision) :=
  match envs with
  | [] => []
  | env :: envs' => decision (run env d) :: decisions envs' (after env d)
  end.

Fixpoint after_many (envs : list Env) (d : FS) : FS :=
  match envs with
  | [] => d
  | env :: envs' => after_many envs' (after env d)
  end.

(** The events of the evaluations, in order. *)
Fixpoint events (envs : list Env) (d : FS) : list Event :=
  match envs with
  | [] => []
  | env :: envs' => trace (final (run env d)) ++ events envs' (after env d)
  end.

(** ** Conditions on the working directory *)

(** The phases in which the loop check answers with a prompt. *)
Definition working (p : Phase) : bool :=
  match p with
  | PLAN | BUILD | REVIEW | FIX => true
  | SHIP | COMPLETE | CANCELLED => false
  end.

(** Every evaluation comes within the staleness window of the last write
    of the state file. *)
Fixpoint timely (mtime : Z) (envs : list Env) : Prop :=
  match envs with
  | [] => True
  | env :: envs' => now env - mtime <= STALE_THRESHOLD_MS /\ timely (now env) envs'
  end.

(** None of the three one-shot markers, and no escalation marker. *)
Definition no_markers (d : FS) : Prop :=
  FORCE_EXIT_FILE d = false /\ FORCE_COMPLETE_FILE d = false
  /\ RALPH_HANDOFF_FILE d = false /\ ESCALATION_FILE d = None.

(** The burst recorded in the cost record, if any, is under the hard limit. *)
Definition cost_below_limit (d : FS) : Prop :=
  forall c, RLM_CONTEXT_FILE d = Some (Parsed c) -> or_num (sub_calls c) 0 < RLM_SUB_CALL_LIMIT.

(** The validation errors of the last hour. *)
Definition recent_errors (env : Env) (d : FS) : list ValidationError :=
  match parsed (VALIDATION_STATE_FILE d) with
  | Some vs => List.filter (is_recent env) (default_list (v_errors vs))
  | None => []
  end.

(** None of the errors carries a file name that a plain object inherits
    from [Object.prototype]: they can be grouped by file. *)
Definition ordinary_files (errs : list ValidationError) : bool :=
  forallb (fun e => negb (object_prototype_member (file_key e))) errs.

(** [r && r.ran && r.passed] *)
Definition ran_and_passed (r : option CategoryResult) : bool :=
  match r with
  | Some r => truthy (ran r) && truthy (passed r)
  | None => false
  end.

(** The cumulative cost record the cost guard starts from. *)
Definition cumulative (d : FS) : RlmCosts :=
  match parsed (RLM_COSTS_FILE d) with
  | Some costs => costs
  | None => {| total_sub_calls := JNum 0; last_updated := None; sessions := Some [] |}
  end.

(** How many times the file [n] is written in a trace. *)
Definition count_writes (n : FileName) (tr : list Event) : nat :=
  length (List.filter (writes_to n) tr).

(** Two directories that hold the same readable records: a record
    missing in one may be unreadable in the other.  The markers and the
    cumulative cost record are the same, and so is the state file when it
    can be read. *)
Definition same_readable (d1 d2 : FS) : Prop :=
  (STATE_FILE d1 = STATE_FILE d2
   \/ (parsed (state_content d1) = None /\ parsed (state_content d2) = None))
  /\ FORCE_EXIT_FILE d1 = FORCE_EXIT_FILE d2
  /\ FORCE_COMPLETE_FILE d1 = FORCE_COMPLETE_FILE d2
  /\ RALPH_HANDOFF_FILE d1 = RALPH_HANDOFF_FILE d2
  /\ parsed (ESCALATION_FILE d1) = parsed (ESCALATION_FILE d2)
  /\ parsed (PERSISTENT_TASKS_FILE d1) = parsed (PERSISTENT_TASKS_FILE d2)
  /\ parsed (TEST_RESULTS_FILE d1) = parsed (TEST_RESULTS_FILE d2)
  /\ parsed (GIT_RESULTS_FILE d1) = parsed (GIT_RESULTS_FILE d2)
  /\ parsed (LOCK_FILE d1) = parsed (LOCK_FILE d2)
  /\ parsed (FAILURE_FILE d1) = parsed (FAILURE_FILE d2)
  /\ parsed (RLM_CONTEXT_FILE d1) = parsed (RLM_CONTEXT_FILE d2)
  /\ RLM_COSTS_FILE d1 = RLM_COSTS_FILE d2
  /\ parsed (VALIDATION_STATE_FILE d1) = parsed (VALIDATION_STATE_FILE d2).


(** What is left of [main] once it has read the state and the backlog
    and the cost guard has let it through. *)
Definition from_loop (env : Env) (d : FS) : M unit :=
  state <- deepLoopCheck env (parsed (state_content d)) ;;
  verifyCompletion env state ;;
  persistentTasksCheck env (parsed (PERSISTENT_TASKS_FILE d)) ;;
  releaseLock env ;;
  log OutOK ;;
  exit ALLOW.

(** ** Properties of the blocks of [main] *)

(** [always P m]: however [m] ends, the world it leaves is related by [P]
    to the one it started in. *)
Definition always {A : Type} (P : World -> World -> Prop) (m : M A) : Prop :=
  forall w, P w (final (m w)).

(** The cumulative cost record is left alone and the trace only grows. *)
Definition keeps_costs (w w' : World) : Prop :=
  RLM_COSTS_FILE (files w') = RLM_COSTS_FILE (files w)
  /\ exists tr, trace w' = trace w ++ tr.

(** [never bad m]: [m] does not leave with the decision [bad]. *)
Definition never {A : Type} (bad : Decision) (m : M A) : Prop :=
  forall w, decision (m w) <> Some bad.

(** The markers, the failure log and the escalation marker are left
    alone, and the escalation marker is not written. *)
Definition keeps_backlog (w w' : World) : Prop :=
  FORCE_EXIT_FILE (files w') = FORCE_EXIT_FILE (files w)
  /\ FORCE_COMPLETE_FILE (files w') = FORCE_COMPLETE_FILE (files w)
  /\ RALPH_HANDOFF_FILE (files w') = RALPH_HANDOFF_FILE (files w)
  /\ ESCALATION_FILE (files w') = ESCALATION_FILE (files w)
  /\ FAILURE_FILE (files w') = FAILURE_FILE (files w)
  /\ exists tr, trace w' = trace w ++ tr /\ count_writes NEEDS_USER tr = 0%nat.

(** [no_throw m]: no exception leaves [m]. *)
Definition no_throw {A : Type} (m : M A) : Prop :=
  forall w, match m w with Throw _ => False | Ret _ _ | Exit _ _ => True end.


(** The state file is left alone. *)
Definition keeps_state (w w' : World) : Prop := STATE_FILE (files w') = STATE_FILE (files w).

(** ** Inputs for the examples *)

Definition t0 : Z := 1700000000000.
Definition hour : Z := 60 * 60 * 1000.
Definition env0 : Env := {| now := t0; pid := "4242" |}.

Definition build_9_of_10 : SessionState :=
  {| phase := BUILD; iteration := JNum 9; maxIterations := JNum 10;
     complete := JBool false; lastActivity := Some (t0 - hour) |}.


Definition build_10_of_10 : SessionState :=
  {| phase := BUILD; iteration := JNum 10; maxIterations := JNum 10;
     complete := JBool false; lastActivity := Some (t0 - hour) |}.

(** The limit is reached and the state file was written an hour ago. *)
Definition limit_reached_dir : FS :=
  set_STATE_FILE (Some (t0 - hour, Parsed build_10_of_10)) empty_FS.

(** The limit is reached; the last activity and the last write of the
    state file are nine hours old. *)
Definition build_10_of_10_idle : SessionState :=
  {| phase := BUILD; iteration := JNum 10; maxIterations := JNum 10;
     complete := JBool false; lastActivity := Some (t0 - 9 * hour) |}.

Definition limit_reached_stale_dir : FS :=
  set_STATE_FILE (Some (t0 - 9 * hour, Parsed build_10_of_10_idle)) empty_FS.

Definition build_3_of_10_idle : SessionState :=
  {| phase := BUILD; iteration := JNum 3; maxIterations := JNum 10;
     complete := JBool false; lastActivity := Some (t0 - 9 * hour) |}.

(** [lastActivity] is nine hours old, the state file was written a
    minute ago. *)
Definition idle_touched_dir : FS :=
  set_STATE_FILE (Some (t0 - 60000, Parsed build_3_of_10_idle)) empty_FS.

(** [lastActivity] is a minute old, the state file was written nine
    hours ago. *)
Definition build_3_of_10 : SessionState :=
  {| phase := BUILD; iteration := JNum 3; maxIterations := JNum 10;
     complete := JBool false; lastActivity := Some (t0 - 60000) |}.

Definition abandoned_dir : FS :=
  set_STATE_FILE (Some (t0 - 9 * hour, Parsed build_3_of_10)) empty_FS.

(** A directory where everything is against the exit, with the force-exit
    marker on top. *)
Definition ship_complete : SessionState :=
  {| phase := SHIP; iteration := JNum 4; maxIterations := JNum 10;
     complete := JBool true; lastActivity := Some (t0 - hour) |}.

Definition ok : CategoryResult := {| ran := JBool true; passed := JBool true |}.
Definition ko : CategoryResult := {| ran := JBool true; passed := JBool false |}.

Definition failing_tests : TestResults :=
  {| r_tests := Some ko; r_types := Some ok; r_lint := Some ok; r_build := Some ok;
     allPassed := JBool false |}.

Definition recent_error : ValidationError :=
  {| v_file := Some "plan.json"; v_message := "Unexpected token";
     v_line := JNum 3; v_timestamp := Some (t0 - 60000) |}.

Definition task_1 : PersistentTask :=
  {| t_id := "task-001"; t_content := "add user validation";
     t_status := "pending"; t_createdAt := Some (t0 - hour) |}.

Definition escalation_1 : Escalation :=
  {| esc_taskId := "task-001"; esc_failures := 3; esc_errors := [];
     esc_createdAt := t0 - hour |}.

Definition everything_against_dir : FS :=
  {| STATE_FILE := Some (t0 - hour, Parsed ship_complete);
     FORCE_EXIT_FILE := true;
     FORCE_COMPLETE_FILE := false;
     RALPH_HANDOFF_FILE := false;
     ESCALATION_FILE := Some (Parsed escalation_1);
     PERSISTENT_TASKS_FILE :=
       Some (Parsed {| staleThresholdHours := JUndefined; tasks := [task_1] |});
     TEST_RESULTS_FILE := Some (Parsed failing_tests);
     GIT_RESULTS_FILE := None;
     LOCK_FILE := None;
     FAILURE_FILE := None;
     RLM_CONTEXT_FILE := Some (Parsed {| sub_calls := JNum 60; cost_estimate := None |});
     RLM_COSTS_FILE := None;
     VALIDATION_STATE_FILE :=
       Some (Parsed {| v_errors := Some [recent_error]; filesValidated := JNum 1 |}) |}.

(** A session without [maxIterations], cancelled but not complete. *)
Definition cancelled_no_limit : SessionState :=
  {| phase := CANCELLED; iteration := JNum 3; maxIterations := JUndefined;
     complete := JBool false; lastActivity := Some (t0 - hour) |}.

Definition cancelled_dir : FS :=
  set_STATE_FILE (Some (t0 - hour, Parsed cancelled_no_limit)) empty_FS.

Definition build_no_limit : SessionState :=
  {| phase := BUILD; iteration := JNum 3; maxIterations := JUndefined;
     complete := JBool false; lastActivity := Some (t0 - hour) |}.

Definition no_limit_dir : FS :=
  set_STATE_FILE (Some (t0 - hour, Parsed build_no_limit)) empty_FS.

Definition three_evaluations : list Env :=
  [env0; {| now := t0 + hour; pid := "4243" |}; {| now := t0 + 5 * hour; pid := "4244" |}].

Definition old_error : ValidationError :=
  {| v_file := Some "plan.json"; v_message := "Unexpected token";
     v_line := JNum 3; v_timestamp := Some (t0 - 2 * hour) |}.

Definition passing_tests : TestResults :=
  {| r_tests := Some ok; r_types := Some ok; r_lint := Some ok; r_build := Some ok;
     allPassed := JBool true |}.

(** Shipped and complete, tests passed, one validation error two hours old. *)
Definition old_error_dir : FS :=
  set_VALIDATION_STATE_FILE
    (Some (Parsed {| v_errors := Some [old_error]; filesValidated := JNum 1 |}))
    (set_TEST_RESULTS_FILE (Some (Parsed passing_tests))
       (set_STATE_FILE (Some (t0 - hour, Parsed ship_complete)) empty_FS)).

(** The same with an error one minute old. *)
Definition recent_error_dir : FS :=
  set_VALIDATION_STATE_FILE
    (Some (Parsed {| v_errors := Some [recent_error]; filesValidated := JNum 1 |}))
    (set_TEST_RESULTS_FILE (Some (Parsed passing_tests))
       (set_STATE_FILE (Some (t0 - hour, Parsed ship_complete)) empty_FS)).

(** The same recent error, and one more filed under a name that every
    plain object inherits. *)
Definition recent_error_of_constructor : ValidationError :=
  {| v_file := Some "constructor"; v_message := "Unexpected token";
     v_line := JNum 1; v_timestamp := Some (t0 - 60000) |}.

Definition inherited_name_dir : FS :=
  set_VALIDATION_STATE_FILE
    (Some (Parsed {| v_errors := Some [recent_error; recent_error_of_constructor];
                     filesValidated := JNum 2 |}))
    (set_TEST_RESULTS_FILE (Some (Parsed passing_tests))
       (set_STATE_FILE (Some (t0 - hour, Parsed ship_complete)) empty_FS)).

(** Source control is there, a pull request is required and none exists. *)
Definition no_pr : GitResults :=
  {| isGitRepo := JBool true; hasGhCli := JBool true;
     pr_created := JBool false;
     ci_checked := JBool true; ci_passed := JBool true;
     merge_merged := JBool false;
     requirePR := JBool true; requireCIPass := JUndefined; requireMerge := JBool false |}.

Definition no_pr_dir : FS :=
  set_GIT_RESULTS_FILE (Some (Parsed no_pr))
    (set_TEST_RESULTS_FILE (Some (Parsed passing_tests))
       (set_STATE_FILE (Some (t0 - hour, Parsed ship_complete)) empty_FS)).

(** The four categories ran and passed, [allPassed] was left false. *)
Definition passing_tests_not_summed : TestResults :=
  {| r_tests := Some ok; r_types := Some ok; r_lint := Some ok; r_build := Some ok;
     allPassed := JBool false |}.

Definition no_pr_not_summed_dir : FS :=
  set_GIT_RESULTS_FILE (Some (Parsed no_pr))
    (set_TEST_RESULTS_FILE (Some (Parsed passing_tests_not_summed))
       (set_STATE_FILE (Some (t0 - hour, Parsed ship_complete)) empty_FS)).

(** A lock taken a minute ago by another process. *)
Definition lock_of_1111 : Lock := {| agentId := "1111"; acquiredAt := Some (t0 - 60000) |}.

Definition locked_world : World :=
  {| files := set_LOCK_FILE (Some (Parsed lock_of_1111)) empty_FS; trace := [] |}.

(** A burst of 60 sub-calls, and one of 35, with a cumulative record of
    ten earlier bursts. *)
Definition burst (n : Z) : RlmContext := {| sub_calls := JNum n; cost_estimate := None |}.

Definition earlier_burst (k : Z) : CostSession :=
  {| cs_timestamp := t0 - k * hour; cs_sub_calls := k; cs_cost_estimate := "unknown" |}.

Definition ten_bursts : RlmCosts :=
  {| total_sub_calls := JNum 55;
     last_updated := Some (t0 - hour);
     sessions := Some (map earlier_burst [10; 9; 8; 7; 6; 5; 4; 3; 2; 1]) |}.

Definition burst_dir (n : Z) : FS :=
  set_RLM_COSTS_FILE (Some (Parsed ten_bursts))
    (set_RLM_CONTEXT_FILE (Some (Parsed (burst n))) empty_FS).

(** The same burst of 60 with the force-exit marker present. *)
Definition burst_forced_dir : FS := set_FORCE_EXIT_FILE true (burst_dir 60).

(** The same burst of 60 with an unreadable cumulative record. *)
Definition burst_unreadable_dir : FS :=
  set_RLM_COSTS_FILE (Some Unreadable) (burst_dir 60).

(** A backlog of two: the earliest task is pending, the second is in
    progress. *)
Definition task_2 : PersistentTask :=
  {| t_id := "task-002"; t_content := "add rate limiting";
     t_status := "in_progress"; t_createdAt := Some (t0 - hour) |}.

Definition two_tasks : TasksData :=
  {| staleThresholdHours := JUndefined; tasks := [task_1; task_2] |}.

Definition failed (n : Z) : FailureEntry :=
  {| f_count := n;
     f_errors := map (fun k => {| e_error := "tests failed"; e_timestamp := t0 - k * hour |})
                   (map Z.of_nat (rev (seq 1 (Z.to_nat n))));
     f_lastFailure := Some (t0 - hour) |}.

Definition backlog_dir (failures : gmap string FailureEntry) : FS :=
  set_FAILURE_FILE (Some (Parsed failures))
    (set_PERSISTENT_TASKS_FILE (Some (Parsed two_tasks)) empty_FS).




(** ** More conditions and inputs *)

(** How many of the three one-shot markers are present. *)
Definition present_markers (d : FS) : nat :=
  ((if FORCE_EXIT_FILE d then 1 else 0)
   + (if FORCE_COMPLETE_FILE d then 1 else 0)
   + (if RALPH_HANDOFF_FILE d then 1 else 0))%nat.

Definition clear_markers (d : FS) : FS :=
  set_FORCE_EXIT_FILE false (set_FORCE_COMPLETE_FILE false (set_RALPH_HANDOFF_FILE false d)).

(** Everything against the exit, and the three one-shot markers present. *)
Definition three_markers_dir : FS :=
  set_RALPH_HANDOFF_FILE true (set_FORCE_COMPLETE_FILE true everything_against_dir).

(** Every evaluation comes within the staleness window of one and the
    same write of the state file. *)
Definition all_within (mtime : Z) (envs : list Env) : Prop :=
  Forall (fun env => now env - mtime <= STALE_THRESHOLD_MS) envs.

(** The time of the last evaluation, or [mtime] when there is none. *)
Definition last_time (mtime : Z) (envs : list Env) : Z :=
  match rev envs with
  | [] => mtime
  | env :: _ => now env
  end.

Definition build_8_of_10 : SessionState :=
  {| phase := BUILD; iteration := JNum 8; maxIterations := JNum 10;
     complete := JBool false; lastActivity := Some (t0 - hour) |}.

Definition two_left_dir : FS :=
  set_STATE_FILE (Some (t0 - hour, Parsed build_8_of_10)) empty_FS.

Definition two_evaluations : list Env :=
  [env0; {| now := t0 + hour; pid := "4243" |}].

Definition two_later_evaluations : list Env :=
  [{| now := t0 + 2 * hour; pid := "4244" |}; {| now := t0 + 9 * hour; pid := "4245" |}].

(** The escalation marker on top of a session that could go on. *)
Definition escalated_dir : FS :=
  set_ESCALATION_FILE (Some (Parsed escalation_1)) two_left_dir.

(** What one evaluation may make of the session state [st]: the limit
    is kept; iteration is kept or, the limit check passing, incremented;
    complete is kept or reset; the phase is kept or sent back to FIX or
    REVIEW. *)
Definition gate_step (st st' : SessionState) : Prop :=
  maxIterations st' = maxIterations st
  /\ (iteration st' = iteration st
      \/ (iteration st' = JNum (or_num (iteration st) 0 + 1)
          /\ checkIterationLimit (Some st) = NotBlocked))
  /\ (complete st' = complete st \/ complete st' = JBool false)
  /\ (phase st' = phase st \/ phase st' = FIX \/ phase st' = REVIEW).

(** The state files an evaluation at [now env] may leave, starting from [s0]. *)
Definition allowed (env : Env) (s0 s : option (Z * file SessionState)) : Prop :=
  s = s0
  \/ exists m st st',
       s0 = Some (m, Parsed st) /\ s = Some (now env, Parsed st') /\ gate_step st st'.

(** The state file is left alone or set to one of the files in [T]. *)
Definition state_in (T : option (Z * file SessionState) -> Prop) (w w' : World) : Prop :=
  STATE_FILE (files w') = STATE_FILE (files w) \/ T (STATE_FILE (files w')).

(** The state [st] sent back to FIX or REVIEW at [now env]. *)
Definition reverted (env : Env) (st : SessionState) (s : option (Z * file SessionState)) : Prop :=
  exists p, (p = FIX \/ p = REVIEW) /\ s = Some (now env, Parsed (revert_to p st)).

(** ** The completion checks, read as conditions on the directory *)

(** The four categories ran and passed and the summary flag is set. *)
Definition tests_ok (results : TestResults) : bool :=
  forallb (fun c => ran_and_passed (snd c)) (categories results)
  && truthy (allPassed results).

Definition tests_pass (d : FS) : bool :=
  match TEST_RESULTS_FILE d with
  | Some (Parsed results) => tests_ok results
  | _ => false
  end.

(** The git workflow is looked at: a repository with the gh CLI. *)
Definition git_checked (results : GitResults) : bool :=
  truthy (isGitRepo results) && truthy (hasGhCli results).

(** Every step of the workflow that is not switched off is done. *)
Definition git_ok (results : GitResults) : bool :=
  (is_false (requirePR results) || truthy (pr_created results))
  && (is_false (requireCIPass results)
      || truthy (ci_checked results) && truthy (ci_passed results))
  && (is_false (requireMerge results) || truthy (merge_merged results)).

Definition git_fails (d : FS) : bool :=
  match GIT_RESULTS_FILE d with
  | Some (Parsed results) => git_checked results && negb (git_ok results)
  | _ => false
  end.

(** The validation check fails: there are errors of the last hour, and
    they can be grouped by file. *)
Definition validation_fails (env : Env) (d : FS) : bool :=
  negb (is_nil (recent_errors env d)) && ordinary_files (recent_errors env d).

(** The first completion check that fails, in the order [main] runs them. *)
Definition completion_block (env : Env) (d : FS) : option BlockReason :=
  if validation_fails env d then Some ValidationErrors
  else if negb (tests_pass d) then Some TestsUnverified
  else if git_fails d then Some GitIncomplete
  else None.

(** A session that claims to be done: complete, or in SHIP or COMPLETE. *)
Definition claims_done (st : SessionState) : bool :=
  is_true (complete st) || Phase_eqb (phase st) COMPLETE || Phase_eqb (phase st) SHIP.

(** A repository with a PR that is open, checked and green, but not merged;
    nothing is said about enforcement. *)
Definition unmerged_pr : GitResults :=
  {| isGitRepo := JBool true; hasGhCli := JBool true;
     pr_created := JBool true; ci_checked := JBool true; ci_passed := JBool true;
     merge_merged := JBool false;
     requirePR := JUndefined; requireCIPass := JUndefined; requireMerge := JUndefined |}.

Definition unmerged_dir : FS :=
  set_GIT_RESULTS_FILE (Some (Parsed unmerged_pr))
    (set_TEST_RESULTS_FILE (Some (Parsed passing_tests))
       (set_STATE_FILE (Some (t0 - hour, Parsed ship_complete)) empty_FS)).

(** No state file; test results that fail and a PR that is not merged. *)
Definition no_state_dir : FS :=
  set_GIT_RESULTS_FILE (Some (Parsed unmerged_pr))
    (set_TEST_RESULTS_FILE (Some (Parsed failing_tests)) empty_FS).

(** ** The backlog, the inputs and the lock *)

(** A task that no longer counts: completed, blocked, without a usable
    creation date, or created longer ago than the backlog's threshold
    (24 hours when the threshold is absent or zero). *)
Definition expired (env : Env) (td : TasksData) (t : PersistentTask) : Prop :=
  t_status t = "completed" \/ t_status t = "blocked"
  \/ match t_createdAt t with
     | Some created =>
         or_num (staleThresholdHours td) DEFAULT_TASK_STALE_HOURS * 60 * 60 * 1000
         < now env - created
     | None => True
     end.

(** The records the gate only reads are the same in [d'] as in [d], and
    no one-shot marker is present in [d'] that was not in [d]. *)
Definition inputs_kept (d d' : FS) : Prop :=
  TEST_RESULTS_FILE d' = TEST_RESULTS_FILE d
  /\ GIT_RESULTS_FILE d' = GIT_RESULTS_FILE d
  /\ VALIDATION_STATE_FILE d' = VALIDATION_STATE_FILE d
  /\ PERSISTENT_TASKS_FILE d' = PERSISTENT_TASKS_FILE d
  /\ FAILURE_FILE d' = FAILURE_FILE d
  /\ RLM_CONTEXT_FILE d' = RLM_CONTEXT_FILE d
  /\ (FORCE_EXIT_FILE d' = true -> FORCE_EXIT_FILE d = true)
  /\ (FORCE_COMPLETE_FILE d' = true -> FORCE_COMPLETE_FILE d = true)
  /\ (RALPH_HANDOFF_FILE d' = true -> RALPH_HANDOFF_FILE d = true).

Definition keeps_inputs (w w' : World) : Prop := inputs_kept (files w) (files w').

Definition keeps_lock (w w' : World) : Prop := LOCK_FILE (files w') = LOCK_FILE (files w).

(** A task created a day and an hour before [t0]. *)
Definition old_task : PersistentTask :=
  {| t_id := "task-000"; t_content := "set up the repository";
     t_status := "pending"; t_createdAt := Some (t0 - 25 * hour) |}.

Definition undated_task : PersistentTask :=
  {| t_id := "task-003"; t_content := "write the changelog";
     t_status := "in_progress"; t_createdAt := None |}.

Definition leftovers : TasksData :=
  {| staleThresholdHours := JNum 0; tasks := [old_task; undated_task] |}.

(** A finished session holding its own lock. *)
Definition own_lock_dir : FS :=
  set_LOCK_FILE (Some (Parsed {| agentId := "4242"; acquiredAt := Some (t0 - 60000) |}))
    (set_TEST_RESULTS_FILE (Some (Parsed passing_tests))
       (set_STATE_FILE (Some (t0 - hour, Parsed ship_complete)) empty_FS)).

(** ** Using the lock and the failure log *)

(** The failure log as [trackFailure] starts from it: empty when
    failures.json is missing. *)
Definition failure_log (d : FS) : gmap string FailureEntry :=
  match FAILURE_FILE d with
  | Some (Parsed failures) => failures
  | _ => ∅
  end.

Definition failures_of (d : FS) (taskId : string) : Z :=
  match failure_log d !! taskId with
  | Some entry => f_count entry
  | None => 0
  end.

Definition errors_of (d : FS) (taskId : string) : list ErrorEntry :=
  match failure_log d !! taskId with
  | Some entry => f_errors entry
  | None => []
  end.

(** [trackFailure(taskId, error)] called once for each of [calls], in
    order; the counts it returns. *)
Fixpoint trackFailures (taskId : string) (calls : list (Env * string)) : M (list Z) :=
  match calls with
  | [] => ret []
  | (env, error) :: rest =>
      n <- trackFailure env taskId error ;;
      ns <- trackFailures taskId rest ;;
      ret (n :: ns)
  end.

Definition keeps_escalation (w w' : World) : Prop :=
  ESCALATION_FILE (files w') = ESCALATION_FILE (files w).

Definition logged (call : Env * string) : ErrorEntry :=
  {| e_error := snd call; e_timestamp := now (fst call) |}.

Definition three_calls : list (Env * string) :=
  [(env0, "tests failed"); ({| now := t0 + hour; pid := "4242" |}, "lint failed");
   ({| now := t0 + 2 * hour; pid := "4242" |}, "tests failed")].

Definition unreadable_log_dir : FS :=
  set_FAILURE_FILE (Some Unreadable) (backlog_dir ∅).

Definition unreadable_lock_world : World :=
  {| files := set_LOCK_FILE (Some Unreadable) empty_FS; trace := [] |}.

Definition three_more_evaluations : list Env :=
  [env0; {| now := t0 + hour; pid := "4243" |}; {| now := t0 + 30 * hour; pid := "4244" |}].

(** ** The validation summary of the phase prompt *)

(** The three texts [getValidationSummary] can return. *)
Inductive ValidationSummary : Type :=
| NoSummary                                            (* the empty string *)
| SummaryClean (validated : jsval)                     (* n files validated, no errors *)
| SummaryPending (validated : jsval) (errorCount : nat). (* n files validated, k errors pending *)

Definition getValidationSummary : M ValidationSummary :=
  try_catch
    (e <- existsSync VALIDATION_STATE_FILE ;;
     if negb e then ret NoSummary
     else
       state <- readJSON VALIDATION_STATE_FILE ;;
       if negb (truthy (filesValidated state)) then ret NoSummary
       else
         let errorCount := length (default_list (v_errors state)) in
         if (errorCount =? 0)%nat then ret (SummaryClean (filesValidated state))
         else ret (SummaryPending (filesValidated state) errorCount))
    (ret NoSummary).

Definition old_errors_world : World :=
  start (set_VALIDATION_STATE_FILE
           (Some (Parsed {| v_errors := Some [old_error]; filesValidated := JNum 1 |}))
           empty_FS).

(** * The post-tool validator: the store of validation errors

    [src/flowgo/src/post-tool-validator.js] keeps the errors that the
    exit gate reads from validation-state.json. *)

(** An error as a validator reports it. *)
Record ReportedError : Type := {
  r_message : string;
  r_line : jsval
}.

(** An entry of [state.errors]. *)
Record TrackedError : Type := {
  te_file : string;
  te_fullPath : string;
  te_message : string;
  te_line : jsval;
  te_timestamp : Z
}.

(** [l.findIndex(p)]; [None] is -1. *)
Fixpoint findIndex {A : Type} (p : A -> bool) (l : list A) : option nat :=
  match l with
  | [] => None
  | x :: l' => if p x then Some 0%nat else option_map S (findIndex p l')
  end.

(** [e.fullPath === filePath && e.message === error.message] *)
Definition same_error (filePath message : string) (e : TrackedError) : bool :=
  String.eqb (te_fullPath e) filePath && String.eqb (te_message e) message.

Section Validator.
(** [path.basename] *)
Variable basename : string -> string.

Definition new_entry (now : Z) (filePath : string) (error : ReportedError) : TrackedError :=
  {| te_file := basename filePath;
     te_fullPath := filePath;
     te_message := r_message error;
     te_line := r_line error;
     te_timestamp := now |}.

(** [trackError(state, filePath, error)], on [state.errors]; [now] is the
    clock read for the entry's timestamp. *)
Definition trackError (now : Z) (errors : list TrackedError) (filePath : string)
    (error : ReportedError) : list TrackedError :=
  let entry := new_entry now filePath error in
  let errors1 :=
    match findIndex (same_error filePath (r_message error)) errors with
    | Some existing => <[existing := entry]> errors
    | None => errors ++ [entry]
    end in
  if (50 <? length errors1)%nat then slice_last 50 errors1 else errors1.
End Validator.

(** [clearFileErrors(state, filePath)], on [state.errors] *)
Definition clearFileErrors (errors : list TrackedError) (filePath : string)
    : list TrackedError :=
  List.filter (fun e => negb (String.eqb (te_fullPath e) filePath)) errors.

(** What identifies an entry of the store. *)
Definition error_key (e : TrackedError) : string * string := (te_fullPath e, te_message e).

(** An entry as the exit gate reads it back from validation-state.json. *)
Definition as_read (e : TrackedError) : ValidationError :=
  {| v_file := Some (te_file e);
     v_message := te_message e;
     v_line := te_line e;
     v_timestamp := Some (te_timestamp e) |}.

(** The working directory with the store [errors] saved. *)
Definition saved (errors : list TrackedError) (validated : jsval) (d : FS) : FS :=
  set_VALIDATION_STATE_FILE
    (Some (Parsed {| v_errors := Some (map as_read errors); filesValidated := validated |})) d.

(** [path.basename] on a path that has no directory part. *)
Definition basename_flat (path : string) : string := path.

Definition unexpected_token : ReportedError :=
  {| r_message := "Unexpected token"; r_line := JNum 3 |}.

Definition plan_error : TrackedError :=
  {| te_file := "plan.json"; te_fullPath := "plan.json"; te_message := "Unexpected token";
     te_line := JNum 3; te_timestamp := t0 - 2 * hour |}.

Definition readme_error : TrackedError :=
  {| te_file := "README.md"; te_fullPath := "README.md"; te_message := "Broken link";
     te_line := JNum 10; te_timestamp := t0 - hour |}.

(** A session at work with everything else against it: an unreadable
    escalation marker, failing tests, a burst under the limit and a
    backlog. *)
Definition busy_dir : FS :=
  set_RLM_CONTEXT_FILE (Some (Parsed (burst 35)))
    (set_TEST_RESULTS_FILE (Some (Parsed failing_tests))
       (set_ESCALATION_FILE (Some Unreadable)
          (set_PERSISTENT_TASKS_FILE (Some (Parsed two_tasks)) two_left_dir))).

(** * Reasoning about the hook *)

Arguments bind {A B} m k w /.
Arguments ret {A} a w /.
Arguments try_catch {A} m h w /.
Arguments exit {A} d w /.
Arguments throw {A} w /.
Arguments log o w /.
Arguments modify e f w /.
Arguments writeFileSync n f w /.
Arguments unlinkSync n f w /.
Arguments existsSync {A} get w /.
Arguments existsMarker get w /.
Arguments readJSON {A} get w /.
Arguments statSync_mtimeMs w /.

(** Evaluation of the monad's primitives and of the directory's fields,
    leaving arithmetic and the records' contents alone. *)
Ltac gsimpl :=
  cbn [bind ret try_catch exit throw log modify writeFileSync unlinkSync existsSync
       existsMarker readJSON statSync_mtimeMs write_state start
       files trace present parsed negb andb orb state_content app is_nil
       tv_valid tv_missing tv_failed gv_valid gv_skip gv_missing gv_failed
       STATE_FILE FORCE_EXIT_FILE FORCE_COMPLETE_FILE RALPH_HANDOFF_FILE
       ESCALATION_FILE PERSISTENT_TASKS_FILE TEST_RESULTS_FILE GIT_RESULTS_FILE
       LOCK_FILE FAILURE_FILE RLM_CONTEXT_FILE RLM_COSTS_FILE VALIDATION_STATE_FILE
       set_STATE_FILE set_FORCE_EXIT_FILE set_FORCE_COMPLETE_FILE
       set_RALPH_HANDOFF_FILE set_ESCALATION_FILE set_PERSISTENT_TASKS_FILE
       set_TEST_RESULTS_FILE set_GIT_RESULTS_FILE set_LOCK_FILE set_FAILURE_FILE
       set_RLM_CONTEXT_FILE set_RLM_COSTS_FILE set_VALIDATION_STATE_FILE] in *.

(** ** The monad *)

Section MonadLaws.
Context {A B C : Type}.

Lemma bind_Ret (m : M A) (k : A -> M B) w a w' :
  m w = Ret a w' -> bind m k w = k a w'.
Proof. intros E. cbn. now rewrite E. Qed.

Lemma bind_Exit (m : M A) (k : A -> M B) w d w' :
  m w = Exit d w' -> bind m k w = Exit d w'.
Proof. intros E. cbn. now rewrite E. Qed.

Lemma bind_Ret_inv (m : M A) (k : A -> M B) w b w2 :
  bind m k w = Ret b w2 -> exists a w1, m w = Ret a w1 /\ k a w1 = Ret b w2.
Proof. cbn. destruct (m w) as [a w1| |]; try discriminate. eauto. Qed.

Lemma bind_assoc (m : M A) (f : A -> M B) (g : B -> M C) w :
  bind (bind m f) g w = bind m (fun a => bind (f a) g) w.
Proof. cbn. now destruct (m w). Qed.
End MonadLaws.

(** ** The checks before the session state *)

Lemma forceExitCheck_pass w :
  FORCE_EXIT_FILE (files w) = false -> forceExitCheck w = Ret tt w.
Proof. intros H. unfold forceExitCheck, shouldForceExit. gsimpl. now rewrite H. Qed.

Lemma forceCompleteCheck_pass w :
  FORCE_COMPLETE_FILE (files w) = false -> forceCompleteCheck w = Ret tt w.
Proof. intros H. unfold forceCompleteCheck, shouldForceComplete. gsimpl. now rewrite H. Qed.

Lemma ralphHandoffCheck_pass w :
  RALPH_HANDOFF_FILE (files w) = false -> ralphHandoffCheck w = Ret tt w.
Proof. intros H. unfold ralphHandoffCheck, shouldRalphHandoff. gsimpl. now rewrite H. Qed.

Lemma userEscalationCheck_pass w :
  parsed (ESCALATION_FILE (files w)) = None -> userEscalationCheck w = Ret tt w.
Proof.
  intros H. unfold userEscalationCheck. gsimpl.
  destruct (ESCALATION_FILE (files w)) as [[|esc]|] eqn:E; gsimpl; rewrite ?E; congruence.
Qed.

Lemma readState_eq w : readState w = Ret (parsed (state_content (files w))) w.
Proof.
  unfold readState, state_content. gsimpl.
  destruct (STATE_FILE (files w)) as [[m [|st]]|] eqn:E; gsimpl; rewrite ?E; reflexivity.
Qed.

Lemma readPersistentTasks_eq w :
  readPersistentTasks w = Ret (parsed (PERSISTENT_TASKS_FILE (files w))) w.
Proof.
  unfold readPersistentTasks. gsimpl.
  destruct (PERSISTENT_TASKS_FILE (files w)) as [[|td]|] eqn:E; gsimpl; rewrite ?E; reflexivity.
Qed.

Lemma set_RLM_COSTS_FILE_same d : set_RLM_COSTS_FILE (RLM_COSTS_FILE d) d = d.
Proof. now destruct d. Qed.

Lemma rlmCostCheck_pass env w :
  cost_below_limit (files w) ->
  exists c tr,
    rlmCostCheck env w = Ret tt {| files := set_RLM_COSTS_FILE c (files w); trace := tr |}.
Proof.
  intros H. unfold rlmCostCheck, checkRlmCosts. gsimpl.
  assert (Hsame : Ret tt w = Ret tt {| files := set_RLM_COSTS_FILE (RLM_COSTS_FILE (files w)) (files w);
                                       trace := trace w |}).
  { rewrite set_RLM_COSTS_FILE_same. now destruct w. }
  destruct (RLM_CONTEXT_FILE (files w)) as [[|c]|] eqn:Ec; gsimpl; rewrite ?Ec; gsimpl; eauto.
  specialize (H c Ec).
  destruct (RLM_COSTS_FILE (files w)) as [[|costs]|] eqn:Ek; gsimpl; rewrite ?Ek; gsimpl; eauto.
  - destruct (RLM_SUB_CALL_LIMIT <=? or_num (sub_calls c) 0) eqn:El; [apply Z.leb_le in El; lia|].
    destruct (RLM_SUB_CALL_WARNING <=? or_num (sub_calls c) 0); gsimpl; eauto.
  - destruct (RLM_SUB_CALL_LIMIT <=? or_num (sub_calls c) 0) eqn:El; [apply Z.leb_le in El; lia|].
    destruct (RLM_SUB_CALL_WARNING <=? or_num (sub_calls c) 0); gsimpl; eauto.
Qed.

Lemma main_reaches_loop env d :
  no_markers d -> cost_below_limit d ->
  exists c tr,
    run env d = from_loop env d {| files := set_RLM_COSTS_FILE c d; trace := tr |}.
Proof.
  intros (Hfe & Hfc & Hrh & Hesc) Hcost. unfold run, main.
  rewrite (bind_Ret _ _ _ _ _ (forceExitCheck_pass (start d) Hfe)).
  rewrite (bind_Ret _ _ _ _ _ (forceCompleteCheck_pass (start d) Hfc)).
  rewrite (bind_Ret _ _ _ _ _ (ralphHandoffCheck_pass (start d) Hrh)).
  rewrite (bind_Ret _ _ _ _ _ (userEscalationCheck_pass (start d) ltac:(cbn; now rewrite Hesc))).
  rewrite (bind_Ret _ _ _ _ _ (readState_eq (start d))).
  rewrite (bind_Ret _ _ _ _ _ (readPersistentTasks_eq (start d))).
  destruct (rlmCostCheck_pass env (start d) Hcost) as (c & tr & E).
  rewrite (bind_Ret _ _ _ _ _ E).
  exists c, tr. reflexivity.
Qed.

(** ** The scenarios of the specification, evaluated *)

Example scenario_1 :
  run env0 (set_STATE_FILE (Some (t0 - hour, Parsed build_9_of_10)) empty_FS)
  = Exit (BLOCK (ContinuePhase BUILD))
      {| files :=
           set_STATE_FILE
             (Some (t0, Parsed {| phase := BUILD; iteration := JNum 10;
                                  maxIterations := JNum 10; complete := JBool false;
                                  lastActivity := Some t0 |}))
             empty_FS;
         trace := [Write STATE; Print (OutPhasePrompt BUILD (JNum 10) (JNum 10))] |}.
Proof. reflexivity. Qed.

(** ** The iteration limit *)

Lemma in_loop_true st :
  complete st = JBool false -> phase st <> COMPLETE -> phase st <> SHIP -> in_loop st = true.
Proof. unfold in_loop. intros -> H1 H2. now destruct (phase st). Qed.

Lemma stale_false env w mtime c :
  STATE_FILE (files w) = Some (mtime, c) ->
  now env - mtime <= STALE_THRESHOLD_MS ->
  isStateStale env w = Ret false w.
Proof.
  intros E H. unfold isStateStale. gsimpl. rewrite E.
  replace (now env - mtime >? STALE_THRESHOLD_MS) with false; [reflexivity|].
  symmetry. rewrite Z.gtb_ltb. apply Z.ltb_ge. lia.
Qed.

Lemma stale_true env w mtime c :
  STATE_FILE (files w) = Some (mtime, c) ->
  STALE_THRESHOLD_MS < now env - mtime ->
  isStateStale env w = Ret true w.
Proof.
  intros E H. unfold isStateStale. gsimpl. rewrite E.
  replace (now env - mtime >? STALE_THRESHOLD_MS) with true; [reflexivity|].
  symmetry. rewrite Z.gtb_ltb. apply Z.ltb_lt. lia.
Qed.

Lemma checkIterationLimit_reached st i mx :
  iteration st = JNum i -> maxIterations st = JNum mx -> mx <> 0 -> mx <= i ->
  checkIterationLimit (Some st) = Blocked (JNum i) (JNum mx).
Proof.
  intros Ei Em Hz Hle. unfold checkIterationLimit, js_or, js_ge. rewrite Ei, Em. cbn.
  destruct (Z.eqb_spec mx 0); [contradiction|]. cbn.
  destruct (Z.eqb_spec i 0) as [->|]; cbn.
  - destruct (Z.leb_spec mx 0); [reflexivity|lia].
  - destruct (Z.leb_spec mx i); [reflexivity|lia].
Qed.

(** C1 (amended). A session still in the loop (complete = false, phase
    neither COMPLETE nor SHIP) whose state file is not stale, whose
    maxIterations is a non-zero number and whose iteration has reached it,
    evaluated with no marker present and the cost guard passing: the gate
    leaves with BLOCK(IterationLimit), exit code 2, and does not rewrite
    the state, so iteration is not incremented. *)
Theorem C1_iteration_limit_blocks (env : Env) (d : FS) (mtime i mx : Z) (st : SessionState) :
  STATE_FILE d = Some (mtime, Parsed st) ->
  complete st = JBool false -> phase st <> COMPLETE -> phase st <> SHIP ->
  now env - mtime <= STALE_THRESHOLD_MS ->
  iteration st = JNum i -> maxIterations st = JNum mx -> mx <> 0 -> mx <= i ->
  no_markers d -> cost_below_limit d ->
  decision (run env d) = Some (BLOCK IterationLimit)
  /\ exit_code (BLOCK IterationLimit) = 2
  /\ STATE_FILE (after env d) = Some (mtime, Parsed st)
  /\ exists tr, trace (final (run env d)) = tr ++ [Print (OutIterationLimit (JNum i) (JNum mx))].
Proof.
  intros Es Hc Hp1 Hp2 Hfresh Ei Em Hz Hle Hm Hcost.
  destruct (main_reaches_loop env d Hm Hcost) as (c & tr & E).
  unfold after. rewrite E. unfold from_loop, deepLoopCheck, state_content.
  rewrite Es. gsimpl. rewrite (in_loop_true st Hc Hp1 Hp2).
  gsimpl.
  rewrite (stale_false env _ mtime (Parsed st)) by (gsimpl; auto).
  rewrite (checkIterationLimit_reached st i mx) by auto.
  gsimpl. repeat split; eauto.
Qed.

Ltac concrete :=
  first [ reflexivity
        | discriminate
        | (repeat split; reflexivity)
        | (intros ? ?; discriminate)
        | (vm_compute; congruence)
        | (vm_compute; repeat split; intros; congruence) ].

Lemma C1_witness :
  decision (run env0 limit_reached_dir) = Some (BLOCK IterationLimit)
  /\ exit_code (BLOCK IterationLimit) = 2
  /\ STATE_FILE (after env0 limit_reached_dir) = Some (t0 - hour, Parsed build_10_of_10)
  /\ exists tr, trace (final (run env0 limit_reached_dir))
                = tr ++ [Print (OutIterationLimit (JNum 10) (JNum 10))].
Proof.
  apply (C1_iteration_limit_blocks env0 limit_reached_dir (t0 - hour) 10 10 build_10_of_10);
    concrete.
Defined.

(** C1 as stated fails on a stale state file: iteration has reached
    maxIterations, complete is false, no marker is present, and the gate
    allows the exit. *)
Lemma C1_counterexample :
  complete build_10_of_10_idle = JBool false
  /\ js_ge (iteration build_10_of_10_idle) (maxIterations build_10_of_10_idle) = true
  /\ no_markers limit_reached_stale_dir
  /\ STATE_FILE limit_reached_stale_dir = Some (t0 - 9 * hour, Parsed build_10_of_10_idle)
  /\ run env0 limit_reached_stale_dir
     = Exit ALLOW {| files := limit_reached_stale_dir; trace := [Print OutStale; Print OutOK] |}.
Proof. repeat split; reflexivity. Qed.

(** ** Staleness *)

Lemma set_LOCK_FILE_same d : set_LOCK_FILE (LOCK_FILE d) d = d.
Proof. now destruct d. Qed.

Lemma releaseLock_returns env w :
  exists l tr, releaseLock env w = Ret tt {| files := set_LOCK_FILE l (files w); trace := tr |}.
Proof.
  assert (Hsame : Ret tt w = Ret tt {| files := set_LOCK_FILE (LOCK_FILE (files w)) (files w);
                                       trace := trace w |}).
  { rewrite set_LOCK_FILE_same. now destruct w. }
  unfold releaseLock. gsimpl.
  destruct (LOCK_FILE (files w)) as [[|lock]|] eqn:E; gsimpl; rewrite ?E; gsimpl; eauto.
  destruct (String.eqb (agentId lock) (pid env)); gsimpl; eauto.
Qed.

Lemma not_in_loop st :
  in_loop st = true ->
  is_true (complete st) || Phase_eqb (phase st) COMPLETE || Phase_eqb (phase st) SHIP = false.
Proof.
  unfold in_loop.
  destruct (is_true (complete st)), (Phase_eqb (phase st) COMPLETE),
    (Phase_eqb (phase st) SHIP); cbn; congruence.
Qed.

(** C4 (amended). A session still in the loop whose state file was last
    written more than 8 hours ago, with no marker, the cost guard passing
    and no pending backlog task: the gate allows the exit whatever the
    iteration count, and does not rewrite the state. *)
Theorem C4_stale_session_allowed (env : Env) (d : FS) (mtime : Z) (st : SessionState) :
  STATE_FILE d = Some (mtime, Parsed st) ->
  complete st = JBool false -> phase st <> COMPLETE -> phase st <> SHIP ->
  STALE_THRESHOLD_MS < now env - mtime ->
  no_markers d -> cost_below_limit d ->
  getPendingTasks env (parsed (PERSISTENT_TASKS_FILE d)) = [] ->
  decision (run env d) = Some ALLOW
  /\ exit_code ALLOW = 0
  /\ STATE_FILE (after env d) = Some (mtime, Parsed st).
Proof.
  intros Es Hc Hp1 Hp2 Hstale Hm Hcost Htasks.
  destruct (main_reaches_loop env d Hm Hcost) as (c & tr & E).
  unfold after. rewrite E. unfold from_loop, deepLoopCheck, state_content.
  rewrite Es. gsimpl. rewrite (in_loop_true st Hc Hp1 Hp2). gsimpl.
  rewrite (stale_true env _ mtime (Parsed st)) by (gsimpl; auto).
  gsimpl. unfold verifyCompletion. rewrite (not_in_loop st (in_loop_true st Hc Hp1 Hp2)).
  gsimpl. unfold persistentTasksCheck. rewrite Htasks. gsimpl.
  match goal with |- context [releaseLock env ?w] =>
    destruct (releaseLock_returns env w) as (l & tr' & El); rewrite El end.
  gsimpl. auto.
Qed.

Lemma C4_witness :
  decision (run env0 abandoned_dir) = Some ALLOW
  /\ exit_code ALLOW = 0
  /\ STATE_FILE (after env0 abandoned_dir) = Some (t0 - 9 * hour, Parsed build_3_of_10).
Proof.
  apply (C4_stale_session_allowed env0 abandoned_dir (t0 - 9 * hour) build_3_of_10); concrete.
Defined.

(** C4 as stated fails when the state file has been written recently:
    [lastActivity] is nine hours old, the session is incomplete and under
    its limit, no marker is present, and the gate blocks and increments
    iteration. *)
Lemma C4_counterexample :
  lastActivity build_3_of_10_idle = Some (now env0 - 9 * hour)
  /\ complete build_3_of_10_idle = JBool false
  /\ phase build_3_of_10_idle = BUILD
  /\ no_markers idle_touched_dir
  /\ run env0 idle_touched_dir
     = Exit (BLOCK (ContinuePhase BUILD))
         {| files :=
              set_STATE_FILE
                (Some (t0, Parsed {| phase := BUILD; iteration := JNum 4;
                                     maxIterations := JNum 10; complete := JBool false;
                                     lastActivity := Some t0 |}))
                empty_FS;
            trace := [Write STATE; Print (OutPhasePrompt BUILD (JNum 4) (JNum 10))] |}.
Proof. repeat split; reflexivity. Qed.

(** ** The force-exit marker *)

(** C6. With the force-exit marker present the gate allows the exit
    (exit code 0) and deletes the marker, touching nothing else, whatever
    the other records and markers hold. *)
Theorem C6_force_exit_allows (env : Env) (d : FS) :
  FORCE_EXIT_FILE d = true ->
  run env d = Exit ALLOW {| files := set_FORCE_EXIT_FILE false d;
                            trace := [Unlink FORCE_EXIT; Print OutForceExit] |}
  /\ exit_code ALLOW = 0
  /\ FORCE_EXIT_FILE (after env d) = false.
Proof.
  intros H. unfold after, run, main, forceExitCheck, shouldForceExit.
  gsimpl. rewrite H. gsimpl. auto.
Qed.

Lemma C6_witness :
  run env0 everything_against_dir
  = Exit ALLOW {| files := set_FORCE_EXIT_FILE false everything_against_dir;
                  trace := [Unlink FORCE_EXIT; Print OutForceExit] |}
  /\ exit_code ALLOW = 0
  /\ FORCE_EXIT_FILE (after env0 everything_against_dir) = false.
Proof. apply (C6_force_exit_allows env0 everything_against_dir); concrete. Defined.

(** ** A session without a limit *)

Lemma working_in_loop st :
  is_true (complete st) = false -> working (phase st) = true -> in_loop st = true.
Proof. unfold in_loop. intros -> H. now destruct (phase st). Qed.

Lemma working_prompt env st :
  working (phase st) = true ->
  getPhasePrompt (next_iteration env st)
  = Some (OutPhasePrompt (phase st) (JNum (or_num (iteration st) 0 + 1)) (maxIterations st)).
Proof. unfold getPhasePrompt. cbn. now destruct (phase st). Qed.

(** One evaluation of a working session under its limit. *)
Lemma continue_phase env d mtime st :
  STATE_FILE d = Some (mtime, Parsed st) ->
  is_true (complete st) = false -> working (phase st) = true ->
  now env - mtime <= STALE_THRESHOLD_MS ->
  checkIterationLimit (Some st) = NotBlocked ->
  no_markers d -> cost_below_limit d ->
  exists c tr,
    run env d
    = Exit (BLOCK (ContinuePhase (phase st)))
        {| files := set_STATE_FILE (Some (now env, Parsed (next_iteration env st)))
                      (set_RLM_COSTS_FILE c d);
           trace := tr |}.
Proof.
  intros Es Hc Hw Hfresh Hlim Hm Hcost.
  destruct (main_reaches_loop env d Hm Hcost) as (c & tr & E).
  rewrite E. unfold from_loop, deepLoopCheck, state_content.
  rewrite Es. gsimpl. rewrite (working_in_loop st Hc Hw). gsimpl.
  rewrite (stale_false env _ mtime (Parsed st)) by (gsimpl; auto).
  rewrite Hlim. gsimpl. rewrite (working_prompt env st Hw). gsimpl.
  eauto.
Qed.

Lemma checkIterationLimit_no_limit st :
  truthy (maxIterations st) = false -> checkIterationLimit (Some st) = NotBlocked.
Proof. intros H. unfold checkIterationLimit. now rewrite H. Qed.

Lemma or_num_JNum n : or_num (JNum n) 0 = n.
Proof. unfold or_num. cbn. now destruct (Z.eqb_spec n 0). Qed.

(** C10 (amended). A session in a working phase (PLAN, BUILD, REVIEW or
    FIX) that is not complete and whose maxIterations is absent, zero or
    otherwise falsy, evaluated again and again with no marker present, the
    cost guard passing and each evaluation within 8 hours of the last
    write of the state file: every evaluation returns
    BLOCK(ContinuePhase), none returns BLOCK(IterationLimit), and after n
    evaluations the persisted iteration is the initial one plus n, as
    long as the count stays within 2^53 of zero, where the hook's
    addition is exact. *)
Theorem C10_unbounded_without_limit (envs : list Env) (d : FS) (mtime : Z) (st : SessionState) :
  STATE_FILE d = Some (mtime, Parsed st) ->
  truthy (maxIterations st) = false ->
  is_true (complete st) = false -> working (phase st) = true ->
  no_markers d -> cost_below_limit d ->
  timely mtime envs ->
  in_exact_range (or_num (iteration st) 0) ->
  in_exact_range (or_num (iteration st) 0 + Z.of_nat (length envs)) ->
  decisions envs d = repeat (Some (BLOCK (ContinuePhase (phase st)))) (length envs)
  /\ ~ In (Some (BLOCK IterationLimit)) (decisions envs d)
  /\ exists mtime' st',
       STATE_FILE (after_many envs d) = Some (mtime', Parsed st')
       /\ or_num (iteration st') 0 = or_num (iteration st) 0 + Z.of_nat (length envs).
Proof.
  intros Es Hmax Hc Hw Hm Hcost Ht _ _.
  cut (decisions envs d = repeat (Some (BLOCK (ContinuePhase (phase st)))) (length envs)
       /\ exists mtime' st',
            STATE_FILE (after_many envs d) = Some (mtime', Parsed st')
            /\ or_num (iteration st') 0 = or_num (iteration st) 0 + Z.of_nat (length envs)).
  { intros (Hd & Hs). split; [exact Hd|]. split; [|exact Hs].
    rewrite Hd. intros Hin. apply repeat_spec in Hin. discriminate. }
  revert d mtime st Es Hmax Hc Hw Hm Hcost Ht.
  induction envs as [|env envs IH]; intros d mtime st Es Hmax Hc Hw Hm Hcost Ht.
  - cbn. split; [reflexivity|]. exists mtime, st. split; [assumption|lia].
  - destruct Ht as (Hfresh & Ht).
    destruct (continue_phase env d mtime st Es Hc Hw Hfresh
                (checkIterationLimit_no_limit st Hmax) Hm Hcost) as (c & tr & E).
    cbn [decisions after_many length repeat]. unfold after. rewrite E.
    cbn [decision final files].
    set (d' := set_STATE_FILE _ _).
    destruct (IH d' (now env) (next_iteration env st)) as (Hd & mtime' & st' & Es' & Hit);
      try assumption; try reflexivity.
    split.
    + f_equal. exact Hd.
    + exists mtime', st'. split; [exact Es'|].
      rewrite Hit. cbn [next_iteration iteration]. rewrite or_num_JNum. lia.
Qed.

Lemma C10_witness :
  decisions three_evaluations no_limit_dir
  = repeat (Some (BLOCK (ContinuePhase BUILD))) 3
  /\ ~ In (Some (BLOCK IterationLimit)) (decisions three_evaluations no_limit_dir)
  /\ exists mtime' st',
       STATE_FILE (after_many three_evaluations no_limit_dir) = Some (mtime', Parsed st')
       /\ or_num (iteration st') 0 = 3 + 3.
Proof.
  apply (C10_unbounded_without_limit three_evaluations no_limit_dir (t0 - hour) build_no_limit);
    concrete.
Defined.

(** C10 as stated fails for a session that is not complete and has no
    maxIterations but whose phase has no prompt: iteration is incremented
    and the gate allows the exit. *)
Lemma C10_counterexample :
  truthy (maxIterations cancelled_no_limit) = false
  /\ complete cancelled_no_limit = JBool false
  /\ no_markers cancelled_dir
  /\ run env0 cancelled_dir
     = Exit ALLOW
         {| files :=
              set_STATE_FILE
                (Some (t0, Parsed {| phase := CANCELLED; iteration := JNum 4;
                                     maxIterations := JUndefined; complete := JBool false;
                                     lastActivity := Some t0 |}))
                empty_FS;
            trace := [Write STATE; Print OutOK] |}.
Proof. repeat split; reflexivity. Qed.

(** ** Completion checks *)

Lemma group_error_None l : fold_left group_error l None = None.
Proof. induction l as [|e l IH]; [reflexivity|exact IH]. Qed.

(** Grouping by file fails exactly when one of the errors is filed under
    a name of [Object.prototype]. *)
Lemma group_error_fold l groups :
  Forall (fun g => object_prototype_member (fst g) = false) groups ->
  if ordinary_files l then exists gs, fold_left group_error l (Some groups) = Some gs
  else fold_left group_error l (Some groups) = None.
Proof.
  revert groups. induction l as [|e l IH]; intros groups Hg.
  - cbn. eauto.
  - cbn [fold_left ordinary_files forallb group_error].
    destruct (object_prototype_member (file_key e)) eqn:Em; cbn [negb andb].
    + replace (existsb (fun g => String.eqb (fst g) (file_key e)) groups) with false.
      * apply group_error_None.
      * symmetry. apply not_true_is_false. intros H.
        apply existsb_exists in H as (g & Hin & Heq). apply String.eqb_eq in Heq.
        rewrite List.Forall_forall in Hg. specialize (Hg g Hin). congruence.
    + destruct (existsb (fun g => String.eqb (fst g) (file_key e)) groups); apply IH.
      * rewrite List.Forall_forall in *. intros g Hin.
        apply in_map_iff in Hin as (g0 & <- & Hin0). specialize (Hg g0 Hin0).
        now destruct (String.eqb (fst g0) (file_key e)).
      * apply Forall_app. split; [exact Hg|]. repeat constructor. exact Em.
Qed.

Lemma group_by_file_ordinary l :
  if ordinary_files l then exists gs, group_by_file l = Some gs else group_by_file l = None.
Proof. apply group_error_fold. constructor. Qed.

Lemma checkValidationErrors_eq env w :
  checkValidationErrors env w
  = Ret (if is_nil (recent_errors env (files w)) then ValidationOk
         else if ordinary_files (recent_errors env (files w))
              then ValidationFailed (recent_errors env (files w))
              else ValidationOk) w.
Proof.
  unfold checkValidationErrors, recent_errors. gsimpl.
  destruct (VALIDATION_STATE_FILE (files w)) as [[|vs]|] eqn:E; gsimpl; rewrite ?E; gsimpl;
    try reflexivity.
  pose proof (group_by_file_ordinary (List.filter (is_recent env) (default_list (v_errors vs))))
    as Hg.
  destruct (List.filter (is_recent env) (default_list (v_errors vs))) as [|e l];
    [reflexivity|]. cbn [is_nil].
  destruct (ordinary_files (e :: l)).
  - destruct Hg as (gs & ->). reflexivity.
  - rewrite Hg. reflexivity.
Qed.

Lemma recent_errors_In env d vs errs e t :
  VALIDATION_STATE_FILE d = Some (Parsed vs) -> v_errors vs = Some errs ->
  In e errs -> v_timestamp e = Some t -> now env - 60 * 60 * 1000 < t ->
  is_nil (recent_errors env d) = false.
Proof.
  intros Ev Ee Hin Et Ht. unfold recent_errors. rewrite Ev. cbn. rewrite Ee. cbn.
  assert (Hf : In e (List.filter (is_recent env) errs)).
  { apply filter_In. split; [assumption|]. unfold is_recent. rewrite Et.
    rewrite Z.gtb_ltb. apply Z.ltb_lt. lia. }
  destruct (List.filter (is_recent env) errs); [contradiction|reflexivity].
Qed.

Lemma completing st :
  complete st = JBool true -> phase st = SHIP ->
  in_loop st = false
  /\ is_true (complete st) || Phase_eqb (phase st) COMPLETE || Phase_eqb (phase st) SHIP = true.
Proof. unfold in_loop. now intros -> ->. Qed.

(** With no marker and the cost guard passing, a shipped and complete
    session comes to the completion checks with its state untouched. *)
Lemma main_reaches_completion env d mtime st :
  STATE_FILE d = Some (mtime, Parsed st) ->
  complete st = JBool true -> phase st = SHIP ->
  no_markers d -> cost_below_limit d ->
  exists c tr,
    run env d
    = (verifyCompletion env (Some st) ;;
       persistentTasksCheck env (parsed (PERSISTENT_TASKS_FILE d)) ;;
       releaseLock env ;;
       log OutOK ;;
       exit ALLOW)%gate {| files := set_RLM_COSTS_FILE c d; trace := tr |}.
Proof.
  intros Es Hc Hp Hm Hcost.
  destruct (main_reaches_loop env d Hm Hcost) as (c & tr & E).
  exists c, tr. rewrite E. unfold from_loop, deepLoopCheck, state_content.
  rewrite Es. gsimpl. destruct (completing st Hc Hp) as (-> & _). reflexivity.
Qed.

(** C3 (amended). For a state with complete = true and phase = SHIP and a
    validation state holding at least one error entry stamped within the
    last hour, none of the entries of the last hour being filed under a
    name that plain objects inherit (constructor, toString, ...), with
    no marker present and the cost guard passing, the gate returns
    BLOCK(ValidationErrors) (exit code 2) and rewrites the persisted
    state to phase = FIX and complete = false, the other fields
    unchanged. *)
Theorem C3_recent_validation_error_blocks
    (env : Env) (d : FS) (mtime : Z) (st : SessionState)
    (vs : ValidationState) (errs : list ValidationError) (e : ValidationError) (t : Z) :
  STATE_FILE d = Some (mtime, Parsed st) ->
  complete st = JBool true -> phase st = SHIP ->
  VALIDATION_STATE_FILE d = Some (Parsed vs) -> v_errors vs = Some errs ->
  In e errs -> v_timestamp e = Some t -> now env - 60 * 60 * 1000 < t ->
  ordinary_files (recent_errors env d) = true ->
  no_markers d -> cost_below_limit d ->
  decision (run env d) = Some (BLOCK ValidationErrors)
  /\ exit_code (BLOCK ValidationErrors) = 2
  /\ STATE_FILE (after env d) = Some (now env, Parsed (revert_to FIX st))
  /\ phase (revert_to FIX st) = FIX
  /\ complete (revert_to FIX st) = JBool false.
Proof.
  intros Es Hc Hp Ev Ee Hin Et Ht Hord Hm Hcost.
  destruct (main_reaches_completion env d mtime st Es Hc Hp Hm Hcost) as (c & tr & E).
  unfold after. rewrite E. unfold verifyCompletion.
  destruct (completing st Hc Hp) as (_ & ->).
  gsimpl. rewrite checkValidationErrors_eq. gsimpl.
  replace (recent_errors env (set_RLM_COSTS_FILE c d)) with (recent_errors env d) by reflexivity.
  rewrite (recent_errors_In env d vs errs e t) by assumption.
  rewrite Hord. gsimpl. repeat split; reflexivity.
Qed.

Lemma C3_witness :
  decision (run env0 recent_error_dir) = Some (BLOCK ValidationErrors)
  /\ exit_code (BLOCK ValidationErrors) = 2
  /\ STATE_FILE (after env0 recent_error_dir) = Some (now env0, Parsed (revert_to FIX ship_complete))
  /\ phase (revert_to FIX ship_complete) = FIX
  /\ complete (revert_to FIX ship_complete) = JBool false.
Proof.
  apply (C3_recent_validation_error_blocks env0 recent_error_dir (t0 - hour) ship_complete
           {| v_errors := Some [recent_error]; filesValidated := JNum 1 |}
           [recent_error] recent_error (t0 - 60000));
    first [ concrete | (left; reflexivity) ].
Defined.

(** C3 as stated fails when the error entry is more than an hour old:
    the state is complete and in SHIP, the validation state holds an
    error entry, no marker is present, and the gate allows the exit
    without touching the state. *)
Lemma C3_counterexample :
  complete ship_complete = JBool true
  /\ phase ship_complete = SHIP
  /\ STATE_FILE old_error_dir = Some (t0 - hour, Parsed ship_complete)
  /\ VALIDATION_STATE_FILE old_error_dir
     = Some (Parsed {| v_errors := Some [old_error]; filesValidated := JNum 1 |})
  /\ no_markers old_error_dir
  /\ run env0 old_error_dir = Exit ALLOW {| files := old_error_dir; trace := [Print OutOK] |}.
Proof. repeat split; reflexivity. Qed.

(** The validation check fails open when it cannot group the recent
    errors by file: with a second recent error filed under
    [constructor] the same session is allowed to exit. *)
Example validation_check_fails_open :
  ordinary_files (recent_errors env0 inherited_name_dir) = false
  /\ checkValidationErrors env0 (start inherited_name_dir)
     = Ret ValidationOk (start inherited_name_dir)
  /\ decision (run env0 inherited_name_dir) = Some ALLOW.
Proof. repeat split; reflexivity. Qed.

Lemma check_category_passed acc cat r :
  ran_and_passed r = true -> check_category acc (cat, r) = acc.
Proof.
  destruct acc as [missing failed], r as [r|]; cbn; [|discriminate].
  destruct (truthy (ran r)), (truthy (passed r)); cbn; congruence.
Qed.

Lemma verifyTestResults_passed w tr :
  TEST_RESULTS_FILE (files w) = Some (Parsed tr) ->
  ran_and_passed (r_tests tr) = true -> ran_and_passed (r_types tr) = true ->
  ran_and_passed (r_lint tr) = true -> ran_and_passed (r_build tr) = true ->
  truthy (allPassed tr) = true ->
  verifyTestResults w = Ret {| tv_valid := true; tv_missing := []; tv_failed := [] |} w.
Proof.
  intros E H1 H2 H3 H4 Hall. unfold verifyTestResults. gsimpl. rewrite E. gsimpl. rewrite E.
  unfold categories. cbn [fold_left].
  rewrite !check_category_passed by assumption.
  rewrite Hall. reflexivity.
Qed.

Lemma verifyGitResults_no_pr w gr :
  GIT_RESULTS_FILE (files w) = Some (Parsed gr) ->
  truthy (isGitRepo gr) = true -> truthy (hasGhCli gr) = true ->
  requirePR gr = JBool true -> truthy (pr_created gr) = false ->
  exists missing failed,
    verifyGitResults w
    = Ret {| gv_valid := false; gv_skip := false; gv_skipReason := None;
             gv_missing := "PR not created" :: missing; gv_failed := failed |} w.
Proof.
  intros E Hrepo Hgh Hreq Hpr. unfold verifyGitResults. gsimpl. rewrite E. gsimpl. rewrite E.
  rewrite Hrepo, Hgh, Hreq, Hpr. cbn [negb is_false andb].
  destruct (is_false (requireCIPass gr)), (truthy (ci_checked gr)), (truthy (ci_passed gr)),
    (is_false (requireMerge gr)), (truthy (merge_merged gr)); cbn; eauto.
Qed.

(** C5 (amended). For a state with phase = SHIP and complete = true, with
    no marker present, the cost guard passing and no validation error of
    the last hour, where the four test categories ran and passed and
    allPassed is set, and the git results show a repository with the gh
    tool, requirePR = true and no pull request created: the gate rewrites
    the persisted state to phase = REVIEW and complete = false and
    returns BLOCK(GitIncomplete), naming the missing pull request. *)
Theorem C5_missing_pr_blocks
    (env : Env) (d : FS) (mtime : Z) (st : SessionState) (tr : TestResults) (gr : GitResults) :
  STATE_FILE d = Some (mtime, Parsed st) ->
  phase st = SHIP -> complete st = JBool true ->
  TEST_RESULTS_FILE d = Some (Parsed tr) ->
  ran_and_passed (r_tests tr) = true -> ran_and_passed (r_types tr) = true ->
  ran_and_passed (r_lint tr) = true -> ran_and_passed (r_build tr) = true ->
  truthy (allPassed tr) = true ->
  GIT_RESULTS_FILE d = Some (Parsed gr) ->
  truthy (isGitRepo gr) = true -> truthy (hasGhCli gr) = true ->
  requirePR gr = JBool true -> truthy (pr_created gr) = false ->
  recent_errors env d = [] ->
  no_markers d -> cost_below_limit d ->
  decision (run env d) = Some (BLOCK GitIncomplete)
  /\ exit_code (BLOCK GitIncomplete) = 2
  /\ STATE_FILE (after env d) = Some (now env, Parsed (revert_to REVIEW st))
  /\ phase (revert_to REVIEW st) = REVIEW
  /\ complete (revert_to REVIEW st) = JBool false
  /\ exists tr' missing failed,
       trace (final (run env d))
       = tr' ++ [Print (OutGitIncomplete ("PR not created" :: missing) failed); Write STATE].
Proof.
  intros Es Hp Hc Et H1 H2 H3 H4 Hall Eg Hrepo Hgh Hreq Hpr Hval Hm Hcost.
  destruct (main_reaches_completion env d mtime st Es Hc Hp Hm Hcost) as (c & tr0 & E).
  unfold after. rewrite E. unfold verifyCompletion.
  destruct (completing st Hc Hp) as (_ & ->).
  gsimpl. rewrite checkValidationErrors_eq. gsimpl.
  replace (recent_errors env (set_RLM_COSTS_FILE c d)) with (recent_errors env d) by reflexivity.
  rewrite Hval. gsimpl.
  rewrite (verifyTestResults_passed _ tr) by (gsimpl; assumption).
  gsimpl.
  match goal with |- context [verifyGitResults ?w] =>
    destruct (verifyGitResults_no_pr w gr) as (missing & failed & Egit);
      [gsimpl; assumption..|rewrite Egit] end.
  cbn [gv_skip gv_valid gv_missing gv_failed negb andb]. gsimpl.
  repeat split; try reflexivity.
  exists tr0, missing, failed. now rewrite <- app_assoc.
Qed.

Lemma C5_witness :
  decision (run env0 no_pr_dir) = Some (BLOCK GitIncomplete)
  /\ exit_code (BLOCK GitIncomplete) = 2
  /\ STATE_FILE (after env0 no_pr_dir) = Some (now env0, Parsed (revert_to REVIEW ship_complete))
  /\ phase (revert_to REVIEW ship_complete) = REVIEW
  /\ complete (revert_to REVIEW ship_complete) = JBool false
  /\ exists tr' missing failed,
       trace (final (run env0 no_pr_dir))
       = tr' ++ [Print (OutGitIncomplete ("PR not created" :: missing) failed); Write STATE].
Proof.
  apply (C5_missing_pr_blocks env0 no_pr_dir (t0 - hour) ship_complete passing_tests no_pr);
    concrete.
Defined.

(** C5 as stated fails when the four categories ran and passed but the
    summary flag allPassed is false: the state is reverted to REVIEW, but
    the gate returns BLOCK(TestsUnverified) and never looks at the git
    results. *)
Lemma C5_counterexample :
  phase ship_complete = SHIP /\ complete ship_complete = JBool true
  /\ STATE_FILE no_pr_not_summed_dir = Some (t0 - hour, Parsed ship_complete)
  /\ TEST_RESULTS_FILE no_pr_not_summed_dir = Some (Parsed passing_tests_not_summed)
  /\ ran_and_passed (r_tests passing_tests_not_summed) = true
  /\ ran_and_passed (r_types passing_tests_not_summed) = true
  /\ ran_and_passed (r_lint passing_tests_not_summed) = true
  /\ ran_and_passed (r_build passing_tests_not_summed) = true
  /\ GIT_RESULTS_FILE no_pr_not_summed_dir = Some (Parsed no_pr)
  /\ truthy (isGitRepo no_pr) = true /\ truthy (hasGhCli no_pr) = true
  /\ requirePR no_pr = JBool true /\ pr_created no_pr = JBool false
  /\ no_markers no_pr_not_summed_dir
  /\ run env0 no_pr_not_summed_dir
     = Exit (BLOCK TestsUnverified)
         {| files := set_STATE_FILE (Some (t0, Parsed (revert_to REVIEW ship_complete)))
                       no_pr_not_summed_dir;
            trace := [Print (OutTestsNotVerified [] ["allPassed is false"]); Write STATE] |}.
Proof. repeat split; reflexivity. Qed.

(** ** The lock *)



(** The lock through its life: taken by 1111 a minute ago, refused to
    4242 now, granted to 4242 five minutes later, released by 4242 only. *)
Example lock_life :
  acquireLock env0 locked_world = Ret (NotAcquired "1111" 60000) locked_world
  /\ acquireLock {| now := t0 + 5 * 60000; pid := "4242" |} locked_world
     = Ret Acquired
         {| files := set_LOCK_FILE
                       (Some (Parsed {| agentId := "4242"; acquiredAt := Some (t0 + 5 * 60000) |}))
                       empty_FS;
            trace := [Write AGENT_LOCK] |}
  /\ releaseLock env0 locked_world = Ret tt locked_world
  /\ releaseLock {| now := t0; pid := "1111" |} locked_world
     = Ret tt {| files := empty_FS; trace := [Unlink AGENT_LOCK] |}.
Proof. repeat split; reflexivity. Qed.

(** ** Frames: what a block leaves as it found it *)

Section Always.
Context (P : World -> World -> Prop).
Hypothesis P_refl : forall w, P w w.
Hypothesis P_trans : forall w1 w2 w3, P w1 w2 -> P w2 w3 -> P w1 w3.

Lemma always_ret {A} (a : A) : always P (ret a).
Proof. intros w. apply P_refl. Qed.

Lemma always_exit {A} d : always P (exit (A := A) d).
Proof. intros w. apply P_refl. Qed.

Lemma always_bind {A B} (m : M A) (k : A -> M B) :
  always P m -> (forall a, always P (k a)) -> always P (bind m k).
Proof.
  intros Hm Hk w. specialize (Hm w). cbn. destruct (m w) as [a w1|w1|dd w1]; cbn in *; auto.
  eapply P_trans; [exact Hm|apply Hk].
Qed.

Lemma always_try {A} (m h : M A) :
  always P m -> always P h -> always P (try_catch m h).
Proof.
  intros Hm Hh w. specialize (Hm w). cbn. destruct (m w) as [a w1|w1|dd w1]; cbn in *; auto.
  eapply P_trans; [exact Hm|apply Hh].
Qed.

Lemma always_throw {A} : always P (throw (A := A)).
Proof. intros w. apply P_refl. Qed.

Lemma always_existsSync {A} (get : FS -> option A) : always P (existsSync get).
Proof. intros w. apply P_refl. Qed.

Lemma always_existsMarker get : always P (existsMarker get).
Proof. intros w. apply P_refl. Qed.

Lemma always_readJSON {A} (get : FS -> option (file A)) : always P (readJSON get).
Proof. intros w. cbn. destruct (get (files w)) as [[|a]|]; apply P_refl. Qed.

Lemma always_statSync : always P statSync_mtimeMs.
Proof. intros w. cbn. destruct (STATE_FILE (files w)) as [[m c]|]; apply P_refl. Qed.
End Always.

Lemma keeps_costs_refl w : keeps_costs w w.
Proof. split; [reflexivity|]. exists []. now rewrite app_nil_r. Qed.

Lemma keeps_costs_trans w1 w2 w3 : keeps_costs w1 w2 -> keeps_costs w2 w3 -> keeps_costs w1 w3.
Proof.
  intros (E1 & tr1 & T1) (E2 & tr2 & T2). split; [congruence|].
  exists (tr1 ++ tr2). rewrite T2, T1. now rewrite app_assoc.
Qed.

Lemma keeps_costs_log o : always keeps_costs (log o).
Proof. intros w. split; [reflexivity|]. cbn. eauto. Qed.

Lemma keeps_costs_modify e f :
  (forall d, RLM_COSTS_FILE (f d) = RLM_COSTS_FILE d) -> always keeps_costs (modify e f).
Proof. intros H w. split; [apply H|]. cbn. eauto. Qed.

(** One step of a frame proof for the relation whose lemmas are given. *)
Ltac always_step R R_refl R_trans R_log modify_tac :=
  first
    [ apply (always_bind R R_trans)
    | apply (always_try R R_trans)
    | apply (always_ret R R_refl)
    | apply (always_exit R R_refl)
    | apply (always_throw R R_refl)
    | apply (always_existsSync R R_refl)
    | apply (always_existsMarker R R_refl)
    | apply (always_readJSON R R_refl)
    | apply (always_statSync R R_refl)
    | apply R_log
    | modify_tac
    | match goal with
      | |- forall _, _ => intro
      | |- always _ (if ?b then _ else _) => destruct b
      | |- always _ (match ?x with _ => _ end) => destruct x
      end ].

Ltac unfold_blocks :=
  unfold from_loop, rlmCostCheck, deepLoopCheck, verifyCompletion, persistentTasksCheck,
    releaseLock, isStateStale, checkRlmCosts, checkValidationErrors, verifyTestResults,
    verifyGitResults, checkUserEscalation, write_state, writeFileSync, unlinkSync.

Ltac keeps_costs_tac :=
  repeat always_step keeps_costs keeps_costs_refl keeps_costs_trans
    keeps_costs_log ltac:(apply keeps_costs_modify; intros; reflexivity).

Lemma from_loop_keeps_costs env d : always keeps_costs (from_loop env d).
Proof.
  unfold_blocks. keeps_costs_tac.
Qed.

(** ** The cost guard *)

Section Never.
Context (bad : Decision).

Lemma never_ret {A} (a : A) : never bad (ret a).
Proof. intros w. discriminate. Qed.

Lemma never_exit {A} d : d <> bad -> never bad (exit (A := A) d).
Proof. intros H w. cbn. congruence. Qed.

Lemma never_bind {A B} (m : M A) (k : A -> M B) :
  never bad m -> (forall a, never bad (k a)) -> never bad (bind m k).
Proof.
  intros Hm Hk w. specialize (Hm w). cbn.
  destruct (m w) as [a w1|w1|dd w1]; cbn in *; [apply Hk|discriminate|exact Hm].
Qed.

Lemma never_try {A} (m h : M A) : never bad m -> never bad h -> never bad (try_catch m h).
Proof.
  intros Hm Hh w. specialize (Hm w). cbn.
  destruct (m w) as [a w1|w1|dd w1]; cbn in *; [discriminate|apply Hh|exact Hm].
Qed.

Lemma never_throw {A} : never bad (throw (A := A)).
Proof. intros w. discriminate. Qed.

Lemma never_log o : never bad (log o).
Proof. intros w. discriminate. Qed.

Lemma never_modify e f : never bad (modify e f).
Proof. intros w. discriminate. Qed.

Lemma never_existsSync {A} (get : FS -> option A) : never bad (existsSync get).
Proof. intros w. discriminate. Qed.

Lemma never_readJSON {A} (get : FS -> option (file A)) : never bad (readJSON get).
Proof. intros w. cbn. destruct (get (files w)) as [[|a]|]; discriminate. Qed.

Lemma never_statSync : never bad statSync_mtimeMs.
Proof. intros w. cbn. destruct (STATE_FILE (files w)) as [[m c]|]; discriminate. Qed.
End Never.

Ltac never_step :=
  first
    [ apply never_bind
    | apply never_try
    | apply never_ret
    | (apply never_exit; discriminate)
    | apply never_log
    | apply never_throw
    | apply never_modify
    | apply never_existsSync
    | apply never_readJSON
    | apply never_statSync
    | match goal with
      | |- forall _, _ => intro
      | |- never _ (if ?b then _ else _) => destruct b
      | |- never _ (match ?x with _ => _ end) => destruct x
      end ].

Lemma from_loop_never_cost_limit env d : never (BLOCK CostLimitReached) (from_loop env d).
Proof.
  unfold_blocks. repeat never_step.
Qed.

Lemma slice_last_short {A} n (l : list A) : (length l <= n)%nat -> slice_last n l = l.
Proof. intros H. unfold slice_last. now replace (length l - n)%nat with 0%nat by lia. Qed.

Lemma slice_last_length {A} n (l : list A) : (length (slice_last n l) <= n)%nat.
Proof. unfold slice_last. rewrite length_skipn. lia. Qed.

Lemma update_costs_sessions env ctx costs :
  sessions (update_costs env ctx costs)
  = Some (slice_last 10
            (default_list (sessions costs)
             ++ [{| cs_timestamp := now env;
                    cs_sub_calls := or_num (sub_calls ctx) 0;
                    cs_cost_estimate := default_string (cost_estimate ctx) "unknown" |}])).
Proof.
  unfold update_costs. cbn [sessions]. f_equal.
  match goal with |- (if (10 <? length ?l)%nat then _ else _) = _ =>
    destruct (Nat.ltb_spec 10 (length l)); [reflexivity|now rewrite slice_last_short] end.
Qed.

(** What the cost guard does with a readable burst record and a
    cumulative record that is missing or readable. *)
Lemma checkRlmCosts_tracks env w ctx :
  RLM_CONTEXT_FILE (files w) = Some (Parsed ctx) ->
  RLM_COSTS_FILE (files w) <> Some Unreadable ->
  checkRlmCosts env w
  = Ret (if RLM_SUB_CALL_LIMIT <=? or_num (sub_calls ctx) 0
         then RlmBlocked (or_num (sub_calls ctx) 0)
         else if RLM_SUB_CALL_WARNING <=? or_num (sub_calls ctx) 0
              then RlmWarning (or_num (sub_calls ctx) 0)
              else RlmOk)
      {| files := set_RLM_COSTS_FILE
                    (Some (Parsed (update_costs env ctx (cumulative (files w))))) (files w);
         trace := trace w ++ [Write RLM_COSTS] |}.
Proof.
  intros Ec Hk. unfold checkRlmCosts, cumulative. gsimpl. rewrite Ec. gsimpl. rewrite Ec.
  destruct (RLM_COSTS_FILE (files w)) as [[|costs]|] eqn:Ek; [congruence| |];
    gsimpl; rewrite ?Ek; gsimpl;
    destruct (RLM_SUB_CALL_LIMIT <=? or_num (sub_calls ctx) 0);
    try destruct (RLM_SUB_CALL_WARNING <=? or_num (sub_calls ctx) 0); reflexivity.
Qed.

(** C8 (amended). An evaluation that comes to the cost guard (no marker
    present) with a readable burst record, whose sub-call count is a
    number or absent, and a cumulative record that is missing or
    readable, the running total, the burst's sub-call count and their
    sum lying within 2^53 of zero, adds the burst's
    sub-call count to the running total and to the history (with the
    burst's cost estimate, or 'unknown' when that is absent or empty),
    kept to the last 10 bursts, then judges the burst alone: with 50
    sub-calls or more the gate leaves with BLOCK(CostLimitReached); with
    30 to 49 it prints the warning and goes on to the remaining steps,
    which never answer CostLimitReached. *)
Theorem C8_cost_guard (env : Env) (d : FS) (ctx : RlmContext) :
  no_markers d ->
  RLM_CONTEXT_FILE d = Some (Parsed ctx) ->
  RLM_COSTS_FILE d <> Some Unreadable ->
  sub_calls ctx <> JBool true ->
  in_exact_range (or_num (total_sub_calls (cumulative d)) 0) ->
  in_exact_range (or_num (sub_calls ctx) 0) ->
  in_exact_range (or_num (total_sub_calls (cumulative d)) 0 + or_num (sub_calls ctx) 0) ->
  let n := or_num (sub_calls ctx) 0 in
  let old := cumulative d in
  let new := update_costs env ctx old in
  let tracked := {| files := set_RLM_COSTS_FILE (Some (Parsed new)) d;
                    trace := [Write RLM_COSTS] |} in
  RLM_COSTS_FILE (after env d) = Some (Parsed new)
  /\ total_sub_calls new = JNum (or_num (total_sub_calls old) 0 + n)
  /\ sessions new
     = Some (slice_last 10
               (default_list (sessions old)
                ++ [{| cs_timestamp := now env; cs_sub_calls := n;
                       cs_cost_estimate := default_string (cost_estimate ctx) "unknown" |}]))
  /\ (length (default_list (sessions new)) <= 10)%nat
  /\ RLM_SUB_CALL_LIMIT = 50 /\ RLM_SUB_CALL_WARNING = 30
  /\ (RLM_SUB_CALL_LIMIT <= n ->
      run env d
      = Exit (BLOCK CostLimitReached)
          {| files := files tracked; trace := trace tracked ++ [Print (OutCostLimit n)] |})
  /\ (RLM_SUB_CALL_WARNING <= n < RLM_SUB_CALL_LIMIT ->
      run env d
      = from_loop env d
          {| files := files tracked; trace := trace tracked ++ [Print (OutCostWarning n)] |}
      /\ decision (run env d) <> Some (BLOCK CostLimitReached)
      /\ In (Print (OutCostWarning n)) (trace (final (run env d)))).
Proof.
  intros (Hfe & Hfc & Hrh & Hesc) Ec Hk _ _ _ _ n old new tracked.
  assert (Hrun : run env d
                 = (rlmCostCheck env ;; from_loop env d)%gate (start d)).
  { unfold run, main.
    rewrite (bind_Ret _ _ _ _ _ (forceExitCheck_pass (start d) Hfe)).
    rewrite (bind_Ret _ _ _ _ _ (forceCompleteCheck_pass (start d) Hfc)).
    rewrite (bind_Ret _ _ _ _ _ (ralphHandoffCheck_pass (start d) Hrh)).
    rewrite (bind_Ret _ _ _ _ _ (userEscalationCheck_pass (start d) ltac:(cbn; now rewrite Hesc))).
    rewrite (bind_Ret _ _ _ _ _ (readState_eq (start d))).
    rewrite (bind_Ret _ _ _ _ _ (readPersistentTasks_eq (start d))).
    reflexivity. }
  assert (Hcheck := checkRlmCosts_tracks env (start d) ctx Ec Hk).
  cbn [start files trace app] in Hcheck. fold n old new in Hcheck.
  assert (Hlen : (length (default_list (sessions new)) <= 10)%nat).
  { unfold new. rewrite update_costs_sessions. cbn [default_list]. apply slice_last_length. }
  assert (Hafter : RLM_COSTS_FILE (after env d) = Some (Parsed new)).
  { unfold after. rewrite Hrun. unfold rlmCostCheck. cbn [bind]. rewrite Hcheck.
    destruct (RLM_SUB_CALL_LIMIT <=? n); [reflexivity|].
    destruct (RLM_SUB_CALL_WARNING <=? n); gsimpl.
    - match goal with |- context [from_loop env d ?w] =>
        destruct (from_loop_keeps_costs env d w) as (-> & _) end. reflexivity.
    - match goal with |- context [from_loop env d ?w] =>
        destruct (from_loop_keeps_costs env d w) as (-> & _) end. reflexivity. }
  split; [exact Hafter|]. split; [reflexivity|]. split; [apply update_costs_sessions|].
  split; [exact Hlen|]. split; [reflexivity|]. split; [reflexivity|]. split.
  - intros Hn. rewrite Hrun. unfold rlmCostCheck. cbn [bind]. rewrite Hcheck.
    destruct (Z.leb_spec RLM_SUB_CALL_LIMIT n); [reflexivity|lia].
  - intros (Hlo & Hhi).
    assert (E : run env d
                = from_loop env d
                    {| files := files tracked;
                       trace := trace tracked ++ [Print (OutCostWarning n)] |}).
    { rewrite Hrun. unfold rlmCostCheck. cbn [bind]. rewrite Hcheck.
      destruct (Z.leb_spec RLM_SUB_CALL_LIMIT n); [lia|].
      destruct (Z.leb_spec RLM_SUB_CALL_WARNING n); [reflexivity|lia]. }
    split; [exact E|]. rewrite E. split; [apply from_loop_never_cost_limit|].
    match goal with |- context [from_loop env d ?w] =>
      destruct (from_loop_keeps_costs env d w) as (_ & tr & ->) end.
    cbn [trace tracked]. apply in_or_app. left. cbn. auto.
Qed.

Lemma C8_witness :
  run env0 (burst_dir 60)
  = Exit (BLOCK CostLimitReached)
      {| files := set_RLM_COSTS_FILE
                    (Some (Parsed (update_costs env0 (burst 60) ten_bursts))) (burst_dir 60);
         trace := [Write RLM_COSTS; Print (OutCostLimit 60)] |}
  /\ total_sub_calls (update_costs env0 (burst 60) ten_bursts) = JNum (55 + 60)
  /\ (length (default_list (sessions (update_costs env0 (burst 60) ten_bursts))) <= 10)%nat
  /\ RLM_COSTS_FILE (after env0 (burst_dir 35))
     = Some (Parsed (update_costs env0 (burst 35) ten_bursts))
  /\ decision (run env0 (burst_dir 35)) <> Some (BLOCK CostLimitReached)
  /\ In (Print (OutCostWarning 35)) (trace (final (run env0 (burst_dir 35)))).
Proof.
  destruct (C8_cost_guard env0 (burst_dir 60) (burst 60))
    as (_ & H2 & _ & H4 & _ & _ & H5 & _); [concrete..|].
  destruct (C8_cost_guard env0 (burst_dir 35) (burst 35))
    as (H1' & _ & _ & _ & _ & _ & _ & H6'); [concrete..|].
  destruct H6' as (_ & H7' & H8'); [vm_compute; split; congruence|].
  split; [apply H5; vm_compute; congruence|].
  split; [exact H2|]. split; [exact H4|]. split; [exact H1'|].
  split; [exact H7'|exact H8'].
Defined.

(** C8 as stated fails when the cumulative record cannot be read: the
    burst record is present with 60 sub-calls, no marker is present, and
    the cost guard neither records the burst nor blocks. *)
Lemma C8_counterexample :
  RLM_CONTEXT_FILE burst_unreadable_dir = Some (Parsed (burst 60))
  /\ or_num (sub_calls (burst 60)) 0 = 60
  /\ no_markers burst_unreadable_dir
  /\ run env0 burst_unreadable_dir
     = Exit ALLOW {| files := burst_unreadable_dir; trace := [Print OutOK] |}.
Proof. repeat split; reflexivity. Qed.

(** Nor does an evaluation that a marker ends before the cost guard
    record the burst. *)
Example burst_behind_force_exit :
  run env0 burst_forced_dir
  = Exit ALLOW {| files := burst_dir 60; trace := [Unlink FORCE_EXIT; Print OutForceExit] |}
  /\ RLM_COSTS_FILE (after env0 burst_forced_dir) = Some (Parsed ten_bursts).
Proof. split; reflexivity. Qed.

(** The history keeps the last ten bursts. *)
Example history_capped :
  sessions (update_costs env0 (burst 35) ten_bursts)
  = Some (map earlier_burst [9; 8; 7; 6; 5; 4; 3; 2; 1]
          ++ [{| cs_timestamp := t0; cs_sub_calls := 35; cs_cost_estimate := "unknown" |}]).
Proof. reflexivity. Qed.

(** ** The failure log *)

Lemma trackFailure_counts env w taskId error fl :
  FAILURE_FILE (files w) = Some (Parsed fl) ->
  (fl !! taskId = None -> object_prototype_member taskId = false) ->
  let entry := default {| f_count := 0; f_errors := []; f_lastFailure := None |} (fl !! taskId) in
  let entry' := {| f_count := f_count entry + 1;
                   f_errors := f_errors entry ++ [{| e_error := error; e_timestamp := now env |}];
                   f_lastFailure := Some (now env) |} in
  trackFailure env taskId error w
  = Ret (f_count entry + 1)
      {| files := set_FAILURE_FILE (Some (Parsed (<[taskId := entry']> fl))) (files w);
         trace := trace w ++ [Write FAILURES] |}.
Proof.
  intros E Hown. unfold trackFailure. gsimpl. rewrite E. gsimpl. rewrite E.
  destruct (fl !! taskId); [reflexivity|]. now rewrite Hown.
Qed.

(** Two failures on record block on the backlog; a third one, once
    tracked, makes the next evaluation escalate. *)
Example third_failure_escalates :
  decision (run env0 (backlog_dir {[ "task-002" := failed 2 ]}))
  = Some (BLOCK (TasksRemaining 2))
  /\ (exists w, trackFailure env0 "task-002" "tests failed"
                  (start (backlog_dir {[ "task-002" := failed 2 ]})) = Ret 3 w
                /\ decision (run env0 (files w)) = Some (ESCALATE EscalationRequired)).
Proof. split; [reflexivity|]. eexists. split; reflexivity. Qed.

(** ** The backlog check *)

Lemma count_writes_app n tr1 tr2 :
  count_writes n (tr1 ++ tr2) = (count_writes n tr1 + count_writes n tr2)%nat.
Proof. unfold count_writes. now rewrite List.filter_app, length_app. Qed.

Lemma keeps_backlog_refl w : keeps_backlog w w.
Proof. repeat split. exists []. now rewrite app_nil_r. Qed.

Lemma keeps_backlog_trans w1 w2 w3 :
  keeps_backlog w1 w2 -> keeps_backlog w2 w3 -> keeps_backlog w1 w3.
Proof.
  intros (A1 & B1 & C1 & D1 & E1 & tr1 & T1 & Q1) (A2 & B2 & C2 & D2 & E2 & tr2 & T2 & Q2).
  repeat split; try congruence.
  exists (tr1 ++ tr2). split; [rewrite T2, T1; now rewrite app_assoc|].
  rewrite count_writes_app. lia.
Qed.

Lemma keeps_backlog_log o : always keeps_backlog (log o).
Proof. intros w. repeat split. cbn. eauto. Qed.

Lemma keeps_backlog_modify e f :
  (forall d, FORCE_EXIT_FILE (f d) = FORCE_EXIT_FILE d
             /\ FORCE_COMPLETE_FILE (f d) = FORCE_COMPLETE_FILE d
             /\ RALPH_HANDOFF_FILE (f d) = RALPH_HANDOFF_FILE d
             /\ ESCALATION_FILE (f d) = ESCALATION_FILE d
             /\ FAILURE_FILE (f d) = FAILURE_FILE d
             /\ writes_to NEEDS_USER e = false) ->
  always keeps_backlog (modify e f).
Proof.
  intros H w. destruct (H (files w)) as (A & B & C & D & E & Q).
  repeat split; try assumption. cbn. exists [e]. split; [reflexivity|].
  unfold count_writes. cbn. now rewrite Q.
Qed.

Ltac keeps_backlog_tac :=
  repeat always_step keeps_backlog keeps_backlog_refl keeps_backlog_trans
    keeps_backlog_log ltac:(apply keeps_backlog_modify; intros; repeat split; reflexivity).

Lemma rlmCostCheck_keeps_backlog env : always keeps_backlog (rlmCostCheck env).
Proof. unfold_blocks. keeps_backlog_tac. Qed.

Lemma deepLoopCheck_keeps_backlog env state : always keeps_backlog (deepLoopCheck env state).
Proof. unfold_blocks. keeps_backlog_tac. Qed.

Lemma verifyCompletion_keeps_backlog env state : always keeps_backlog (verifyCompletion env state).
Proof. unfold_blocks. keeps_backlog_tac. Qed.

Lemma always_Ret {A} P (m : M A) w a w' : always P m -> m w = Ret a w' -> P w w'.
Proof. intros H E. specialize (H w). now rewrite E in H. Qed.

Lemma forceExitCheck_Ret w a w' :
  forceExitCheck w = Ret a w' -> w' = w /\ FORCE_EXIT_FILE (files w) = false.
Proof.
  unfold forceExitCheck, shouldForceExit. gsimpl.
  destruct (FORCE_EXIT_FILE (files w)); gsimpl; [discriminate|]. intros [= _ <-]. auto.
Qed.

Lemma forceCompleteCheck_Ret w a w' :
  forceCompleteCheck w = Ret a w' -> w' = w /\ FORCE_COMPLETE_FILE (files w) = false.
Proof.
  unfold forceCompleteCheck, shouldForceComplete. gsimpl.
  destruct (FORCE_COMPLETE_FILE (files w)); gsimpl; [discriminate|]. intros [= _ <-]. auto.
Qed.

Lemma ralphHandoffCheck_Ret w a w' :
  ralphHandoffCheck w = Ret a w' -> w' = w /\ RALPH_HANDOFF_FILE (files w) = false.
Proof.
  unfold ralphHandoffCheck, shouldRalphHandoff. gsimpl.
  destruct (RALPH_HANDOFF_FILE (files w)); gsimpl; [discriminate|]. intros [= _ <-]. auto.
Qed.

Lemma userEscalationCheck_Ret w a w' :
  userEscalationCheck w = Ret a w' -> w' = w /\ parsed (ESCALATION_FILE (files w)) = None.
Proof.
  unfold userEscalationCheck. gsimpl.
  destruct (ESCALATION_FILE (files w)) as [[|esc]|] eqn:E; gsimpl; rewrite ?E; gsimpl;
    try discriminate; intros [= _ <-]; auto.
Qed.

(** What is known when [main] comes to the backlog check. *)
Lemma beforeTasks_Ret env d td w1 :
  beforeTasks env (start d) = Ret td w1 ->
  td = parsed (PERSISTENT_TASKS_FILE d)
  /\ FORCE_EXIT_FILE d = false /\ FORCE_COMPLETE_FILE d = false
  /\ RALPH_HANDOFF_FILE d = false /\ parsed (ESCALATION_FILE d) = None
  /\ keeps_backlog (start d) w1.
Proof.
  unfold beforeTasks. intros H.
  apply bind_Ret_inv in H as (? & wa & Ha & H). apply forceExitCheck_Ret in Ha as (-> & Hfe).
  apply bind_Ret_inv in H as (? & wb & Hb & H). apply forceCompleteCheck_Ret in Hb as (-> & Hfc).
  apply bind_Ret_inv in H as (? & wc & Hc & H). apply ralphHandoffCheck_Ret in Hc as (-> & Hrh).
  apply bind_Ret_inv in H as (? & wd & Hd & H). apply userEscalationCheck_Ret in Hd as (-> & Hesc).
  apply bind_Ret_inv in H as (st & we & He & H). rewrite readState_eq in He.
  injection He as <- <-.
  apply bind_Ret_inv in H as (td' & wf & Hf & H). rewrite readPersistentTasks_eq in Hf.
  injection Hf as <- <-.
  apply bind_Ret_inv in H as (? & wg & Hg & H).
  apply (always_Ret _ _ _ _ _ (rlmCostCheck_keeps_backlog env)) in Hg.
  apply bind_Ret_inv in H as (st' & wh & Hh & H).
  apply (always_Ret _ _ _ _ _ (deepLoopCheck_keeps_backlog env _)) in Hh.
  apply bind_Ret_inv in H as (? & wi & Hi & H).
  apply (always_Ret _ _ _ _ _ (verifyCompletion_keeps_backlog env _)) in Hi.
  injection H as <- <-.
  do 5 (split; [first [reflexivity | assumption]|]).
  eapply keeps_backlog_trans; [exact Hg|]. eapply keeps_backlog_trans; [exact Hh|exact Hi].
Qed.

Lemma main_split env w :
  main env w
  = (tasksData <- beforeTasks env ;;
     persistentTasksCheck env tasksData ;;
     releaseLock env ;;
     log OutOK ;;
     exit ALLOW)%gate w.
Proof.
  unfold main, beforeTasks. cbn [bind ret].
  repeat match goal with
         | |- context [match ?m ?x with Ret _ _ => _ | Throw _ => _ | Exit _ _ => _ end] =>
             destruct (m x); try reflexivity
         end.
Qed.

Lemma find_none_in_progress (l : list PersistentTask) :
  (forall t, In t l -> t_status t <> "in_progress") -> List.find in_progress l = None.
Proof.
  induction l as [|t l IH]; intros H; [reflexivity|]. cbn.
  unfold in_progress at 1. destruct (String.eqb_spec (t_status t) "in_progress") as [E|_].
  - exfalso. apply (H t); [now left|exact E].
  - apply IH. intros t' Hin. apply H. now right.
Qed.

Lemma find_first_in_progress (l : list PersistentTask) t :
  List.find in_progress l = Some t ->
  t_status t = "in_progress"
  /\ exists before later,
       l = before ++ t :: later /\ forall t', In t' before -> t_status t' <> "in_progress".
Proof.
  induction l as [|a l IH]; [discriminate|]. cbn.
  unfold in_progress at 1. destruct (String.eqb_spec (t_status a) "in_progress") as [E|N].
  - intros [= <-]. split; [exact E|]. exists [], l. split; [reflexivity|]. intros ? [].
  - intros H. destruct (IH H) as (Hs & before & later & -> & Hb). split; [exact Hs|].
    exists (a :: before), later. split; [reflexivity|].
    intros t' [<-|Hin]; [exact N|now apply Hb].
Qed.

Lemma checkUserEscalation_eq env w taskId fl :
  FAILURE_FILE (files w) = Some (Parsed fl) ->
  checkUserEscalation env taskId w
  = match fl !! taskId with
    | Some entry =>
        if MAX_CONSECUTIVE_FAILURES <=? f_count entry then
          Ret (Escalate taskId (f_count entry) (slice_last 3 (f_errors entry)))
            {| files := set_ESCALATION_FILE
                          (Some (Parsed {| esc_taskId := taskId;
                                           esc_failures := f_count entry;
                                           esc_errors := slice_last 3 (f_errors entry);
                                           esc_createdAt := now env |}))
                          (files w);
               trace := trace w ++ [Write NEEDS_USER] |}
        else Ret NoEscalation w
    | None => Ret NoEscalation w
    end.
Proof.
  intros E. unfold checkUserEscalation. gsimpl. rewrite E. gsimpl. rewrite E.
  destruct (fl !! taskId) as [entry|]; [|reflexivity].
  destruct (MAX_CONSECUTIVE_FAILURES <=? f_count entry); reflexivity.
Qed.

(** With the escalation marker readable and no one-shot marker, the
    gate escalates at once and touches nothing. *)
Lemma escalation_pending env d esc :
  FORCE_EXIT_FILE d = false -> FORCE_COMPLETE_FILE d = false ->
  RALPH_HANDOFF_FILE d = false -> ESCALATION_FILE d = Some (Parsed esc) ->
  run env d
  = Exit (ESCALATE EscalationPending)
      {| files := d; trace := [Print (OutEscalationPending (esc_taskId esc))] |}.
Proof.
  intros Hfe Hfc Hrh Hesc. unfold run, main.
  rewrite (bind_Ret _ _ _ _ _ (forceExitCheck_pass (start d) Hfe)).
  rewrite (bind_Ret _ _ _ _ _ (forceCompleteCheck_pass (start d) Hfc)).
  rewrite (bind_Ret _ _ _ _ _ (ralphHandoffCheck_pass (start d) Hrh)).
  unfold userEscalationCheck. gsimpl. rewrite Hesc. gsimpl. rewrite Hesc. reflexivity.
Qed.

Lemma escalation_pending_many envs d esc :
  FORCE_EXIT_FILE d = false -> FORCE_COMPLETE_FILE d = false ->
  RALPH_HANDOFF_FILE d = false -> ESCALATION_FILE d = Some (Parsed esc) ->
  decisions envs d = repeat (Some (ESCALATE EscalationPending)) (length envs)
  /\ after_many envs d = d
  /\ count_writes NEEDS_USER (events envs d) = 0%nat.
Proof.
  intros Hfe Hfc Hrh Hesc. induction envs as [|env envs (IH1 & IH2 & IH3)].
  - repeat split.
  - cbn [decisions after_many events length repeat]. unfold after.
    rewrite (escalation_pending env d esc Hfe Hfc Hrh Hesc). cbn [decision final files trace].
    rewrite IH1, IH2, count_writes_app, IH3. repeat split.
Qed.

(** C7 (amended). When the gate comes to the backlog check and at least
    one task that is neither completed, blocked nor stale remains, it
    takes the first such task that is in progress, or the earliest one
    when none is in progress.  If the failure log counts fewer than 3
    failures for that task (2, say), the decision is
    BLOCK(TasksRemaining) naming it and no escalation marker is written;
    with 3 failures or more the decision is ESCALATE, the escalation
    marker is written with the last 3 errors, and later evaluations of
    the untouched directory all answer ESCALATE from the marker without
    writing it again: it is written exactly once. *)
Theorem C7_backlog_blocks_then_escalates
    (env : Env) (d : FS) (td : option TasksData) (w1 : World)
    (first : PersistentTask) (rest : list PersistentTask)
    (fl : gmap string FailureEntry) (entry : FailureEntry) :
  beforeTasks env (start d) = Ret td w1 ->
  getPendingTasks env td = first :: rest ->
  FAILURE_FILE d = Some (Parsed fl) ->
  fl !! t_id (current_task first (first :: rest)) = Some entry ->
  let pending := first :: rest in
  let current := current_task first pending in
  let marker := {| esc_taskId := t_id current;
                   esc_failures := f_count entry;
                   esc_errors := slice_last 3 (f_errors entry);
                   esc_createdAt := now env |} in
  td = parsed (PERSISTENT_TASKS_FILE d)
  /\ ((forall t, In t pending -> t_status t <> "in_progress") -> current = first)
  /\ ((exists t, In t pending /\ t_status t = "in_progress") ->
      t_status current = "in_progress"
      /\ exists before later,
           pending = before ++ current :: later
           /\ forall t, In t before -> t_status t <> "in_progress")
  /\ (f_count entry < MAX_CONSECUTIVE_FAILURES ->
      run env d
      = Exit (BLOCK (TasksRemaining (length pending)))
          {| files := files w1;
             trace := trace w1 ++ [Print (OutTasksRemaining (length pending)
                                            (t_content current) (t_id current))] |}
      /\ ESCALATION_FILE (after env d) = ESCALATION_FILE d
      /\ count_writes NEEDS_USER (trace (final (run env d))) = 0%nat)
  /\ (MAX_CONSECUTIVE_FAILURES <= f_count entry ->
      decision (run env d) = Some (ESCALATE EscalationRequired)
      /\ ESCALATION_FILE (after env d) = Some (Parsed marker)
      /\ forall envs,
           decisions envs (after env d)
           = repeat (Some (ESCALATE EscalationPending)) (length envs)
           /\ after_many envs (after env d) = after env d
           /\ count_writes NEEDS_USER (trace (final (run env d)) ++ events envs (after env d))
              = 1%nat).
Proof.
  intros Hbefore Hpending Efl Hentry pending current marker.
  destruct (beforeTasks_Ret env d td w1 Hbefore)
    as (Htd & Hfe & Hfc & Hrh & Hesc & (Kfe & Kfc & Krh & Kesc & Kfl & tr & Ktr & Kq)).
  cbn [start files trace app] in Kfe, Kfc, Krh, Kesc, Kfl, Ktr.
  assert (Hrun : run env d
                 = (persistentTasksCheck env td ;; releaseLock env ;; log OutOK ;; exit ALLOW)%gate w1).
  { unfold run. rewrite main_split. now rewrite (bind_Ret _ _ _ _ _ Hbefore). }
  assert (Echeck := checkUserEscalation_eq env w1 (t_id current) fl ltac:(congruence)).
  change (fl !! t_id current = Some entry) in Hentry. rewrite Hentry in Echeck.
  split; [exact Htd|]. split; [|split; [|split]].
  - intros Hnone. unfold current, current_task.
    now rewrite (find_none_in_progress pending Hnone).
  - intros (t & Hin & Hs). unfold current, current_task.
    destruct (List.find in_progress pending) as [c|] eqn:Ef.
    + apply (find_first_in_progress pending c Ef).
    + exfalso. apply (find_none in_progress pending Ef t) in Hin.
      unfold in_progress in Hin. rewrite Hs in Hin. discriminate.
  - intros Hlow.
    assert (E : run env d
                = Exit (BLOCK (TasksRemaining (length pending)))
                    {| files := files w1;
                       trace := trace w1 ++ [Print (OutTasksRemaining (length pending)
                                                      (t_content current) (t_id current))] |}).
    { rewrite Hrun. unfold persistentTasksCheck. rewrite Hpending. cbn [bind]. fold pending current.
      rewrite Echeck. destruct (Z.leb_spec MAX_CONSECUTIVE_FAILURES (f_count entry)); [lia|].
      reflexivity. }
    split; [exact E|]. unfold after. rewrite E. cbn [final files trace].
    split; [exact Kesc|]. rewrite Ktr, count_writes_app, Kq. reflexivity.
  - intros Hhigh.
    assert (E : run env d
                = Exit (ESCALATE EscalationRequired)
                    {| files := set_ESCALATION_FILE (Some (Parsed marker)) (files w1);
                       trace := (trace w1 ++ [Write NEEDS_USER])
                                ++ [Print (OutEscalationRequired (t_id current) (f_count entry)
                                             (slice_last 3 (f_errors entry)))] |}).
    { rewrite Hrun. unfold persistentTasksCheck. rewrite Hpending. cbn [bind]. fold pending current.
      rewrite Echeck. destruct (Z.leb_spec MAX_CONSECUTIVE_FAILURES (f_count entry)); [|lia].
      reflexivity. }
    unfold after. rewrite E. cbn [decision final files trace].
    split; [reflexivity|]. split; [reflexivity|]. intros envs.
    destruct (escalation_pending_many envs
                (set_ESCALATION_FILE (Some (Parsed marker)) (files w1)) marker)
      as (H1 & H2 & H3); try (cbn; congruence).
    split; [exact H1|]. split; [exact H2|].
    rewrite Ktr, !count_writes_app, Kq, H3. reflexivity.
Qed.

Lemma C7_witness :
  run env0 (backlog_dir {[ "task-002" := failed 2 ]})
  = Exit (BLOCK (TasksRemaining 2))
      {| files := backlog_dir {[ "task-002" := failed 2 ]};
         trace := [Print (OutTasksRemaining 2 "add rate limiting" "task-002")] |}
  /\ decision (run env0 (backlog_dir {[ "task-002" := failed 3 ]}))
     = Some (ESCALATE EscalationRequired)
  /\ ESCALATION_FILE (after env0 (backlog_dir {[ "task-002" := failed 3 ]}))
     = Some (Parsed {| esc_taskId := "task-002"; esc_failures := 3;
                       esc_errors := f_errors (failed 3); esc_createdAt := t0 |})
  /\ decisions three_evaluations (after env0 (backlog_dir {[ "task-002" := failed 3 ]}))
     = repeat (Some (ESCALATE EscalationPending)) 3
  /\ count_writes NEEDS_USER
       (trace (final (run env0 (backlog_dir {[ "task-002" := failed 3 ]})))
        ++ events three_evaluations (after env0 (backlog_dir {[ "task-002" := failed 3 ]})))
     = 1%nat.
Proof.
  destruct (C7_backlog_blocks_then_escalates env0 (backlog_dir {[ "task-002" := failed 2 ]})
              (Some two_tasks) (start (backlog_dir {[ "task-002" := failed 2 ]}))
              task_1 [task_2] {[ "task-002" := failed 2 ]} (failed 2))
    as (_ & _ & _ & Hlow & _); [concrete..|].
  destruct (C7_backlog_blocks_then_escalates env0 (backlog_dir {[ "task-002" := failed 3 ]})
              (Some two_tasks) (start (backlog_dir {[ "task-002" := failed 3 ]}))
              task_1 [task_2] {[ "task-002" := failed 3 ]} (failed 3))
    as (_ & _ & _ & _ & Hhigh); [concrete..|].
  destruct Hlow as (Hrun & _); [concrete|].
  destruct Hhigh as (Hdec & Hmark & Hlater); [concrete|].
  destruct (Hlater three_evaluations) as (Hds & _ & Hcount).
  split; [exact Hrun|]. split; [exact Hdec|]. split; [exact Hmark|].
  split; [exact Hds|exact Hcount].
Defined.

(** C7 as stated fails when a later task is in progress: the earliest
    pending task has 3 failures on record, yet the gate takes the task in
    progress, finds no failure for it, and answers BLOCK(TasksRemaining)
    naming that task; no escalation marker is written. *)
Lemma C7_counterexample :
  getPendingTasks env0 (Some two_tasks) = [task_1; task_2]
  /\ ({[ "task-001" := failed 3 ]} : gmap string FailureEntry) !! t_id task_1 = Some (failed 3)
  /\ f_count (failed 3) = 3
  /\ run env0 (backlog_dir {[ "task-001" := failed 3 ]})
     = Exit (BLOCK (TasksRemaining 2))
         {| files := backlog_dir {[ "task-001" := failed 3 ]};
            trace := [Print (OutTasksRemaining 2 "add rate limiting" "task-002")] |}.
Proof. repeat split; reflexivity. Qed.

(** ** Read failures *)

Lemma no_throw_ret {A} (a : A) : no_throw (ret a).
Proof. intros w. exact I. Qed.

Lemma no_throw_exit {A} d : no_throw (exit (A := A) d).
Proof. intros w. exact I. Qed.

Lemma no_throw_log o : no_throw (log o).
Proof. intros w. exact I. Qed.

Lemma no_throw_modify e f : no_throw (modify e f).
Proof. intros w. exact I. Qed.

Lemma no_throw_existsSync {A} (get : FS -> option A) : no_throw (existsSync get).
Proof. intros w. exact I. Qed.

Lemma no_throw_existsMarker get : no_throw (existsMarker get).
Proof. intros w. exact I. Qed.

Lemma no_throw_bind {A B} (m : M A) (k : A -> M B) :
  no_throw m -> (forall a, no_throw (k a)) -> no_throw (bind m k).
Proof.
  intros Hm Hk w. specialize (Hm w). cbn. destruct (m w) as [a w1|w1|dd w1]; auto. apply Hk.
Qed.

(** Whatever the body does, a handler that does not throw catches it. *)
Lemma no_throw_try {A} (m h : M A) : no_throw h -> no_throw (try_catch m h).
Proof. intros Hh w. cbn. destruct (m w) as [a w1|w1|dd w1]; auto. apply Hh. Qed.

Ltac no_throw_step :=
  first
    [ apply no_throw_bind
    | apply no_throw_try
    | apply no_throw_ret
    | apply no_throw_exit
    | apply no_throw_log
    | apply no_throw_modify
    | apply no_throw_existsSync
    | apply no_throw_existsMarker
    | match goal with
      | |- forall _, _ => intro
      | |- no_throw (if ?b then _ else _) => destruct b
      | |- no_throw (match ?x with _ => _ end) => destruct x
      end ].

Lemma main_no_throw env : no_throw (main env).
Proof.
  unfold main, forceExitCheck, forceCompleteCheck, ralphHandoffCheck, userEscalationCheck,
    shouldForceExit, shouldForceComplete, shouldRalphHandoff, readState, readPersistentTasks.
  unfold_blocks. repeat no_throw_step.
Qed.

(** [main] never falls off its end either. *)
Lemma main_never_returns env w a w' : main env w <> Ret a w'.
Proof.
  unfold main. cbn [bind].
  repeat match goal with
         | |- context [match ?m ?x with Ret _ _ => _ | Throw _ => _ | Exit _ _ => _ end] =>
             destruct (m x); try discriminate
         end.
Qed.

Lemma exit_code_0_or_2 dec : exit_code dec = 0 \/ exit_code dec = 2.
Proof. destruct dec; cbn; auto. Qed.

(** Every evaluation ends in [process.exit], with code 0 or 2. *)
Lemma run_exits env d :
  exists dec w, run env d = Exit dec w /\ (exit_code dec = 0 \/ exit_code dec = 2).
Proof.
  unfold run. pose proof (main_no_throw env (start d)) as Hn.
  pose proof (main_never_returns env (start d)) as Hr.
  destruct (main env (start d)) as [a w|w|dec w].
  - now destruct (Hr a w).
  - destruct Hn.
  - exists dec, w. split; [reflexivity|apply exit_code_0_or_2].
Qed.

Lemma same_readable_refl d : same_readable d d.
Proof. unfold same_readable. repeat split; auto. Qed.






























Lemma keeps_state_refl w : keeps_state w w.
Proof. reflexivity. Qed.

Lemma keeps_state_trans w1 w2 w3 : keeps_state w1 w2 -> keeps_state w2 w3 -> keeps_state w1 w3.
Proof. unfold keeps_state. congruence. Qed.

Lemma keeps_state_log o : always keeps_state (log o).
Proof. intros w. reflexivity. Qed.

Lemma keeps_state_modify e f :
  (forall d, STATE_FILE (f d) = STATE_FILE d) -> always keeps_state (modify e f).
Proof. intros H w. apply H. Qed.

Lemma rlmCostCheck_keeps_state env : always keeps_state (rlmCostCheck env).
Proof.
  unfold_blocks.
  repeat always_step keeps_state keeps_state_refl keeps_state_trans
    keeps_state_log ltac:(apply keeps_state_modify; intros; reflexivity).
Qed.







(** The cumulative cost record is the one record whose read failure is
    not treated as its absence: missing, a burst of 60 is recorded and
    blocked; unreadable, the burst is neither recorded nor blocked. *)
Example cumulative_record_unreadable_or_missing :
  decision (run env0 (set_RLM_COSTS_FILE None (burst_dir 60))) = Some (BLOCK CostLimitReached)
  /\ decision (run env0 (set_RLM_COSTS_FILE (Some Unreadable) (burst_dir 60))) = Some ALLOW.
Proof. split; reflexivity. Qed.

(** * More of the hook *)

(** ** The one-shot markers *)

(** X1. With the force-exit marker absent and the force-complete marker
    present, the gate allows the exit, prints the reason line and deletes
    that marker only; with both absent and the ralph-handoff marker
    present, it allows the exit and deletes that marker only.  Nothing
    else is read or written: an escalation marker, a cost record over the
    limit or failing checks do not matter. *)
Theorem X1_force_complete_and_handoff (env : Env) (d : FS) :
  FORCE_EXIT_FILE d = false ->
  (FORCE_COMPLETE_FILE d = true ->
   run env d
   = Exit ALLOW {| files := set_FORCE_COMPLETE_FILE false d;
                   trace := [Print OutForceComplete; Unlink FORCE_COMPLETE] |})
  /\ (FORCE_COMPLETE_FILE d = false -> RALPH_HANDOFF_FILE d = true ->
      run env d
      = Exit ALLOW {| files := set_RALPH_HANDOFF_FILE false d;
                      trace := [Unlink RALPH_HANDOFF; Print OutRalphHandoff] |}).
Proof.
  intros Hfe. unfold run, main.
  rewrite (bind_Ret _ _ _ _ _ (forceExitCheck_pass (start d) Hfe)). split.
  - intros Hfc. unfold forceCompleteCheck, shouldForceComplete. gsimpl. rewrite Hfc. reflexivity.
  - intros Hfc Hrh.
    rewrite (bind_Ret _ _ _ _ _ (forceCompleteCheck_pass (start d) Hfc)).
    unfold ralphHandoffCheck, shouldRalphHandoff. gsimpl. rewrite Hrh. reflexivity.
Qed.

Lemma X1_witness :
  run env0 (set_FORCE_EXIT_FILE false (set_FORCE_COMPLETE_FILE true everything_against_dir))
  = Exit ALLOW
      {| files := set_FORCE_EXIT_FILE false everything_against_dir;
         trace := [Print OutForceComplete; Unlink FORCE_COMPLETE] |}
  /\ run env0 (set_FORCE_EXIT_FILE false (set_RALPH_HANDOFF_FILE true everything_against_dir))
     = Exit ALLOW
         {| files := set_FORCE_EXIT_FILE false everything_against_dir;
            trace := [Unlink RALPH_HANDOFF; Print OutRalphHandoff] |}.
Proof.
  split.
  - apply (X1_force_complete_and_handoff env0
             (set_FORCE_EXIT_FILE false (set_FORCE_COMPLETE_FILE true everything_against_dir)));
      reflexivity.
  - apply (X1_force_complete_and_handoff env0
             (set_FORCE_EXIT_FILE false (set_RALPH_HANDOFF_FILE true everything_against_dir)));
      reflexivity.
Defined.

(** X2. Each evaluation consumes one marker, in the order force-exit,
    force-complete, ralph-handoff: with k markers present, the next k
    evaluations all allow the exit, write nothing, and leave the directory
    as it was but for the markers, which are gone. *)
Theorem X2_one_marker_per_evaluation (envs : list Env) (d : FS) :
  length envs = present_markers d ->
  decisions envs d = repeat (Some ALLOW) (length envs)
  /\ after_many envs d = clear_markers d
  /\ Forall (fun e => forall n, writes_to n e = false) (events envs d).
Proof.
  destruct d as [st fe fc rh esc tasks test git lock fail ctx costs val].
  unfold present_markers, clear_markers. cbn [FORCE_EXIT_FILE FORCE_COMPLETE_FILE RALPH_HANDOFF_FILE].
  destruct fe, fc, rh; cbn [Nat.add]; intros Hlen;
    repeat (destruct envs as [|? envs]; try discriminate Hlen);
    (split; [reflexivity|]); (split; [reflexivity|]);
    cbn; repeat constructor.
Qed.

Lemma X2_witness :
  decisions three_evaluations three_markers_dir = repeat (Some ALLOW) 3
  /\ after_many three_evaluations three_markers_dir = clear_markers three_markers_dir
  /\ Forall (fun e => forall n, writes_to n e = false) (events three_evaluations three_markers_dir).
Proof. apply (X2_one_marker_per_evaluation three_evaluations three_markers_dir). reflexivity. Defined.

(** ** The escalation marker *)

(** X3. With a readable escalation marker and no one-shot marker, every
    evaluation escalates (exit code 2) naming the task of the marker,
    whatever the other records hold, and writes and deletes nothing: the
    gate never removes the marker, so the block stands until the marker
    is removed from outside or a one-shot marker is dropped. *)
Theorem X3_escalation_marker_stands (envs : list Env) (d : FS) (esc : Escalation) :
  FORCE_EXIT_FILE d = false -> FORCE_COMPLETE_FILE d = false ->
  RALPH_HANDOFF_FILE d = false -> ESCALATION_FILE d = Some (Parsed esc) ->
  decisions envs d = repeat (Some (ESCALATE EscalationPending)) (length envs)
  /\ exit_code (ESCALATE EscalationPending) = 2
  /\ after_many envs d = d
  /\ events envs d = repeat (Print (OutEscalationPending (esc_taskId esc))) (length envs).
Proof.
  intros Hfe Hfc Hrh Hesc.
  destruct (escalation_pending_many envs d esc Hfe Hfc Hrh Hesc) as (H1 & H2 & _).
  split; [exact H1|]. split; [reflexivity|]. split; [exact H2|].
  induction envs as [|env envs IH]; [reflexivity|].
  cbn [events length repeat]. unfold after.
  rewrite (escalation_pending env d esc Hfe Hfc Hrh Hesc). cbn [final files trace app].
  f_equal. apply IH.
  - apply (escalation_pending_many envs d esc Hfe Hfc Hrh Hesc).
  - apply (escalation_pending_many envs d esc Hfe Hfc Hrh Hesc).
Qed.

Lemma X3_witness :
  decisions three_evaluations escalated_dir = repeat (Some (ESCALATE EscalationPending)) 3
  /\ exit_code (ESCALATE EscalationPending) = 2
  /\ after_many three_evaluations escalated_dir = escalated_dir
  /\ events three_evaluations escalated_dir = repeat (Print (OutEscalationPending "task-001")) 3.
Proof. apply (X3_escalation_marker_stands three_evaluations escalated_dir escalation_1); reflexivity. Defined.

(** ** The iteration budget *)

Lemma checkIterationLimit_under st i mx :
  iteration st = JNum i -> maxIterations st = JNum mx -> i < mx ->
  checkIterationLimit (Some st) = NotBlocked.
Proof.
  intros Ei Em Hlt. unfold checkIterationLimit, js_or, js_ge. rewrite Ei, Em. cbn.
  destruct (Z.eqb_spec mx 0); [reflexivity|]. cbn.
  destruct (Z.eqb_spec i 0) as [->|]; cbn.
  - destruct (Z.leb_spec mx 0); [lia|reflexivity].
  - destruct (Z.leb_spec mx i); [lia|reflexivity].
Qed.

(** X4. A session in a working phase that is not complete, not stale and
    under its limit (iteration < maxIterations, both within 2^53 of
    zero, where the hook's addition is exact), with no marker present
    and the cost guard passing: the gate adds one to iteration, stamps
    lastActivity, persists the state and returns BLOCK(ContinuePhase)
    with the prompt of the phase; phase, maxIterations and complete are
    kept. *)
Theorem X4_continue_under_limit (env : Env) (d : FS) (mtime i mx : Z) (st : SessionState) :
  STATE_FILE d = Some (mtime, Parsed st) ->
  complete st = JBool false -> working (phase st) = true ->
  now env - mtime <= STALE_THRESHOLD_MS ->
  iteration st = JNum i -> maxIterations st = JNum mx -> i < mx ->
  in_exact_range i -> in_exact_range mx ->
  no_markers d -> cost_below_limit d ->
  decision (run env d) = Some (BLOCK (ContinuePhase (phase st)))
  /\ STATE_FILE (after env d)
     = Some (now env, Parsed {| phase := phase st; iteration := JNum (i + 1);
                                maxIterations := JNum mx; complete := JBool false;
                                lastActivity := Some (now env) |})
  /\ exists tr, trace (final (run env d))
                = tr ++ [Write STATE; Print (OutPhasePrompt (phase st) (JNum (i + 1)) (JNum mx))].
Proof.
  intros Es Hc Hw Hfresh Ei Em Hlt _ _ Hm Hcost.
  destruct (main_reaches_loop env d Hm Hcost) as (c & tr & E).
  unfold after. rewrite E. unfold from_loop, deepLoopCheck, state_content.
  rewrite Es. gsimpl. rewrite (working_in_loop st ltac:(now rewrite Hc) Hw). gsimpl.
  rewrite (stale_false env _ mtime (Parsed st)) by (gsimpl; auto).
  rewrite (checkIterationLimit_under st i mx Ei Em Hlt). gsimpl.
  rewrite (working_prompt env st Hw). gsimpl.
  unfold next_iteration. rewrite Ei, Em, Hc, or_num_JNum.
  split; [reflexivity|]. split; [reflexivity|].
  exists tr. now rewrite <- !app_assoc.
Qed.

Lemma X4_witness :
  decision (run env0 two_left_dir) = Some (BLOCK (ContinuePhase BUILD))
  /\ STATE_FILE (after env0 two_left_dir)
     = Some (t0, Parsed {| phase := BUILD; iteration := JNum (8 + 1);
                           maxIterations := JNum 10; complete := JBool false;
                           lastActivity := Some t0 |})
  /\ exists tr, trace (final (run env0 two_left_dir))
                = tr ++ [Write STATE; Print (OutPhasePrompt BUILD (JNum (8 + 1)) (JNum 10))].
Proof.
  apply (X4_continue_under_limit env0 two_left_dir (t0 - hour) 8 10 build_8_of_10); concrete.
Defined.

Lemma iteration_limit_run env d mtime i mx st :
  STATE_FILE d = Some (mtime, Parsed st) ->
  complete st = JBool false -> phase st <> COMPLETE -> phase st <> SHIP ->
  now env - mtime <= STALE_THRESHOLD_MS ->
  iteration st = JNum i -> maxIterations st = JNum mx -> mx <> 0 -> mx <= i ->
  no_markers d -> cost_below_limit d ->
  exists c tr,
    run env d = Exit (BLOCK IterationLimit) {| files := set_RLM_COSTS_FILE c d; trace := tr |}.
Proof.
  intros Es Hc Hp1 Hp2 Hfresh Ei Em Hz Hle Hm Hcost.
  destruct (main_reaches_loop env d Hm Hcost) as (c & tr & E).
  rewrite E. unfold from_loop, deepLoopCheck, state_content.
  rewrite Es. gsimpl. rewrite (in_loop_true st Hc Hp1 Hp2). gsimpl.
  rewrite (stale_false env _ mtime (Parsed st)) by (gsimpl; auto).
  rewrite (checkIterationLimit_reached st i mx) by auto.
  gsimpl. eauto.
Qed.

Lemma stale_allows_run env d mtime st :
  STATE_FILE d = Some (mtime, Parsed st) ->
  complete st = JBool false -> phase st <> COMPLETE -> phase st <> SHIP ->
  STALE_THRESHOLD_MS < now env - mtime ->
  no_markers d -> cost_below_limit d ->
  getPendingTasks env (parsed (PERSISTENT_TASKS_FILE d)) = [] ->
  exists c l tr,
    run env d = Exit ALLOW {| files := set_LOCK_FILE l (set_RLM_COSTS_FILE c d); trace := tr |}.
Proof.
  intros Es Hc Hp1 Hp2 Hstale Hm Hcost Htasks.
  destruct (main_reaches_loop env d Hm Hcost) as (c & tr & E).
  rewrite E. unfold from_loop, deepLoopCheck, state_content.
  rewrite Es. gsimpl. rewrite (in_loop_true st Hc Hp1 Hp2). gsimpl.
  rewrite (stale_true env _ mtime (Parsed st)) by (gsimpl; auto).
  gsimpl. unfold verifyCompletion. rewrite (not_in_loop st (in_loop_true st Hc Hp1 Hp2)).
  gsimpl. unfold persistentTasksCheck. rewrite Htasks. gsimpl.
  match goal with |- context [releaseLock env ?w] =>
    destruct (releaseLock_returns env w) as (l & tr' & El); rewrite El end.
  gsimpl. eauto.
Qed.

Lemma working_phase p : working p = true -> p <> COMPLETE /\ p <> SHIP.
Proof. destruct p; cbn; intros H; split; congruence. Qed.

Lemma last_time_cons mtime env envs : last_time mtime (env :: envs) = last_time (now env) envs.
Proof.
  unfold last_time. cbn [rev]. destruct (rev envs) as [|e l]; reflexivity.
Qed.

(** Once the limit is reached, every evaluation within the window of the
    last write answers IterationLimit and leaves the state alone. *)
Lemma limit_reached_many envs d mtime i mx st :
  STATE_FILE d = Some (mtime, Parsed st) ->
  complete st = JBool false -> working (phase st) = true ->
  iteration st = JNum i -> maxIterations st = JNum mx -> mx <> 0 -> mx <= i ->
  all_within mtime envs ->
  no_markers d -> cost_below_limit d ->
  decisions envs d = repeat (Some (BLOCK IterationLimit)) (length envs)
  /\ STATE_FILE (after_many envs d) = Some (mtime, Parsed st).
Proof.
  intros Es Hc Hw Ei Em Hz Hle Hin Hm Hcost. revert d Es Hm Hcost.
  induction Hin as [|env envs Hfresh Hin IH]; intros d Es Hm Hcost; [now split|].
  destruct (working_phase _ Hw) as (Hp1 & Hp2).
  destruct (iteration_limit_run env d mtime i mx st Es Hc Hp1 Hp2 Hfresh Ei Em Hz Hle Hm Hcost)
    as (c & tr & E).
  cbn [decisions after_many length repeat]. unfold after. rewrite E. cbn [decision final files].
  destruct (IH (set_RLM_COSTS_FILE c d)) as (Hd & Hs); try assumption.
  split; [now f_equal|exact Hs].
Qed.

(** X5. The iteration budget is a countdown.  A session in a working
    phase, not complete, with a non-zero maxIterations and iteration <=
    maxIterations, both within 2^53 of zero (where the hook's addition
    is exact), evaluated again and again with nothing else touching
    the directory (no marker, cost guard passing, each evaluation within
    8 hours of the last write of the state file): exactly maxIterations -
    iteration evaluations return BLOCK(ContinuePhase), each adding one to
    iteration; every later one returns BLOCK(IterationLimit) and the
    persisted iteration stays at maxIterations. *)
Theorem X5_budget_countdown
    (envs1 envs2 : list Env) (d : FS) (mtime i mx : Z) (st : SessionState) :
  STATE_FILE d = Some (mtime, Parsed st) ->
  complete st = JBool false -> working (phase st) = true ->
  iteration st = JNum i -> maxIterations st = JNum mx -> mx <> 0 ->
  in_exact_range i -> in_exact_range mx ->
  Z.of_nat (length envs1) = mx - i ->
  timely mtime envs1 -> all_within (last_time mtime envs1) envs2 ->
  no_markers d -> cost_below_limit d ->
  decisions (envs1 ++ envs2) d
  = repeat (Some (BLOCK (ContinuePhase (phase st)))) (length envs1)
    ++ repeat (Some (BLOCK IterationLimit)) (length envs2)
  /\ exists mtime' st',
       STATE_FILE (after_many (envs1 ++ envs2) d) = Some (mtime', Parsed st')
       /\ iteration st' = JNum mx /\ maxIterations st' = JNum mx.
Proof.
  revert d mtime i st.
  induction envs1 as [|env envs1 IH];
    intros d mtime i st Es Hc Hw Ei Em Hz Hri Hrm Hlen Ht Hin Hm Hcost.
  - cbn [length] in Hlen. assert (i = mx) by lia. subst i.
    destruct (limit_reached_many envs2 d mtime mx mx st Es Hc Hw Ei Em Hz ltac:(lia) Hin Hm Hcost)
      as (Hd & Hs).
    split; [exact Hd|]. exists mtime, st. auto.
  - destruct Ht as (Hfresh & Ht). rewrite last_time_cons in Hin.
    cbn [length] in Hlen.
    destruct (continue_phase env d mtime st Es ltac:(now rewrite Hc) Hw Hfresh
                (checkIterationLimit_under st i mx Ei Em ltac:(lia)) Hm Hcost) as (c & tr & E).
    cbn [app decisions after_many length repeat]. unfold after. rewrite E.
    cbn [decision final files].
    set (d' := set_STATE_FILE _ _).
    destruct (IH d' (now env) (i + 1) (next_iteration env st)) as (Hd & mtime' & st' & Es' & Hit);
      try assumption; try reflexivity.
    + cbn [next_iteration iteration]. now rewrite Ei, or_num_JNum.
    + unfold in_exact_range in *. lia.
    + lia.
    + split; [cbn [app]; f_equal; exact Hd|]. exists mtime', st'. auto.
Qed.

Lemma X5_witness :
  decisions (two_evaluations ++ two_later_evaluations) two_left_dir
  = repeat (Some (BLOCK (ContinuePhase BUILD))) 2 ++ repeat (Some (BLOCK IterationLimit)) 2
  /\ exists mtime' st',
       STATE_FILE (after_many (two_evaluations ++ two_later_evaluations) two_left_dir)
       = Some (mtime', Parsed st')
       /\ iteration st' = JNum 10 /\ maxIterations st' = JNum 10.
Proof.
  apply (X5_budget_countdown two_evaluations two_later_evaluations two_left_dir
           (t0 - hour) 8 10 build_8_of_10).
  - reflexivity.
  - reflexivity.
  - reflexivity.
  - reflexivity.
  - reflexivity.
  - discriminate.
  - split; discriminate.
  - split; discriminate.
  - reflexivity.
  - vm_compute. repeat split; intros; congruence.
  - repeat (apply List.Forall_cons; [vm_compute; congruence|]). apply List.Forall_nil.
  - repeat split; reflexivity.
  - intros ? ?; discriminate.
Defined.

(** X6. An iteration-limit block does not outlast the staleness window:
    the block writes nothing to the state file, so once the file is more
    than 8 hours old the same session, with no pending backlog task, is
    allowed to exit, its state still untouched. *)
Theorem X6_limit_block_expires (env1 env2 : Env) (d : FS) (mtime i mx : Z) (st : SessionState) :
  STATE_FILE d = Some (mtime, Parsed st) ->
  complete st = JBool false -> phase st <> COMPLETE -> phase st <> SHIP ->
  iteration st = JNum i -> maxIterations st = JNum mx -> mx <> 0 -> mx <= i ->
  now env1 - mtime <= STALE_THRESHOLD_MS -> STALE_THRESHOLD_MS < now env2 - mtime ->
  no_markers d -> cost_below_limit d ->
  getPendingTasks env2 (parsed (PERSISTENT_TASKS_FILE d)) = [] ->
  decisions [env1; env2] d = [Some (BLOCK IterationLimit); Some ALLOW]
  /\ STATE_FILE (after_many [env1; env2] d) = Some (mtime, Parsed st).
Proof.
  intros Es Hc Hp1 Hp2 Ei Em Hz Hle Hfresh Hstale Hm Hcost Htasks.
  destruct (iteration_limit_run env1 d mtime i mx st Es Hc Hp1 Hp2 Hfresh Ei Em Hz Hle Hm Hcost)
    as (c & tr & E).
  cbn [decisions after_many]. unfold after. rewrite E. cbn [decision final files].
  destruct (stale_allows_run env2 (set_RLM_COSTS_FILE c d) mtime st Es Hc Hp1 Hp2 Hstale Hm Hcost
              Htasks) as (c' & l & tr' & E').
  rewrite E'. cbn [decision final files]. split; [reflexivity|exact Es].
Qed.

Lemma X6_witness :
  decisions [env0; {| now := t0 + 8 * hour; pid := "4243" |}] limit_reached_dir
  = [Some (BLOCK IterationLimit); Some ALLOW]
  /\ STATE_FILE (after_many [env0; {| now := t0 + 8 * hour; pid := "4243" |}] limit_reached_dir)
     = Some (t0 - hour, Parsed build_10_of_10).
Proof.
  apply (X6_limit_block_expires env0 {| now := t0 + 8 * hour; pid := "4243" |} limit_reached_dir
           (t0 - hour) 10 10 build_10_of_10); concrete.
Defined.

(** ** What the gate does to the session state *)

Ltac unfold_main :=
  unfold main, beforeTasks, forceExitCheck, forceCompleteCheck, ralphHandoffCheck,
    userEscalationCheck, shouldForceExit, shouldForceComplete, shouldRalphHandoff,
    readState, readPersistentTasks;
  unfold_blocks.

Ltac keeps_state_tac :=
  repeat always_step keeps_state keeps_state_refl keeps_state_trans
    keeps_state_log ltac:(apply keeps_state_modify; intros; reflexivity).

Lemma forceExitCheck_keeps_state : always keeps_state forceExitCheck.
Proof. unfold_main. keeps_state_tac. Qed.

Lemma forceCompleteCheck_keeps_state : always keeps_state forceCompleteCheck.
Proof. unfold_main. keeps_state_tac. Qed.

Lemma ralphHandoffCheck_keeps_state : always keeps_state ralphHandoffCheck.
Proof. unfold_main. keeps_state_tac. Qed.

Lemma userEscalationCheck_keeps_state : always keeps_state userEscalationCheck.
Proof. unfold_main. keeps_state_tac. Qed.

Lemma persistentTasksCheck_keeps_state env td : always keeps_state (persistentTasksCheck env td).
Proof. unfold_main. keeps_state_tac. Qed.

Lemma releaseLock_keeps_state env : always keeps_state (releaseLock env).
Proof. unfold_main. keeps_state_tac. Qed.

Lemma final_bind {A B} (m : M A) (k : A -> M B) w :
  final (bind m k w)
  = match m w with
    | Ret a w1 => final (k a w1)
    | Throw w1 | Exit _ w1 => w1
    end.
Proof. cbn. now destruct (m w). Qed.

(** A block that leaves the state file alone, followed by the rest. *)
Lemma keeps_state_then {A B} (G : option (Z * file SessionState) -> Prop)
    (m : M A) (k : A -> M B) w :
  always keeps_state m ->
  G (STATE_FILE (files w)) ->
  (forall a w1, m w = Ret a w1 -> STATE_FILE (files w1) = STATE_FILE (files w) ->
                G (STATE_FILE (files (final (k a w1))))) ->
  G (STATE_FILE (files (final (bind m k w)))).
Proof.
  intros Hm Hw Hk. rewrite final_bind. specialize (Hm w). unfold keeps_state in Hm.
  destruct (m w) as [a w1|w1|dd w1] eqn:E; cbn in Hm.
  - now apply Hk.
  - now rewrite Hm.
  - now rewrite Hm.
Qed.

Lemma deepLoopCheck_state env st w :
  match deepLoopCheck env (Some st) w with
  | Ret s' w' =>
      (s' = Some st /\ STATE_FILE (files w') = STATE_FILE (files w))
      \/ (s' = Some (next_iteration env st)
          /\ checkIterationLimit (Some st) = NotBlocked
          /\ STATE_FILE (files w') = Some (now env, Parsed (next_iteration env st)))
  | Exit _ w' =>
      STATE_FILE (files w') = STATE_FILE (files w)
      \/ (checkIterationLimit (Some st) = NotBlocked
          /\ STATE_FILE (files w') = Some (now env, Parsed (next_iteration env st)))
  | Throw _ => False
  end.
Proof.
  unfold deepLoopCheck, isStateStale. destruct (in_loop st); [|cbn; now auto]. gsimpl.
  destruct (STATE_FILE (files w)) as [[mtime c]|] eqn:E; gsimpl; [|cbn; now auto].
  destruct (now env - mtime >? STALE_THRESHOLD_MS); gsimpl; [cbn; now auto|].
  destruct (checkIterationLimit (Some st)); gsimpl; [|now auto].
  destruct (getPhasePrompt (next_iteration env st)); gsimpl; auto.
Qed.

Lemma state_in_refl T w : state_in T w w.
Proof. now left. Qed.

Lemma state_in_trans T w1 w2 w3 : state_in T w1 w2 -> state_in T w2 w3 -> state_in T w1 w3.
Proof. unfold state_in. intros [E1|H1] [E2|H2]; auto; [left; congruence|right; now rewrite E2]. Qed.

Lemma state_in_log T o : always (state_in T) (log o).
Proof. intros w. now left. Qed.

Lemma state_in_modify T e f :
  (forall d, STATE_FILE (f d) = STATE_FILE d \/ T (STATE_FILE (f d))) ->
  always (state_in T) (modify e f).
Proof. intros H w. apply H. Qed.

Lemma verifyCompletion_state env st :
  always (state_in (reverted env st)) (verifyCompletion env (Some st)).
Proof.
  unfold_blocks.
  repeat always_step (state_in (reverted env st)) (state_in_refl (reverted env st))
    (state_in_trans (reverted env st)) (state_in_log (reverted env st))
    ltac:(apply state_in_modify; intros; right; cbn; eexists; split; [|reflexivity]; auto).
Qed.

Lemma gate_step_refl st : gate_step st st.
Proof. unfold gate_step. auto 10. Qed.

Lemma gate_step_next env st :
  checkIterationLimit (Some st) = NotBlocked -> gate_step st (next_iteration env st).
Proof. unfold gate_step. cbn. auto 10. Qed.

Lemma gate_step_revert p st st' :
  p = FIX \/ p = REVIEW -> gate_step st st' -> gate_step st (revert_to p st').
Proof. unfold gate_step. cbn. intros Hp (Hm & Hi & Hc & Hph). intuition. Qed.

(** The state file after one evaluation. *)
Lemma state_after_run env d : allowed env (STATE_FILE d) (STATE_FILE (after env d)).
Proof.
  unfold after, run, main. set (s0 := STATE_FILE d).
  assert (H0 : STATE_FILE (files (start d)) = s0) by reflexivity.
  revert H0. generalize (start d). intros w0 H0.
  apply (keeps_state_then (allowed env s0));
    [apply forceExitCheck_keeps_state | left; exact H0 | intros _ w1 _ H1; rewrite H0 in H1].
  apply (keeps_state_then (allowed env s0));
    [apply forceCompleteCheck_keeps_state | left; exact H1 | intros _ w2 _ H2; rewrite H1 in H2].
  apply (keeps_state_then (allowed env s0));
    [apply ralphHandoffCheck_keeps_state | left; exact H2 | intros _ w3 _ H3; rewrite H2 in H3].
  apply (keeps_state_then (allowed env s0));
    [apply userEscalationCheck_keeps_state | left; exact H3 | intros _ w4 _ H4; rewrite H3 in H4].
  rewrite final_bind, readState_eq, final_bind, readPersistentTasks_eq.
  apply (keeps_state_then (allowed env s0));
    [apply rlmCostCheck_keeps_state | left; exact H4 | intros _ w5 _ H5; rewrite H4 in H5].
  unfold state_content. rewrite H4.
  destruct s0 as [[m [|st]]|] eqn:Es0; cbn [parsed].
  - (* unreadable state *)
    do 2 (rewrite final_bind; cbn [ret deepLoopCheck verifyCompletion]).
    apply (keeps_state_then (allowed env (Some (m, Unreadable))));
      [apply persistentTasksCheck_keeps_state | left; exact H5 | intros _ w6 _ H6; rewrite H5 in H6].
    apply (keeps_state_then (allowed env (Some (m, Unreadable))));
      [apply releaseLock_keeps_state | left; exact H6 | intros _ w7 _ H7; rewrite H6 in H7].
    cbn. now left.
  - (* a session state *)
    rewrite final_bind. pose proof (deepLoopCheck_state env st w5) as Hd.
    destruct (deepLoopCheck env (Some st) w5) as [s' w6|w6|dd w6]; [|contradiction|].
    + assert (Hs' : exists st', s' = Some st' /\ gate_step st st'
                     /\ allowed env (Some (m, Parsed st)) (STATE_FILE (files w6))).
      { destruct Hd as [(-> & E)|(-> & Hc & E)].
        - exists st. split; [reflexivity|]. split; [apply gate_step_refl|].
          left; congruence.
        - exists (next_iteration env st). split; [reflexivity|].
          split; [now apply gate_step_next|].
          right. exists m, st, (next_iteration env st).
          split; [reflexivity|]. split; [exact E|]. now apply gate_step_next. }
      destruct Hs' as (st' & -> & Hstep & Hal).
      rewrite final_bind. pose proof (verifyCompletion_state env st' w6) as Hv.
      assert (Hal7 : allowed env (Some (m, Parsed st))
                       (STATE_FILE (files (final (verifyCompletion env (Some st') w6))))).
      { destruct Hv as [E|(p & Hp & E)].
        - now rewrite E.
        - right. exists m, st, (revert_to p st').
          split; [reflexivity|]. split; [exact E|]. now apply gate_step_revert. }
      clear Hv. destruct (verifyCompletion env (Some st') w6) as [u w7|w7|dd w7];
        cbn [final] in *; try exact Hal7.
      apply (keeps_state_then (allowed env (Some (m, Parsed st))));
        [apply persistentTasksCheck_keeps_state | exact Hal7 | intros _ w8 _ H8].
      apply (keeps_state_then (allowed env (Some (m, Parsed st))));
        [apply releaseLock_keeps_state | now rewrite H8 | intros _ w9 _ H9].
      cbn. now rewrite H9, H8.
    + cbn [final]. destruct Hd as [E|(Hc & E)].
      * left. congruence.
      * right. exists m, st, (next_iteration env st).
        split; [reflexivity|]. split; [exact E|]. now apply gate_step_next.
  - (* no state file *)
    do 2 (rewrite final_bind; cbn [ret deepLoopCheck verifyCompletion]).
    apply (keeps_state_then (allowed env None));
      [apply persistentTasksCheck_keeps_state | left; exact H5 | intros _ w6 _ H6; rewrite H5 in H6].
    apply (keeps_state_then (allowed env None));
      [apply releaseLock_keeps_state | left; exact H6 | intros _ w7 _ H7; rewrite H6 in H7].
    cbn. now left.
Qed.

(** X7. What one evaluation may do to state.json. A missing state file
    is never created and an unreadable one is left as it is. A readable
    one, whose iteration count and its successor lie within 2^53 of zero
    (where the hook's addition is exact), is either left untouched (same
    modification time, same content) or rewritten at the current time,
    and then only within these bounds: maxIterations is kept; iteration
    is kept or, the iteration-limit check having passed, incremented by
    one; complete is kept or reset to false, never set; the phase is
    kept or sent back to FIX or REVIEW. *)
Theorem X7_state_rewritten_within_bounds (env : Env) (d : FS) :
  (forall m st, STATE_FILE d = Some (m, Parsed st) ->
     in_exact_range (or_num (iteration st) 0)
     /\ in_exact_range (or_num (iteration st) 0 + 1)) ->
  match STATE_FILE d with
  | Some (m, Parsed st) =>
      exists m' st',
        STATE_FILE (after env d) = Some (m', Parsed st')
        /\ (m' = m /\ st' = st \/ m' = now env)
        /\ gate_step st st'
  | s => STATE_FILE (after env d) = s
  end.
Proof.
  intros _.
  destruct (state_after_run env d) as [E|(m & st & st' & E0 & E & Hstep)].
  - rewrite E. destruct (STATE_FILE d) as [[m [|st]]|]; try reflexivity.
    exists m, st. split; [reflexivity|]. split; [now left|apply gate_step_refl].
  - rewrite E0. exists (now env), st'. split; [exact E|]. split; [now right|exact Hstep].
Qed.

Lemma X7_witness :
  exists m' st',
    STATE_FILE (after env0 two_left_dir) = Some (m', Parsed st')
    /\ (m' = t0 - hour /\ st' = build_8_of_10 \/ m' = now env0)
    /\ gate_step build_8_of_10 st'.
Proof.
  apply (X7_state_rewritten_within_bounds env0 two_left_dir).
  intros m st [= <- <-]. split; split; discriminate.
Defined.

Lemma checkIterationLimit_passed st i mx :
  iteration st = JNum i -> maxIterations st = JNum mx -> mx <> 0 ->
  checkIterationLimit (Some st) = NotBlocked -> i < mx.
Proof.
  intros Ei Em Hz Hc. destruct (Z.lt_ge_cases i mx) as [Hlt|Hge]; [exact Hlt|].
  rewrite (checkIterationLimit_reached st i mx Ei Em Hz Hge) in Hc. discriminate Hc.
Qed.

(** X8. The iteration budget is never overrun and never refilled. For a
    session whose iteration count is at or under a non-zero
    maxIterations, after any sequence of evaluations, at any times and
    whatever the other files hold, the state file is still readable, its
    maxIterations is the same, and its iteration count has not decreased
    and is still at or under maxIterations. *)
Theorem X8_iteration_within_budget
    (envs : list Env) (d : FS) (m i mx : Z) (st : SessionState) :
  STATE_FILE d = Some (m, Parsed st) ->
  iteration st = JNum i -> maxIterations st = JNum mx -> mx <> 0 -> i <= mx ->
  exists m' st' i',
    STATE_FILE (after_many envs d) = Some (m', Parsed st')
    /\ iteration st' = JNum i' /\ maxIterations st' = JNum mx /\ i <= i' <= mx.
Proof.
  revert d m i st. induction envs as [|env envs IH]; intros d m i st Es Ei Em Hz Hle.
  - exists m, st, i. cbn [after_many]. repeat split; auto; lia.
  - cbn [after_many].
    destruct (state_after_run env d) as [E|(m0 & st0 & st' & E0 & E & Hm & Hi & _)].
    + rewrite Es in E. exact (IH _ m i st E Ei Em Hz Hle).
    + rewrite Es in E0. injection E0 as <- <-. rewrite Em in Hm.
      destruct Hi as [Hi|(Hi & Hc)].
      * rewrite Ei in Hi. exact (IH _ (now env) i st' E Hi Hm Hz Hle).
      * rewrite Ei, or_num_JNum in Hi.
        pose proof (checkIterationLimit_passed st i mx Ei Em Hz Hc) as Hlt.
        destruct (IH _ (now env) (i + 1) st' E Hi Hm Hz ltac:(lia))
          as (m' & st'' & i' & E' & Ei' & Em' & Hb).
        exists m', st'', i'. repeat split; auto; lia.
Qed.

Lemma X8_witness :
  exists m' st' i',
    STATE_FILE (after_many (two_evaluations ++ two_later_evaluations) two_left_dir)
    = Some (m', Parsed st')
    /\ iteration st' = JNum i' /\ maxIterations st' = JNum 10 /\ 8 <= i' <= 10.
Proof.
  apply (X8_iteration_within_budget (two_evaluations ++ two_later_evaluations) two_left_dir
           (t0 - hour) 8 10 build_8_of_10).
  - reflexivity.
  - reflexivity.
  - reflexivity.
  - discriminate.
  - discriminate.
Defined.

(** ** The completion checks *)

Lemma is_nil_snoc {A} (l : list A) x : is_nil (l ++ [x]) = false.
Proof. now destruct l. Qed.

Lemma fold_check_category l acc :
  is_nil (fst (fold_left check_category l acc)) && is_nil (snd (fold_left check_category l acc))
  = is_nil (fst acc) && is_nil (snd acc) && forallb (fun c => ran_and_passed (snd c)) l.
Proof.
  revert acc. induction l as [|[cat r] l IH]; intros [missing failed].
  - cbn. now rewrite andb_true_r.
  - cbn [fold_left forallb]. rewrite IH. unfold check_category, ran_and_passed. cbn [fst snd].
    destruct r as [r|]; [destruct (truthy (ran r)), (truthy (passed r))|];
      cbn [negb andb fst snd]; rewrite ?is_nil_snoc, ?andb_false_r, ?andb_true_r;
      try reflexivity.
    all: now destruct (is_nil missing).
Qed.

Lemma verifyTestResults_verdict w :
  exists v,
    verifyTestResults w = Ret v w
    /\ tv_valid v = tests_pass (files w)
    /\ tv_valid v = is_nil (tv_missing v) && is_nil (tv_failed v).
Proof.
  unfold verifyTestResults, tests_pass. gsimpl.
  destruct (TEST_RESULTS_FILE (files w)) as [[|r]|] eqn:E; gsimpl; rewrite ?E; gsimpl;
    try (eexists; repeat split; reflexivity).
  pose proof (fold_check_category (categories r) ([], [])) as H.
  destruct (fold_left check_category (categories r) ([], [])) as [missing failed].
  cbn [fst snd is_nil andb] in H. unfold tests_ok. rewrite <- H.
  eexists. split; [reflexivity|]. cbn [tv_valid tv_missing tv_failed].
  destruct missing, failed, (truthy (allPassed r)); cbn; auto.
Qed.

Lemma verifyGitResults_verdict w :
  exists v,
    verifyGitResults w = Ret v w
    /\ match GIT_RESULTS_FILE (files w) with
       | Some (Parsed r) =>
           gv_skip v = negb (git_checked r)
           /\ gv_valid v = negb (git_checked r) || git_ok r
       | _ => gv_skip v = true /\ gv_valid v = true
       end
    /\ negb (gv_skip v) && negb (gv_valid v) = git_fails (files w).
Proof.
  unfold verifyGitResults, git_fails. gsimpl.
  destruct (GIT_RESULTS_FILE (files w)) as [[|r]|] eqn:E; gsimpl; rewrite ?E; gsimpl;
    try (eexists; repeat split; reflexivity).
  unfold git_checked, git_ok.
  destruct (truthy (isGitRepo r)); cbn [negb andb orb];
    [|eexists; repeat split; reflexivity].
  destruct (truthy (hasGhCli r)); cbn [negb andb orb];
    [|eexists; repeat split; reflexivity].
  destruct (is_false (requirePR r)), (truthy (pr_created r)),
    (is_false (requireCIPass r)), (truthy (ci_checked r)), (truthy (ci_passed r)),
    (is_false (requireMerge r)), (truthy (merge_merged r));
    eexists; repeat split; reflexivity.
Qed.

(** X9. verifyTestResults never fails and writes nothing; its verdict is
    valid exactly when test-results.json can be read, each of the four
    categories tests, types, lint and build is present, ran and passed,
    and the summary flag allPassed is truthy; a verdict that is not valid
    always names at least one missing or failed item. *)
Theorem X9_test_verdict (w : World) :
  exists v,
    verifyTestResults w = Ret v w
    /\ tv_valid v
       = match TEST_RESULTS_FILE (files w) with
         | Some (Parsed r) =>
             ran_and_passed (r_tests r) && ran_and_passed (r_types r)
             && ran_and_passed (r_lint r) && ran_and_passed (r_build r)
             && truthy (allPassed r)
         | _ => false
         end
    /\ (tv_valid v = false -> tv_missing v <> [] \/ tv_failed v <> []).
Proof.
  destruct (verifyTestResults_verdict w) as (v & E & Hv & Hn).
  exists v. split; [exact E|]. split.
  - rewrite Hv. unfold tests_pass, tests_ok.
    destruct (TEST_RESULTS_FILE (files w)) as [[|r]|]; try reflexivity.
    cbn [categories forallb snd]. now rewrite andb_true_r, !andb_assoc.
  - rewrite Hn. destruct (tv_missing v), (tv_failed v); cbn; intros H;
      try discriminate H; auto; left; discriminate.
Qed.

(** X10. verifyGitResults never fails and writes nothing. The git
    workflow is skipped (and counts as valid) when git-results.json is
    missing or unreadable, or reports no git repository or no gh CLI.
    Otherwise the verdict is valid exactly when every step that is not
    switched off is done: a step is enforced unless its enforcement flag
    is the boolean false, so with no enforcement settings at all the PR,
    a checked and passed CI, and the merge are all required. *)
Theorem X10_git_verdict (w : World) :
  exists v,
    verifyGitResults w = Ret v w
    /\ (gv_skip v = true -> gv_valid v = true)
    /\ match GIT_RESULTS_FILE (files w) with
       | Some (Parsed r) =>
           gv_skip v = negb (truthy (isGitRepo r) && truthy (hasGhCli r))
           /\ (gv_skip v = false ->
               gv_valid v
               = (is_false (requirePR r) || truthy (pr_created r))
                 && (is_false (requireCIPass r)
                     || truthy (ci_checked r) && truthy (ci_passed r))
                 && (is_false (requireMerge r) || truthy (merge_merged r)))
           /\ (requirePR r = JUndefined -> requireCIPass r = JUndefined ->
               requireMerge r = JUndefined -> gv_skip v = false ->
               gv_valid v
               = truthy (pr_created r) && (truthy (ci_checked r) && truthy (ci_passed r))
                 && truthy (merge_merged r))
       | _ => gv_skip v = true
       end.
Proof.
  destruct (verifyGitResults_verdict w) as (v & E & Hv & _).
  exists v. split; [exact E|].
  destruct (GIT_RESULTS_FILE (files w)) as [[|r]|].
  - destruct Hv as (-> & ->). auto.
  - destruct Hv as (Hs & Hval). fold (git_checked r). fold (git_ok r). rewrite Hs, Hval.
    split; [now destruct (git_checked r)|]. split; [reflexivity|]. split.
    + now destruct (git_checked r).
    + intros H1 H2 H3. unfold git_ok. rewrite H1, H2, H3.
      now destruct (git_checked r).
  - destruct Hv as (-> & ->). auto.
Qed.

Lemma claims_done_not_in_loop st : claims_done st = true -> in_loop st = false.
Proof.
  unfold claims_done, in_loop.
  destruct (is_true (complete st)), (Phase_eqb (phase st) COMPLETE),
    (Phase_eqb (phase st) SHIP); cbn; congruence.
Qed.

Lemma verifyCompletion_decides env st w :
  claims_done st = true ->
  match completion_block env (files w) with
  | Some r => exists w', verifyCompletion env (Some st) w = Exit (BLOCK r) w'
  | None => verifyCompletion env (Some st) w = Ret tt w
  end.
Proof.
  intros Hdone. unfold verifyCompletion, completion_block, validation_fails.
  unfold claims_done in Hdone. rewrite Hdone.
  rewrite (bind_Ret _ _ _ _ _ (checkValidationErrors_eq env w)).
  assert (Hval : (if negb (is_nil (recent_errors env (files w)))
                     && ordinary_files (recent_errors env (files w))
                  then ValidationFailed (recent_errors env (files w)) else ValidationOk)
                 = (if is_nil (recent_errors env (files w)) then ValidationOk
                    else if ordinary_files (recent_errors env (files w))
                         then ValidationFailed (recent_errors env (files w))
                         else ValidationOk)).
  { destruct (is_nil (recent_errors env (files w))),
      (ordinary_files (recent_errors env (files w))); reflexivity. }
  rewrite <- Hval. clear Hval.
  destruct (negb (is_nil (recent_errors env (files w)))
            && ordinary_files (recent_errors env (files w))).
  { unfold write_state, writeFileSync. gsimpl. eauto. }
  rewrite (bind_Ret _ _ _ _ _ eq_refl).
  destruct (verifyTestResults_verdict w) as (tv & Et & Hv & _).
  rewrite (bind_Ret _ _ _ _ _ Et). rewrite <- Hv.
  destruct (tv_valid tv); cbn [negb].
  2:{ unfold write_state, writeFileSync. gsimpl. eauto. }
  rewrite (bind_Ret _ _ _ _ _ eq_refl).
  destruct (verifyGitResults_verdict w) as (gv & Eg & _ & Hg).
  rewrite (bind_Ret _ _ _ _ _ Eg). rewrite <- Hg.
  destruct (negb (gv_skip gv) && negb (gv_valid gv)).
  - unfold write_state, writeFileSync. gsimpl. eauto.
  - reflexivity.
Qed.

Lemma checkUserEscalation_returns env taskId w :
  exists r w', checkUserEscalation env taskId w = Ret r w'.
Proof.
  unfold checkUserEscalation, writeFileSync. gsimpl.
  destruct (FAILURE_FILE (files w)) as [[|fl]|] eqn:E; gsimpl; rewrite ?E; gsimpl; eauto.
  destruct (fl !! taskId) as [entry|]; eauto.
  destruct (MAX_CONSECUTIVE_FAILURES <=? f_count entry); gsimpl; eauto.
Qed.

Lemma persistentTasksCheck_decides env td w :
  match getPendingTasks env td with
  | [] => persistentTasksCheck env td w = Ret tt w
  | _ :: _ => exists dd w', persistentTasksCheck env td w = Exit dd w' /\ dd <> ALLOW
  end.
Proof.
  unfold persistentTasksCheck. destruct (getPendingTasks env td) as [|first rest]; [reflexivity|].
  destruct (checkUserEscalation_returns env (t_id (current_task first (first :: rest))) w)
    as (r & w' & E).
  rewrite (bind_Ret _ _ _ _ _ E). destruct r; gsimpl; do 2 eexists; split; try reflexivity;
    discriminate.
Qed.

(** From the backlog check on. *)
Lemma backlog_then_allow env td w :
  match getPendingTasks env td with
  | [] => exists l tr,
            (persistentTasksCheck env td ;; releaseLock env ;; log OutOK ;; (exit ALLOW : M unit))%gate w
            = Exit ALLOW {| files := set_LOCK_FILE l (files w); trace := tr |}
  | _ :: _ => exists dd w',
            (persistentTasksCheck env td ;; releaseLock env ;; log OutOK ;; (exit ALLOW : M unit))%gate w
            = Exit dd w' /\ dd <> ALLOW
  end.
Proof.
  pose proof (persistentTasksCheck_decides env td w) as H.
  destruct (getPendingTasks env td) as [|first rest].
  - rewrite (bind_Ret _ _ _ _ _ H).
    destruct (releaseLock_returns env w) as (l & tr & E).
    rewrite (bind_Ret _ _ _ _ _ E). gsimpl. eauto.
  - destruct H as (dd & w' & E & Hdd). rewrite (bind_Exit _ _ _ _ _ E). eauto.
Qed.

(** X11. What it takes for a session that claims to be done (complete,
    or in phase SHIP or COMPLETE) to leave, with no marker present and
    the cost guard passing. The completion checks come in a fixed order
    and the first that fails decides: validation errors of the last
    hour give BLOCK(ValidationErrors), unless one of them is filed under
    a name that plain objects inherit (constructor, toString, ...), in
    which case the validation check fails open; else test results that
    do not pass give BLOCK(TestsUnverified), else an unfinished git
    workflow gives BLOCK(GitIncomplete). The exit is allowed exactly
    when none of them fails and no pending backlog task is left; the age
    of the state file plays no part. *)
Theorem X11_definition_of_done (env : Env) (d : FS) (mtime : Z) (st : SessionState) :
  STATE_FILE d = Some (mtime, Parsed st) ->
  claims_done st = true ->
  no_markers d -> cost_below_limit d ->
  (forall r, completion_block env d = Some r -> decision (run env d) = Some (BLOCK r))
  /\ (decision (run env d) = Some ALLOW
      <-> completion_block env d = None
          /\ getPendingTasks env (parsed (PERSISTENT_TASKS_FILE d)) = []).
Proof.
  intros Es Hdone Hm Hcost.
  destruct (main_reaches_loop env d Hm Hcost) as (c & tr & E). rewrite E.
  unfold from_loop, state_content. rewrite Es. cbn [parsed deepLoopCheck].
  rewrite (claims_done_not_in_loop st Hdone).
  rewrite (bind_Ret _ _ _ _ _ eq_refl).
  pose proof (verifyCompletion_decides env st {| files := set_RLM_COSTS_FILE c d; trace := tr |}
                Hdone) as Hv.
  change (completion_block env (files {| files := set_RLM_COSTS_FILE c d; trace := tr |}))
    with (completion_block env d) in Hv.
  destruct (completion_block env d) as [r|].
  - destruct Hv as (w' & Ev). rewrite (bind_Exit _ _ _ _ _ Ev). cbn [decision]. split.
    + now intros ? [= <-].
    + split; [discriminate|]. intros (H & _). discriminate H.
  - rewrite (bind_Ret _ _ _ _ _ Hv). split; [discriminate|].
    pose proof (backlog_then_allow env (parsed (PERSISTENT_TASKS_FILE d))
                  {| files := set_RLM_COSTS_FILE c d; trace := tr |}) as Hb.
    destruct (getPendingTasks env (parsed (PERSISTENT_TASKS_FILE d))) as [|first rest].
    + destruct Hb as (l & tr' & ->). cbn [decision]. split; auto.
    + destruct Hb as (dd & w' & -> & Hdd). cbn [decision]. split.
      * intros [= ->]. now destruct Hdd.
      * intros (_ & H). discriminate H.
Qed.

Lemma X11_witness :
  (forall r, completion_block env0 unmerged_dir = Some r ->
             decision (run env0 unmerged_dir) = Some (BLOCK r))
  /\ (decision (run env0 unmerged_dir) = Some ALLOW
      <-> completion_block env0 unmerged_dir = None
          /\ getPendingTasks env0 (parsed (PERSISTENT_TASKS_FILE unmerged_dir)) = []).
Proof.
  apply (X11_definition_of_done env0 unmerged_dir (t0 - hour) ship_complete).
  - reflexivity.
  - reflexivity.
  - repeat split; reflexivity.
  - intros ? ?; discriminate.
Defined.

(** X12. Without a readable session state (state.json missing or
    unparseable) none of the loop and completion checks runs: with no
    marker present and the cost guard passing, the exit is allowed
    exactly when no pending backlog task is left, whatever the test
    results, git results and validation state say, and the state file is
    left as it is. *)
Theorem X12_no_state_only_backlog (env : Env) (d : FS) :
  parsed (state_content d) = None ->
  no_markers d -> cost_below_limit d ->
  (decision (run env d) = Some ALLOW
   <-> getPendingTasks env (parsed (PERSISTENT_TASKS_FILE d)) = [])
  /\ STATE_FILE (after env d) = STATE_FILE d.
Proof.
  intros Es Hm Hcost. split.
  - destruct (main_reaches_loop env d Hm Hcost) as (c & tr & E). rewrite E.
    unfold from_loop. rewrite Es. cbn [deepLoopCheck].
    rewrite (bind_Ret _ _ _ _ _ eq_refl). cbn [verifyCompletion].
    rewrite (bind_Ret _ _ _ _ _ eq_refl).
    pose proof (backlog_then_allow env (parsed (PERSISTENT_TASKS_FILE d))
                  {| files := set_RLM_COSTS_FILE c d; trace := tr |}) as Hb.
    destruct (getPendingTasks env (parsed (PERSISTENT_TASKS_FILE d))) as [|first rest].
    + destruct Hb as (l & tr' & ->). cbn [decision]. split; auto.
    + destruct Hb as (dd & w' & -> & Hdd). cbn [decision]. split.
      * intros [= ->]. now destruct Hdd.
      * intros H. discriminate H.
  - destruct (state_after_run env d) as [E|(m & st & st' & E0 & _)]; [exact E|].
    unfold state_content in Es. rewrite E0 in Es. discriminate Es.
Qed.

Lemma X12_witness :
  (decision (run env0 no_state_dir) = Some ALLOW
   <-> getPendingTasks env0 (parsed (PERSISTENT_TASKS_FILE no_state_dir)) = [])
  /\ STATE_FILE (after env0 no_state_dir) = STATE_FILE no_state_dir.
Proof.
  apply (X12_no_state_only_backlog env0 no_state_dir).
  - reflexivity.
  - repeat split; reflexivity.
  - intros ? ?; discriminate.
Defined.

(** ** The backlog *)

Lemma filter_nil_Forall {A} (f : A -> bool) (l : list A) :
  List.filter f l = [] <-> Forall (fun x => f x = false) l.
Proof.
  induction l as [|a l IH]; cbn.
  - split; [constructor|reflexivity].
  - destruct (f a) eqn:E.
    + split; [discriminate|]. intros H. apply List.Forall_inv in H. congruence.
    + rewrite IH. split.
      * intros H. now constructor.
      * intros H. now apply List.Forall_inv_tail in H.
Qed.

Lemma task_pending_expired env td t :
  task_pending env
    (or_num (staleThresholdHours td) DEFAULT_TASK_STALE_HOURS * 60 * 60 * 1000) t = false
  <-> expired env td t.
Proof.
  unfold task_pending, expired.
  destruct (String.eqb_spec (t_status t) "completed") as [Ec|Nc]; cbn [orb].
  { split; auto. }
  destruct (String.eqb_spec (t_status t) "blocked") as [Eb|Nb].
  { split; auto. }
  destruct (t_createdAt t) as [created|].
  - rewrite Z.leb_gt. split; [auto|]. intros [H|[H|H]]; [contradiction..|exact H].
  - split; auto.
Qed.

Lemma getPendingTasks_nil env td :
  getPendingTasks env (Some td) = [] <-> Forall (expired env td) (tasks td).
Proof.
  unfold getPendingTasks. destruct (tasks td) as [|t l] eqn:E; cbn [is_nil].
  - split; [constructor|reflexivity].
  - rewrite filter_nil_Forall. split; intros H; eapply List.Forall_impl; try exact H;
      intros a Ha; now apply task_pending_expired.
Qed.

(** X13. The backlog check of [main] lets the gate go on, writing
    nothing, exactly when every task of persistent-tasks.json is
    completed, blocked, carries no usable creation date, or was created
    longer ago than the threshold (staleThresholdHours, 24 hours when it
    is absent or zero); in every other case it ends the evaluation with
    a block or an escalation, never with an allowance. *)
Theorem X13_backlog_check (env : Env) (td : TasksData) (w : World) :
  (Forall (expired env td) (tasks td) -> persistentTasksCheck env (Some td) w = Ret tt w)
  /\ (~ Forall (expired env td) (tasks td) ->
      exists dd w', persistentTasksCheck env (Some td) w = Exit dd w' /\ dd <> ALLOW).
Proof.
  pose proof (persistentTasksCheck_decides env (Some td) w) as H.
  pose proof (getPendingTasks_nil env td) as Hn.
  destruct (getPendingTasks env (Some td)) as [|first rest].
  - split; [intros _; exact H|]. intros Hf. destruct Hf. now apply Hn.
  - split; [|intros _; exact H]. intros Hf. apply Hn in Hf. discriminate Hf.
Qed.

(** ** What the gate leaves alone *)

Lemma keeps_inputs_refl w : keeps_inputs w w.
Proof. unfold keeps_inputs, inputs_kept. repeat split; auto. Qed.

Lemma inputs_kept_trans d1 d2 d3 : inputs_kept d1 d2 -> inputs_kept d2 d3 -> inputs_kept d1 d3.
Proof.
  unfold inputs_kept.
  intros (A1 & A2 & A3 & A4 & A5 & A6 & A7 & A8 & A9) (B1 & B2 & B3 & B4 & B5 & B6 & B7 & B8 & B9).
  repeat split; try congruence; auto.
Qed.

Lemma keeps_inputs_trans w1 w2 w3 : keeps_inputs w1 w2 -> keeps_inputs w2 w3 -> keeps_inputs w1 w3.
Proof. apply inputs_kept_trans. Qed.

Lemma keeps_inputs_log o : always keeps_inputs (log o).
Proof. intros w. unfold keeps_inputs, inputs_kept. cbn. repeat split; auto. Qed.

Lemma keeps_inputs_modify e f :
  (forall d, inputs_kept d (f d)) -> always keeps_inputs (modify e f).
Proof. intros H w. apply H. Qed.

Lemma main_keeps_inputs env : always keeps_inputs (main env).
Proof.
  unfold_main.
  repeat always_step keeps_inputs keeps_inputs_refl keeps_inputs_trans keeps_inputs_log
    ltac:(apply keeps_inputs_modify; intros; unfold inputs_kept; cbn;
          repeat split; first [reflexivity | discriminate | auto]).
Qed.

(** X14. The gate only reads its inputs. After any sequence of
    evaluations the test results, the git results, the validation state,
    the task backlog, the failure log and the burst record are exactly
    what they were, and no force-exit, force-complete or ralph-handoff
    marker is present that was not there at the start. *)
Theorem X14_inputs_read_only (envs : list Env) (d : FS) :
  TEST_RESULTS_FILE (after_many envs d) = TEST_RESULTS_FILE d
  /\ GIT_RESULTS_FILE (after_many envs d) = GIT_RESULTS_FILE d
  /\ VALIDATION_STATE_FILE (after_many envs d) = VALIDATION_STATE_FILE d
  /\ PERSISTENT_TASKS_FILE (after_many envs d) = PERSISTENT_TASKS_FILE d
  /\ FAILURE_FILE (after_many envs d) = FAILURE_FILE d
  /\ RLM_CONTEXT_FILE (after_many envs d) = RLM_CONTEXT_FILE d
  /\ (FORCE_EXIT_FILE (after_many envs d) = true -> FORCE_EXIT_FILE d = true)
  /\ (FORCE_COMPLETE_FILE (after_many envs d) = true -> FORCE_COMPLETE_FILE d = true)
  /\ (RALPH_HANDOFF_FILE (after_many envs d) = true -> RALPH_HANDOFF_FILE d = true).
Proof.
  change (inputs_kept d (after_many envs d)).
  revert d. induction envs as [|env envs IH]; intros d; cbn [after_many].
  - apply (keeps_inputs_refl (start d)).
  - apply (inputs_kept_trans d (after env d)); [|apply IH].
    apply (main_keeps_inputs env (start d)).
Qed.

(** ** The lock *)

Lemma keeps_lock_refl w : keeps_lock w w.
Proof. reflexivity. Qed.

Lemma keeps_lock_trans w1 w2 w3 : keeps_lock w1 w2 -> keeps_lock w2 w3 -> keeps_lock w1 w3.
Proof. unfold keeps_lock. congruence. Qed.

Lemma keeps_lock_log o : always keeps_lock (log o).
Proof. intros w. reflexivity. Qed.

Lemma keeps_lock_modify e f :
  (forall d, LOCK_FILE (f d) = LOCK_FILE d) -> always keeps_lock (modify e f).
Proof. intros H w. apply H. Qed.

Ltac keeps_lock_tac :=
  repeat always_step keeps_lock keeps_lock_refl keeps_lock_trans
    keeps_lock_log ltac:(apply keeps_lock_modify; intros; reflexivity).

Lemma beforeTasks_keeps_lock env : always keeps_lock (beforeTasks env).
Proof. unfold_main. keeps_lock_tac. Qed.

Lemma persistentTasksCheck_keeps_lock env td : always keeps_lock (persistentTasksCheck env td).
Proof. unfold_main. keeps_lock_tac. Qed.

Lemma releaseLock_lock env w :
  exists w',
    releaseLock env w = Ret tt w'
    /\ (LOCK_FILE (files w') = LOCK_FILE (files w)
        \/ exists l, LOCK_FILE (files w) = Some (Parsed l) /\ agentId l = pid env
                     /\ LOCK_FILE (files w') = None).
Proof.
  unfold releaseLock, unlinkSync. gsimpl.
  destruct (LOCK_FILE (files w)) as [[|l]|] eqn:E; gsimpl; rewrite ?E; gsimpl; eauto.
  destruct (String.eqb_spec (agentId l) (pid env)) as [Ea|Na]; gsimpl; eauto.
  eexists. split; [reflexivity|]. right. exists l. cbn. auto.
Qed.

Lemma releaseLock_own env w l :
  LOCK_FILE (files w) = Some (Parsed l) -> agentId l = pid env ->
  exists w', releaseLock env w = Ret tt w' /\ LOCK_FILE (files w') = None.
Proof.
  intros E Ea. unfold releaseLock, unlinkSync. gsimpl. rewrite E. gsimpl. rewrite E.
  apply String.eqb_eq in Ea. rewrite Ea. gsimpl. eauto.
Qed.

Lemma after_markers_never_allows env :
  never ALLOW
    (userEscalationCheck ;; state <- readState ;; tasksData <- readPersistentTasks ;;
     rlmCostCheck env ;; state <- deepLoopCheck env state ;; verifyCompletion env state ;;
     ret tasksData)%gate.
Proof. unfold_main. repeat never_step. Qed.

Lemma persistentTasksCheck_never_allows env td : never ALLOW (persistentTasksCheck env td).
Proof. unfold_main. repeat never_step. Qed.

(** X15. The gate gives up the lock at the very end of a passing
    evaluation, and only there. When the evaluation is allowed with no
    force-exit, force-complete or ralph-handoff marker present, and the
    lock is readable and held by the evaluating process, the lock file
    is removed. In every other case the lock file is left exactly as it
    was: a blocked or escalated exit and an exit allowed through a
    marker leave the lock where it is, and another agent's lock is
    never removed. *)
Theorem X15_lock_released_only_at_the_end (env : Env) (d : FS) :
  let own := exists l, LOCK_FILE d = Some (Parsed l) /\ agentId l = pid env in
  let passed :=
    decision (run env d) = Some ALLOW
    /\ FORCE_EXIT_FILE d = false /\ FORCE_COMPLETE_FILE d = false
    /\ RALPH_HANDOFF_FILE d = false in
  (passed -> own -> LOCK_FILE (after env d) = None)
  /\ (LOCK_FILE (after env d) <> LOCK_FILE d -> passed /\ own).
Proof.
  cbv zeta. unfold after, run. rewrite main_split.
  pose proof (beforeTasks_keeps_lock env (start d)) as Hb. unfold keeps_lock in Hb.
  cbn [start files] in Hb.
  assert (Hmarkers : FORCE_EXIT_FILE d = false -> FORCE_COMPLETE_FILE d = false ->
                     RALPH_HANDOFF_FILE d = false ->
                     decision (beforeTasks env (start d)) <> Some ALLOW).
  { intros Hfe Hfc Hrh. unfold beforeTasks.
    rewrite (bind_Ret _ _ _ _ _ (forceExitCheck_pass (start d) Hfe)).
    rewrite (bind_Ret _ _ _ _ _ (forceCompleteCheck_pass (start d) Hfc)).
    rewrite (bind_Ret _ _ _ _ _ (ralphHandoffCheck_pass (start d) Hrh)).
    apply after_markers_never_allows. }
  destruct (beforeTasks env (start d)) as [td w1|w1|dd w1] eqn:Eb; cbn [final] in Hb.
  - rewrite (bind_Ret _ _ _ _ _ Eb).
    destruct (beforeTasks_Ret env d td w1 Eb) as (_ & Hfe & Hfc & Hrh & _).
    pose proof (persistentTasksCheck_keeps_lock env td w1) as Hp. unfold keeps_lock in Hp.
    pose proof (persistentTasksCheck_never_allows env td w1) as Hna.
    destruct (persistentTasksCheck env td w1) as [u w2|w2|dd w2] eqn:Ep; cbn [final] in Hp.
    + rewrite (bind_Ret _ _ _ _ _ Ep).
      destruct (releaseLock_lock env w2) as (w3 & Er & Hl).
      rewrite (bind_Ret _ _ _ _ _ Er). gsimpl. cbn [final files decision]. split.
      * intros _ (l & El & Ea).
        destruct (releaseLock_own env w2 l ltac:(congruence) Ea) as (w3' & Er' & Hn).
        rewrite Er in Er'. injection Er' as <-. exact Hn.
      * intros Hne. destruct Hl as [Hl|(l & El & Ea & Hl)]; [destruct Hne; congruence|].
        split; [auto|]. exists l. split; [congruence|exact Ea].
    + cbn [bind]. rewrite Ep. cbn [decision final].
      split; [intros (H & _); discriminate H|]. intros Hne. destruct Hne. congruence.
    + rewrite (bind_Exit _ _ _ _ _ Ep). cbn [decision final] in *.
      split; [intros (H & _); congruence|]. intros Hne. destruct Hne. congruence.
  - cbn [bind]. rewrite Eb. cbn [decision final].
    split; [intros (H & _); discriminate H|]. intros Hne. now destruct Hne.
  - rewrite (bind_Exit _ _ _ _ _ Eb). cbn [decision final] in *.
    split.
    + intros (H & Hfe & Hfc & Hrh) _. destruct (Hmarkers Hfe Hfc Hrh). exact H.
    + intros Hne. now destruct Hne.
Qed.

Lemma X15_witness : LOCK_FILE (after env0 own_lock_dir) = None.
Proof.
  destruct (X15_lock_released_only_at_the_end env0 own_lock_dir) as (H & _).
  apply H.
  - repeat split; reflexivity.
  - eexists. split; reflexivity.
Defined.

(** ** Acquiring and releasing the lock *)

Lemma acquireLock_free env w :
  LOCK_FILE (files w) <> Some Unreadable ->
  (forall l t, LOCK_FILE (files w) = Some (Parsed l) -> acquiredAt l = Some t ->
               LOCK_TIMEOUT_MS <= now env - t) ->
  acquireLock env w
  = Ret Acquired
      {| files := set_LOCK_FILE
                    (Some (Parsed {| agentId := pid env; acquiredAt := Some (now env) |}))
                    (files w);
         trace := trace w ++ [Write AGENT_LOCK] |}.
Proof.
  intros Hr Hfree. unfold acquireLock, lock_age, writeFileSync. gsimpl.
  destruct (LOCK_FILE (files w)) as [[|l]|] eqn:E; gsimpl; rewrite ?E; gsimpl;
    [congruence| |reflexivity].
  destruct (acquiredAt l) as [t|] eqn:Et; gsimpl; [|reflexivity].
  specialize (Hfree l t eq_refl Et).
  destruct (Z.ltb_spec (now env - t) LOCK_TIMEOUT_MS); [lia|reflexivity].
Qed.

(** X16. Holding the lock. When the lock file is missing, or readable
    and expired or without a usable date, an acquire succeeds and writes
    the caller's id and the current time. From then on every acquire
    made less than 5 minutes later is refused, naming the holder and the
    lock's age, and writes nothing -- also when it comes from the holder
    itself: the lock is not re-entrant. Once the holder has released the
    lock the file is gone and the next acquire succeeds. *)
Theorem X16_lock_held_until_released (env1 env2 : Env) (w : World) :
  LOCK_FILE (files w) <> Some Unreadable ->
  (forall l t, LOCK_FILE (files w) = Some (Parsed l) -> acquiredAt l = Some t ->
               LOCK_TIMEOUT_MS <= now env1 - t) ->
  now env2 - now env1 < LOCK_TIMEOUT_MS ->
  exists w1 w2 w3,
    acquireLock env1 w = Ret Acquired w1
    /\ LOCK_FILE (files w1)
       = Some (Parsed {| agentId := pid env1; acquiredAt := Some (now env1) |})
    /\ acquireLock env2 w1 = Ret (NotAcquired (pid env1) (now env2 - now env1)) w1
    /\ releaseLock env1 w1 = Ret tt w2
    /\ LOCK_FILE (files w2) = None
    /\ acquireLock env2 w2 = Ret Acquired w3
    /\ LOCK_FILE (files w3)
       = Some (Parsed {| agentId := pid env2; acquiredAt := Some (now env2) |}).
Proof.
  intros Hr Hfree Hsoon.
  do 3 eexists. split; [exact (acquireLock_free env1 w Hr Hfree)|].
  split; [reflexivity|]. split.
  { unfold acquireLock, lock_age. gsimpl. cbn [acquiredAt agentId].
    destruct (Z.ltb_spec (now env2 - now env1) LOCK_TIMEOUT_MS); [reflexivity|lia]. }
  split.
  { unfold releaseLock, unlinkSync. gsimpl. cbn [agentId]. rewrite String.eqb_refl.
    gsimpl. reflexivity. }
  split; [reflexivity|]. split.
  - apply acquireLock_free; cbn; [discriminate|intros ? ? H; discriminate H].
  - reflexivity.
Qed.

Lemma X16_witness :
  exists w1 w2 w3,
    acquireLock env0 (start empty_FS) = Ret Acquired w1
    /\ LOCK_FILE (files w1)
       = Some (Parsed {| agentId := pid env0; acquiredAt := Some (now env0) |})
    /\ acquireLock env0 w1 = Ret (NotAcquired (pid env0) (now env0 - now env0)) w1
    /\ releaseLock env0 w1 = Ret tt w2
    /\ LOCK_FILE (files w2) = None
    /\ acquireLock env0 w2 = Ret Acquired w3
    /\ LOCK_FILE (files w3)
       = Some (Parsed {| agentId := pid env0; acquiredAt := Some (now env0) |}).
Proof.
  apply (X16_lock_held_until_released env0 env0 (start empty_FS)).
  - discriminate.
  - intros ? ? H; discriminate H.
  - reflexivity.
Defined.

(** X17. A lock file that cannot be parsed protects nothing and is
    never repaired: every acquire, by any agent at any time, reports
    success without writing the file, and every release leaves it in
    place. *)
Theorem X17_unreadable_lock (env : Env) (w : World) :
  LOCK_FILE (files w) = Some Unreadable ->
  acquireLock env w = Ret Acquired w /\ releaseLock env w = Ret tt w.
Proof.
  intros E. unfold acquireLock, releaseLock. gsimpl. rewrite E. gsimpl. rewrite E.
  split; reflexivity.
Qed.

Lemma X17_witness :
  acquireLock env0 unreadable_lock_world = Ret Acquired unreadable_lock_world
  /\ releaseLock env0 unreadable_lock_world = Ret tt unreadable_lock_world.
Proof.
  apply (X17_unreadable_lock env0 unreadable_lock_world). reflexivity.
Defined.

(** ** The failure log *)

Lemma trackFailure_adds env taskId error w :
  FAILURE_FILE (files w) <> Some Unreadable ->
  (failure_log (files w) !! taskId = None -> object_prototype_member taskId = false) ->
  trackFailure env taskId error w
  = Ret (failures_of (files w) taskId + 1)
      {| files :=
           set_FAILURE_FILE
             (Some (Parsed
                (<[taskId := {| f_count := failures_of (files w) taskId + 1;
                                f_errors := errors_of (files w) taskId
                                            ++ [logged (env, error)];
                                f_lastFailure := Some (now env) |}]>
                   (failure_log (files w)))))
             (files w);
         trace := trace w ++ [Write FAILURES] |}.
Proof.
  intros Hr Hown.
  unfold trackFailure, failures_of, errors_of, failure_log, writeFileSync, logged in *.
  gsimpl.
  destruct (FAILURE_FILE (files w)) as [[|fl]|] eqn:E; gsimpl; rewrite ?E; gsimpl;
    [congruence| |].
  - destruct (fl !! taskId); [reflexivity|]. now rewrite Hown.
  - rewrite lookup_empty in *. now rewrite Hown.
Qed.

(** A task named like a member of [Object.prototype] that has no entry
    in the log never gets one. *)
Lemma trackFailure_inherited env taskId error w :
  failure_log (files w) !! taskId = None -> object_prototype_member taskId = true ->
  trackFailure env taskId error w = Ret 0 w.
Proof.
  intros Hnone Hm. unfold trackFailure, failure_log in *. gsimpl.
  destruct (FAILURE_FILE (files w)) as [[|fl]|] eqn:E; gsimpl; rewrite ?E; gsimpl;
    [reflexivity| |].
  - rewrite Hnone, Hm. reflexivity.
  - rewrite lookup_empty, Hm. reflexivity.
Qed.

Lemma checkUserEscalation_threshold env taskId w :
  match checkUserEscalation env taskId w with
  | Ret (Escalate t c errs) w' =>
      MAX_CONSECUTIVE_FAILURES <= failures_of (files w) taskId
      /\ t = taskId /\ c = failures_of (files w) taskId
      /\ errs = slice_last 3 (errors_of (files w) taskId)
      /\ ESCALATION_FILE (files w') <> None
  | Ret NoEscalation w' =>
      w' = w
      /\ (FAILURE_FILE (files w) = Some Unreadable
          \/ failures_of (files w) taskId < MAX_CONSECUTIVE_FAILURES)
  | _ => False
  end.
Proof.
  unfold checkUserEscalation, failures_of, errors_of, failure_log, writeFileSync. gsimpl.
  destruct (FAILURE_FILE (files w)) as [[|fl]|] eqn:E; gsimpl; rewrite ?E; gsimpl.
  - auto.
  - destruct (fl !! taskId) as [entry|]; gsimpl.
    + destruct (Z.leb_spec MAX_CONSECUTIVE_FAILURES (f_count entry)); gsimpl.
      * repeat split; auto; cbn; discriminate.
      * auto.
    + split; [reflexivity|]. right. reflexivity.
  - split; [reflexivity|]. right. reflexivity.
Qed.

Lemma trackFailure_step env taskId error w :
  FAILURE_FILE (files w) <> Some Unreadable ->
  (failure_log (files w) !! taskId = None -> object_prototype_member taskId = false) ->
  exists w1,
    trackFailure env taskId error w = Ret (failures_of (files w) taskId + 1) w1
    /\ failures_of (files w1) taskId = failures_of (files w) taskId + 1
    /\ errors_of (files w1) taskId = errors_of (files w) taskId ++ [logged (env, error)]
    /\ (forall other, other <> taskId ->
          failure_log (files w1) !! other = failure_log (files w) !! other)
    /\ FAILURE_FILE (files w1) <> Some Unreadable
    /\ failure_log (files w1) !! taskId <> None.
Proof.
  intros Hr Hown. eexists. split; [exact (trackFailure_adds env taskId error w Hr Hown)|].
  cbn [files]. split; [|split; [|split; [|split]]].
  - unfold failures_of at 1, failure_log at 1. cbn. now rewrite lookup_insert_eq.
  - unfold errors_of at 1, failure_log at 1. cbn. now rewrite lookup_insert_eq.
  - intros other Hne. unfold failure_log at 1. cbn. apply lookup_insert_ne. congruence.
  - cbn. discriminate.
  - unfold failure_log at 1. cbn. rewrite lookup_insert_eq. discriminate.
Qed.

(** X18. Failures add up, task by task. Starting from a failure log that
    is missing or readable, for a task that has an entry in the log or
    is not named like a member of Object.prototype, with counts within
    2^53 of zero: n calls of trackFailure for the task return the counts
    c+1, ..., c+n, where c is the task's count before (0 when it has no
    entry), leave the task with count c+n and with the n errors appended
    in call order, and do not touch the entry of any other task. After
    them checkUserEscalation asks for escalation exactly when c+n has
    reached 3, and then reports the count and the last three errors and
    writes the escalation marker. For a task without an entry that is
    named like a member of Object.prototype (constructor, toString,
    ...), trackFailure returns 0 and records nothing. *)
Theorem X18_failures_add_up
    (taskId : string) (calls : list (Env * string)) (env : Env) (w : World) :
  FAILURE_FILE (files w) <> Some Unreadable ->
  in_exact_range (failures_of (files w) taskId) ->
  in_exact_range (failures_of (files w) taskId + Z.of_nat (length calls)) ->
  (failure_log (files w) !! taskId = None -> object_prototype_member taskId = true ->
   forall env' error, trackFailure env' taskId error w = Ret 0 w)
  /\ ((failure_log (files w) !! taskId = None -> object_prototype_member taskId = false) ->
      exists w',
        trackFailures taskId calls w
        = Ret (map (fun k => failures_of (files w) taskId + Z.of_nat k)
                 (seq 1 (length calls))) w'
        /\ failures_of (files w') taskId
           = failures_of (files w) taskId + Z.of_nat (length calls)
        /\ errors_of (files w') taskId = errors_of (files w) taskId ++ map logged calls
        /\ (forall other, other <> taskId ->
              failure_log (files w') !! other = failure_log (files w) !! other)
        /\ match checkUserEscalation env taskId w' with
           | Ret (Escalate t c errs) w'' =>
               3 <= failures_of (files w) taskId + Z.of_nat (length calls)
               /\ t = taskId
               /\ c = failures_of (files w) taskId + Z.of_nat (length calls)
               /\ errs = slice_last 3 (errors_of (files w) taskId ++ map logged calls)
               /\ ESCALATION_FILE (files w'') <> None
           | Ret NoEscalation w'' =>
               w'' = w' /\ failures_of (files w) taskId + Z.of_nat (length calls) < 3
           | _ => False
           end).
Proof.
  intros Hr _ _. split.
  { intros Hnone Hm env' error. now apply trackFailure_inherited. }
  intros Hown.
  assert (H : exists w',
             trackFailures taskId calls w
             = Ret (map (fun k => failures_of (files w) taskId + Z.of_nat k)
                      (seq 1 (length calls))) w'
             /\ failures_of (files w') taskId
                = failures_of (files w) taskId + Z.of_nat (length calls)
             /\ errors_of (files w') taskId = errors_of (files w) taskId ++ map logged calls
             /\ (forall other, other <> taskId ->
                   failure_log (files w') !! other = failure_log (files w) !! other)
             /\ FAILURE_FILE (files w') <> Some Unreadable).
  { revert w Hr Hown. induction calls as [|[env1 error] calls IH]; intros w Hr Hown.
    - exists w. cbn. rewrite Z.add_0_r, app_nil_r. auto.
    - destruct (trackFailure_step env1 taskId error w Hr Hown)
        as (w1 & E1 & Hc1 & He1 & Ho1 & Hr1 & Hown1).
      destruct (IH w1 Hr1 ltac:(intros H; now destruct Hown1))
        as (w' & E & Hc & He & Ho & Hr').
      exists w'. cbn [trackFailures].
      rewrite (bind_Ret _ _ _ _ _ E1), (bind_Ret _ _ _ _ _ E). cbn [ret length seq map].
      rewrite Hc, He, Hc1, He1. split.
      { f_equal. change (Z.of_nat 1) with 1. f_equal.
        rewrite <- (seq_shift (length calls) 1), map_map.
        apply map_ext. intros k. lia. }
      split; [lia|]. split; [now rewrite <- app_assoc|].
      split; [|exact Hr']. intros other Hne. rewrite (Ho other Hne). now apply Ho1. }
  destruct H as (w' & E & Hc & He & Ho & Hr'). exists w'.
  split; [exact E|]. split; [exact Hc|]. split; [exact He|]. split; [exact Ho|].
  pose proof (checkUserEscalation_threshold env taskId w') as Ht.
  rewrite Hc, He in Ht. change MAX_CONSECUTIVE_FAILURES with 3 in Ht.
  destruct (checkUserEscalation env taskId w') as [[|t c errs] w''| |]; auto.
  destruct Ht as (-> & [Hu|Hlt]); [contradiction|auto].
Qed.

Lemma X18_witness :
  exists w',
    trackFailures "task-001" three_calls (start empty_FS)
    = Ret (map (fun k => failures_of (files (start empty_FS)) "task-001" + Z.of_nat k)
             (seq 1 (length three_calls))) w'
    /\ failures_of (files w') "task-001"
       = failures_of (files (start empty_FS)) "task-001" + Z.of_nat (length three_calls)
    /\ errors_of (files w') "task-001"
       = errors_of (files (start empty_FS)) "task-001" ++ map logged three_calls
    /\ (forall other, other <> "task-001" ->
          failure_log (files w') !! other = failure_log (files (start empty_FS)) !! other)
    /\ match checkUserEscalation env0 "task-001" w' with
       | Ret (Escalate t c errs) w'' =>
           3 <= failures_of (files (start empty_FS)) "task-001"
                + Z.of_nat (length three_calls)
           /\ t = "task-001"
           /\ c = failures_of (files (start empty_FS)) "task-001"
                  + Z.of_nat (length three_calls)
           /\ errs = slice_last 3
                       (errors_of (files (start empty_FS)) "task-001"
                        ++ map logged three_calls)
           /\ ESCALATION_FILE (files w'') <> None
       | Ret NoEscalation w'' =>
           w'' = w'
           /\ failures_of (files (start empty_FS)) "task-001"
              + Z.of_nat (length three_calls) < 3
       | _ => False
       end.
Proof.
  destruct (X18_failures_add_up "task-001" three_calls env0 (start empty_FS)) as (_ & H).
  - discriminate.
  - split; discriminate.
  - split; discriminate.
  - apply H. reflexivity.
Defined.

Lemma beforeTasks_never_escalation_required env :
  never (ESCALATE EscalationRequired) (beforeTasks env).
Proof. unfold_main. repeat never_step. all: intros w; discriminate. Qed.

Lemma keeps_escalation_refl w : keeps_escalation w w.
Proof. reflexivity. Qed.

Lemma keeps_escalation_trans w1 w2 w3 :
  keeps_escalation w1 w2 -> keeps_escalation w2 w3 -> keeps_escalation w1 w3.
Proof. unfold keeps_escalation. congruence. Qed.

Lemma keeps_escalation_log o : always keeps_escalation (log o).
Proof. intros w. reflexivity. Qed.

Lemma keeps_escalation_modify e f :
  (forall d, ESCALATION_FILE (f d) = ESCALATION_FILE d) -> always keeps_escalation (modify e f).
Proof. intros H w. apply H. Qed.

Lemma beforeTasks_keeps_escalation env : always keeps_escalation (beforeTasks env).
Proof.
  unfold_main.
  repeat always_step keeps_escalation keeps_escalation_refl keeps_escalation_trans
    keeps_escalation_log ltac:(apply keeps_escalation_modify; intros; reflexivity).
Qed.

(** X19. A failure log that cannot be parsed switches the escalation
    off. trackFailure then returns 0 and records nothing, so the log
    stays unreadable, and no evaluation of the gate asks for escalation
    or writes the escalation marker, however often the task has
    failed. *)
Theorem X19_unreadable_failure_log (d : FS) :
  FAILURE_FILE d = Some Unreadable ->
  (forall env taskId error tr,
     trackFailure env taskId error {| files := d; trace := tr |}
     = Ret 0 {| files := d; trace := tr |})
  /\ (forall env,
        decision (run env d) <> Some (ESCALATE EscalationRequired)
        /\ ESCALATION_FILE (after env d) = ESCALATION_FILE d).
Proof.
  intros E. split.
  - intros env taskId error tr. unfold trackFailure. gsimpl. rewrite E. gsimpl. rewrite E.
    reflexivity.
  - intros env. unfold after, run. rewrite main_split.
    pose proof (beforeTasks_never_escalation_required env (start d)) as Hn.
    pose proof (beforeTasks_keeps_escalation env (start d)) as Hk.
    unfold keeps_escalation in Hk. cbn [start files] in Hk.
    destruct (beforeTasks env (start d)) as [td w1|w1|dd w1] eqn:Eb; cbn [final] in Hk.
    + rewrite (bind_Ret _ _ _ _ _ Eb).
      destruct (beforeTasks_Ret env d td w1 Eb) as (_ & _ & _ & _ & _ & Hb).
      destruct Hb as (_ & _ & _ & _ & Hfail & _). cbn [start files] in Hfail.
      rewrite E in Hfail.
      assert (Hc : forall taskId, checkUserEscalation env taskId w1 = Ret NoEscalation w1).
      { intros taskId. unfold checkUserEscalation. gsimpl. rewrite Hfail. gsimpl.
        rewrite Hfail. reflexivity. }
      unfold persistentTasksCheck.
      destruct (getPendingTasks env td) as [|first rest].
      * rewrite (bind_Ret _ _ _ _ _ eq_refl).
        destruct (releaseLock_returns env w1) as (l & tr & Er).
        rewrite (bind_Ret _ _ _ _ _ Er). gsimpl. cbn [decision final files].
        split; [discriminate|exact Hk].
      * rewrite bind_assoc. rewrite (bind_Ret _ _ _ _ _ (Hc _)).
        gsimpl. cbn [decision final files]. split; [discriminate|exact Hk].
    + exfalso. pose proof (main_no_throw env (start d)) as Ht. rewrite main_split in Ht.
      cbn [bind] in Ht. now rewrite Eb in Ht.
    + rewrite (bind_Exit _ _ _ _ _ Eb). cbn [decision final]. split; [exact Hn|exact Hk].
Qed.

Lemma X19_witness :
  (forall env taskId error tr,
     trackFailure env taskId error {| files := unreadable_log_dir; trace := tr |}
     = Ret 0 {| files := unreadable_log_dir; trace := tr |})
  /\ (forall env,
        decision (run env unreadable_log_dir) <> Some (ESCALATE EscalationRequired)
        /\ ESCALATION_FILE (after env unreadable_log_dir) = ESCALATION_FILE unreadable_log_dir).
Proof.
  apply (X19_unreadable_failure_log unreadable_log_dir). reflexivity.
Defined.

(** ** The cost guard over several evaluations *)

Lemma cost_limit_run env d ctx :
  no_markers d ->
  RLM_CONTEXT_FILE d = Some (Parsed ctx) ->
  RLM_COSTS_FILE d <> Some Unreadable ->
  RLM_SUB_CALL_LIMIT <= or_num (sub_calls ctx) 0 ->
  run env d
  = Exit (BLOCK CostLimitReached)
      {| files := set_RLM_COSTS_FILE (Some (Parsed (update_costs env ctx (cumulative d)))) d;
         trace := [Write RLM_COSTS; Print (OutCostLimit (or_num (sub_calls ctx) 0))] |}.
Proof.
  intros (Hfe & Hfc & Hrh & Hesc) Ec Hk Hn. unfold run, main.
  rewrite (bind_Ret _ _ _ _ _ (forceExitCheck_pass (start d) Hfe)).
  rewrite (bind_Ret _ _ _ _ _ (forceCompleteCheck_pass (start d) Hfc)).
  rewrite (bind_Ret _ _ _ _ _ (ralphHandoffCheck_pass (start d) Hrh)).
  rewrite (bind_Ret _ _ _ _ _ (userEscalationCheck_pass (start d) ltac:(cbn; now rewrite Hesc))).
  rewrite (bind_Ret _ _ _ _ _ (readState_eq (start d))).
  rewrite (bind_Ret _ _ _ _ _ (readPersistentTasks_eq (start d))).
  unfold rlmCostCheck. rewrite bind_assoc.
  rewrite (bind_Ret _ _ _ _ _ (checkRlmCosts_tracks env (start d) ctx Ec Hk)).
  destruct (Z.leb_spec RLM_SUB_CALL_LIMIT (or_num (sub_calls ctx) 0)); [|lia].
  reflexivity.
Qed.

(** X20. A burst over the limit blocks for good and is counted again
    each time. While the burst record holds 50 sub-calls or more (no
    marker present, the cumulative record missing or readable), every
    evaluation, whenever it is made, answers BLOCK(CostLimitReached) and
    adds the same burst to the cumulative record once more: after k
    evaluations the running total is the old total plus k times the
    burst, the old total, the burst and that sum lying within 2^53 of
    zero, where the hook's addition is exact. The session state is never
    looked at or changed. *)
Theorem X20_burst_counted_at_every_evaluation (envs : list Env) (d : FS) (ctx : RlmContext) :
  no_markers d ->
  RLM_CONTEXT_FILE d = Some (Parsed ctx) ->
  RLM_COSTS_FILE d <> Some Unreadable ->
  RLM_SUB_CALL_LIMIT <= or_num (sub_calls ctx) 0 ->
  in_exact_range (or_num (total_sub_calls (cumulative d)) 0) ->
  in_exact_range (or_num (sub_calls ctx) 0) ->
  in_exact_range (or_num (total_sub_calls (cumulative d)) 0
                  + Z.of_nat (length envs) * or_num (sub_calls ctx) 0) ->
  decisions envs d = repeat (Some (BLOCK CostLimitReached)) (length envs)
  /\ or_num (total_sub_calls (cumulative (after_many envs d))) 0
     = or_num (total_sub_calls (cumulative d)) 0
       + Z.of_nat (length envs) * or_num (sub_calls ctx) 0
  /\ STATE_FILE (after_many envs d) = STATE_FILE d.
Proof.
  intros Hm Ec Hk Hn _ _ _. revert d Hm Ec Hk.
  induction envs as [|env envs IH]; intros d Hm Ec Hk.
  - cbn. repeat split. lia.
  - cbn [decisions after_many length repeat]. unfold after.
    rewrite (cost_limit_run env d ctx Hm Ec Hk Hn). cbn [decision final files].
    set (d' := set_RLM_COSTS_FILE _ d).
    destruct (IH d') as (IH1 & IH2 & IH3);
      [exact Hm|exact Ec|cbn; discriminate|].
    rewrite IH1, IH2, IH3. split; [reflexivity|]. split; [|reflexivity].
    unfold d', cumulative at 1. cbn [RLM_COSTS_FILE set_RLM_COSTS_FILE parsed update_costs
      total_sub_calls].
    rewrite or_num_JNum. lia.
Qed.

Lemma X20_witness :
  decisions three_more_evaluations (burst_dir 60)
  = repeat (Some (BLOCK CostLimitReached)) (length three_more_evaluations)
  /\ or_num (total_sub_calls (cumulative (after_many three_more_evaluations (burst_dir 60)))) 0
     = or_num (total_sub_calls (cumulative (burst_dir 60))) 0
       + Z.of_nat (length three_more_evaluations) * or_num (sub_calls (burst 60)) 0
  /\ STATE_FILE (after_many three_more_evaluations (burst_dir 60)) = STATE_FILE (burst_dir 60).
Proof.
  apply (X20_burst_counted_at_every_evaluation three_more_evaluations (burst_dir 60) (burst 60)).
  - repeat split; reflexivity.
  - reflexivity.
  - discriminate.
  - discriminate.
  - split; discriminate.
  - split; discriminate.
  - split; discriminate.
Defined.

(** ** The validation summary *)

(** X21. The summary shown in the phase prompt and the completion check
    read the same validation state differently. The summary counts every
    stored error, whatever its age; the check counts only the errors of
    the last hour. So with a state that has validated files and holds
    only errors older than an hour, the prompt announces that many
    errors as pending while the completion check passes. *)
Theorem X21_summary_counts_old_errors
    (env : Env) (w : World) (vs : ValidationState) (errs : list ValidationError) :
  VALIDATION_STATE_FILE (files w) = Some (Parsed vs) ->
  truthy (filesValidated vs) = true ->
  v_errors vs = Some errs -> errs <> [] ->
  Forall (fun e => is_recent env e = false) errs ->
  getValidationSummary w = Ret (SummaryPending (filesValidated vs) (length errs)) w
  /\ (0 < length errs)%nat
  /\ checkValidationErrors env w = Ret ValidationOk w.
Proof.
  intros E Hfv He Hne Hold. split; [|split].
  - unfold getValidationSummary. gsimpl. rewrite E. gsimpl. rewrite E, Hfv, He.
    cbn [negb default_list]. destruct errs; [congruence|reflexivity].
  - destruct errs; [congruence|cbn; lia].
  - rewrite checkValidationErrors_eq. unfold recent_errors. rewrite E. cbn [parsed].
    rewrite He. cbn [default_list].
    replace (List.filter (is_recent env) errs) with (@nil ValidationError); [reflexivity|].
    symmetry. clear -Hold. induction Hold as [|e l He Hl IH]; [reflexivity|].
    cbn. now rewrite He.
Qed.

Lemma X21_witness :
  getValidationSummary old_errors_world
  = Ret (SummaryPending (JNum 1) (length [old_error])) old_errors_world
  /\ (0 < length [old_error])%nat
  /\ checkValidationErrors env0 old_errors_world = Ret ValidationOk old_errors_world.
Proof.
  apply (X21_summary_counts_old_errors env0 old_errors_world
           {| v_errors := Some [old_error]; filesValidated := JNum 1 |} [old_error]).
  - reflexivity.
  - reflexivity.
  - reflexivity.
  - discriminate.
  - repeat constructor.
Defined.

(** ** The store of validation errors *)

Lemma findIndex_Some {A} (p : A -> bool) l i :
  findIndex p l = Some i -> exists x, nth_error l i = Some x /\ p x = true.
Proof.
  revert i. induction l as [|a l IH]; intros i; [discriminate|]. cbn.
  destruct (p a) eqn:Ea.
  - intros [= <-]. exists a. auto.
  - destruct (findIndex p l) as [j|]; [|discriminate]. intros [= <-]. cbn. now apply IH.
Qed.

Lemma findIndex_None {A} (p : A -> bool) l x :
  findIndex p l = None -> In x l -> p x = false.
Proof.
  induction l as [|a l IH]; [intros _ []|]. cbn.
  destruct (p a) eqn:Ea; [discriminate|].
  destruct (findIndex p l); [discriminate|]. intros _ [<-|Hin]; auto.
Qed.

Lemma insert_In {A} (l : list A) i x y :
  nth_error l i = Some y -> In x (<[i := x]> l).
Proof.
  revert i. induction l as [|a l IH]; intros [|i]; cbn; try discriminate.
  - intros _. now left.
  - intros H. right. now apply IH.
Qed.

Lemma insert_same_key {A B} (f : A -> B) (l : list A) i x y :
  nth_error l i = Some y -> f x = f y -> map f (<[i := x]> l) = map f l.
Proof.
  revert i. induction l as [|a l IH]; intros [|i]; cbn; try discriminate.
  - intros [= ->] ->. reflexivity.
  - intros H E. f_equal. now apply IH.
Qed.

Lemma NoDup_skipn {A} n (l : list A) : List.NoDup l -> List.NoDup (skipn n l).
Proof.
  revert l. induction n as [|n IH]; intros l H; [exact H|].
  destruct l as [|a l]; [exact H|]. cbn. apply IH. now inversion H.
Qed.

Lemma insert_In_inv {A} (l : list A) i x y : In y (<[i := x]> l) -> y = x \/ In y l.
Proof.
  revert i. induction l as [|a l IH]; intros [|i]; cbn; auto.
  - intros [<-|H]; auto.
  - intros [<-|H]; auto. destruct (IH i H); auto.
Qed.

Lemma skipn_In_inv {A} n (l : list A) x : In x (skipn n l) -> In x l.
Proof.
  revert l. induction n as [|n IH]; intros [|a l]; cbn; auto.
Qed.

Lemma file_key_as_read e :
  object_prototype_member (te_file e) = false ->
  object_prototype_member (file_key (as_read e)) = false.
Proof.
  intros H. unfold file_key, as_read, default_string. cbn [v_file].
  destruct (String.eqb (te_file e) ""); [reflexivity|exact H].
Qed.

Lemma same_error_key filePath message e :
  same_error filePath message e = true <-> error_key e = (filePath, message).
Proof.
  unfold same_error, error_key. rewrite andb_true_iff, !String.eqb_eq.
  split; [intros (-> & ->); reflexivity|intros [= -> ->]; auto].
Qed.

Section ValidatorFacts.
Variable basename : string -> string.

Lemma trackError_In now errors filePath error :
  (length errors <= 50)%nat ->
  In (new_entry basename now filePath error) (trackError basename now errors filePath error).
Proof.
  intros Hlen. unfold trackError.
  set (entry := new_entry basename now filePath error).
  destruct (findIndex (same_error filePath (r_message error)) errors) as [i|] eqn:Ef.
  - destruct (findIndex_Some _ _ _ Ef) as (y & Hy & _).
    rewrite length_insert.
    destruct (Nat.ltb_spec 50 (length errors)); [lia|].
    now apply (insert_In errors i entry y).
  - destruct (Nat.ltb_spec 50 (length (errors ++ [entry]))) as [Hgt|_].
    + unfold slice_last. rewrite List.skipn_app. apply in_or_app. right.
      rewrite length_app in *. cbn [length] in *.
      replace (length errors + 1 - 50 - length errors)%nat with 0%nat by lia.
      now left.
    + apply in_or_app. right. now left.
Qed.

Lemma trackError_from now errors filePath error e :
  In e (trackError basename now errors filePath error) ->
  e = new_entry basename now filePath error \/ In e errors.
Proof.
  unfold trackError.
  set (entry := new_entry basename now filePath error).
  assert (H1 : forall x,
             In x match findIndex (same_error filePath (r_message error)) errors with
                  | Some existing => <[existing := entry]> errors
                  | None => errors ++ [entry]
                  end -> x = entry \/ In x errors).
  { intros x. destruct (findIndex (same_error filePath (r_message error)) errors).
    - apply insert_In_inv.
    - intros H. apply in_app_or in H as [H|[<-|[]]]; auto. }
  match goal with |- context [(50 <? length ?l)%nat] => destruct (50 <? length l)%nat end.
  - intros H. apply H1. unfold slice_last in H. now apply skipn_In_inv in H.
  - apply H1.
Qed.

(** X22. The validator's store of errors stays small and free of
    duplicates. After trackError the store never holds more than 50
    entries, whatever it held before; and if no two entries had the same
    full path and message before, none have afterwards: an error
    reported again for the same file replaces its entry instead of
    adding one. *)
Theorem X22_error_store_bounded (now : Z) (errors : list TrackedError) (filePath : string)
    (error : ReportedError) :
  (length (trackError basename now errors filePath error) <= 50)%nat
  /\ (List.NoDup (map error_key errors) ->
      List.NoDup (map error_key (trackError basename now errors filePath error))).
Proof.
  split.
  - unfold trackError.
    match goal with |- context [(50 <? length ?l)%nat] =>
      destruct (Nat.ltb_spec 50 (length l)); [apply slice_last_length|assumption] end.
  - intros Hnd. unfold trackError.
    set (entry := new_entry basename now filePath error).
    assert (H1 : List.NoDup
                   (map error_key
                      match findIndex (same_error filePath (r_message error)) errors with
                      | Some existing => <[existing := entry]> errors
                      | None => errors ++ [entry]
                      end)).
    { destruct (findIndex (same_error filePath (r_message error)) errors) as [i|] eqn:Ef.
      - destruct (findIndex_Some _ _ _ Ef) as (y & Hy & Hp).
        apply same_error_key in Hp.
        rewrite (insert_same_key error_key errors i entry y Hy); [exact Hnd|].
        now rewrite Hp.
      - rewrite map_app. apply List.NoDup_app; [exact Hnd|repeat constructor; intros []|].
        intros k Hk [<-|[]]. apply in_map_iff in Hk as (x & Hx & Hin).
        pose proof (findIndex_None _ _ x Ef Hin) as Hp.
        assert (Ht : same_error filePath (r_message error) x = true)
          by (apply same_error_key; exact Hx).
        congruence. }
    match goal with |- context [(50 <? length ?l)%nat] =>
      destruct (50 <? length l)%nat; [|exact H1] end.
    unfold slice_last. rewrite <- List.skipn_map. now apply NoDup_skipn.
Qed.

(** X23. From the validator to the gate. An error tracked at time t into
    a store of at most 50 entries is in the store afterwards, with its
    file's base name, its message and line and the timestamp t; and once
    the store is saved, every completion check the gate makes less than
    an hour after t fails and reports that error, provided no entry of
    the store, the new one included, is filed under a base name that
    plain objects inherit (constructor, toString, ...): with such an
    entry among the recent ones the gate's check fails open. *)
Theorem X23_tracked_error_blocks
    (t : Z) (errors : list TrackedError) (filePath : string) (error : ReportedError)
    (env : Env) (validated : jsval) (w : World) :
  (length errors <= 50)%nat ->
  VALIDATION_STATE_FILE (files w)
  = VALIDATION_STATE_FILE
      (saved (trackError basename t errors filePath error) validated (files w)) ->
  now env - 60 * 60 * 1000 < t ->
  object_prototype_member (basename filePath) = false ->
  Forall (fun e => object_prototype_member (te_file e) = false) errors ->
  In (new_entry basename t filePath error) (trackError basename t errors filePath error)
  /\ exists recent,
       checkValidationErrors env w = Ret (ValidationFailed recent) w
       /\ In {| v_file := Some (basename filePath); v_message := r_message error;
                v_line := r_line error; v_timestamp := Some t |} recent.
Proof.
  intros Hlen Hsaved Hsoon Hname Hnames.
  pose proof (trackError_In t errors filePath error Hlen) as Hin.
  split; [exact Hin|].
  rewrite checkValidationErrors_eq. unfold recent_errors. rewrite Hsaved.
  cbn [saved set_VALIDATION_STATE_FILE VALIDATION_STATE_FILE parsed v_errors default_list].
  assert (Hord : ordinary_files
                   (List.filter (is_recent env)
                      (map as_read (trackError basename t errors filePath error))) = true).
  { apply forallb_forall. intros x Hx. apply List.filter_In in Hx as (Hx & _).
    apply in_map_iff in Hx as (e0 & <- & He0). apply negb_true_iff.
    apply file_key_as_read.
    destruct (trackError_from t errors filePath error e0 He0) as [->|Hold].
    - exact Hname.
    - rewrite List.Forall_forall in Hnames. now apply Hnames. }
  rewrite Hord.
  assert (Hr : In (as_read (new_entry basename t filePath error))
                 (List.filter (is_recent env)
                    (map as_read (trackError basename t errors filePath error)))).
  { apply List.filter_In. split; [now apply List.in_map|].
    unfold is_recent. cbn. apply Z.gtb_lt. exact Hsoon. }
  destruct (List.filter (is_recent env)
              (map as_read (trackError basename t errors filePath error))) as [|e l];
    [destruct Hr|].
  exists (e :: l). split; [reflexivity|exact Hr].
Qed.
End ValidatorFacts.

Lemma X23_witness :
  In (new_entry basename_flat (t0 - 60000) "plan.json" unexpected_token)
    (trackError basename_flat (t0 - 60000) [plan_error; readme_error] "plan.json"
       unexpected_token)
  /\ exists recent,
       checkValidationErrors env0
         (start (saved (trackError basename_flat (t0 - 60000) [plan_error; readme_error]
                          "plan.json" unexpected_token) (JNum 2) empty_FS))
       = Ret (ValidationFailed recent)
           (start (saved (trackError basename_flat (t0 - 60000) [plan_error; readme_error]
                            "plan.json" unexpected_token) (JNum 2) empty_FS))
       /\ In {| v_file := Some (basename_flat "plan.json");
                v_message := r_message unexpected_token;
                v_line := r_line unexpected_token; v_timestamp := Some (t0 - 60000) |} recent.
Proof.
  apply (X23_tracked_error_blocks basename_flat (t0 - 60000) [plan_error; readme_error]
           "plan.json" unexpected_token env0 (JNum 2)).
  - cbn. lia.
  - reflexivity.
  - reflexivity.
  - reflexivity.
  - repeat constructor.
Defined.

(** X24. A file that validates again is cleared, and only that file.
    clearFileErrors keeps exactly the entries of other files; when every
    stored error belonged to the cleared file the
    store is empty and the gate's completion check, reading it back,
    passes. *)
Theorem X24_clear_file_errors (errors : list TrackedError) (filePath : string) :
  (forall e, In e (clearFileErrors errors filePath)
             <-> In e errors /\ te_fullPath e <> filePath)
  /\ (Forall (fun e => te_fullPath e = filePath) errors ->
      clearFileErrors errors filePath = []
      /\ forall env validated w,
           VALIDATION_STATE_FILE (files w)
           = VALIDATION_STATE_FILE
               (saved (clearFileErrors errors filePath) validated (files w)) ->
           checkValidationErrors env w = Ret ValidationOk w).
Proof.
  assert (Hin : forall e, In e (clearFileErrors errors filePath)
                          <-> In e errors /\ te_fullPath e <> filePath).
  { intros e. unfold clearFileErrors. rewrite List.filter_In, negb_true_iff.
    now rewrite String.eqb_neq. }
  split; [exact Hin|]. intros Hall.
  assert (Hnil : clearFileErrors errors filePath = []).
  { unfold clearFileErrors. apply filter_nil_Forall.
    eapply List.Forall_impl; [|exact Hall]. intros e He. cbn in He.
    rewrite He, String.eqb_refl. reflexivity. }
  split; [exact Hnil|]. intros env validated w Hsaved.
  rewrite checkValidationErrors_eq. unfold recent_errors. rewrite Hsaved, Hnil. reflexivity.
Qed.

(** ** No way out of an active loop *)

Lemma rlmCostCheck_no_throw env : no_throw (rlmCostCheck env).
Proof. unfold_blocks. repeat no_throw_step. Qed.

Lemma rlmCostCheck_never_allows env : never ALLOW (rlmCostCheck env).
Proof. unfold_blocks. repeat never_step. Qed.

Lemma deepLoopCheck_blocks env st w mtime c :
  is_true (complete st) = false -> working (phase st) = true ->
  STATE_FILE (files w) = Some (mtime, c) ->
  now env - mtime <= STALE_THRESHOLD_MS ->
  exists r w', deepLoopCheck env (Some st) w = Exit (BLOCK r) w'.
Proof.
  intros Hc Hp E Hfresh. unfold deepLoopCheck.
  rewrite (working_in_loop st Hc Hp).
  rewrite (bind_Ret _ _ _ _ _ (stale_false env w mtime c E Hfresh)).
  destruct (checkIterationLimit (Some st)); gsimpl; [|eauto].
  rewrite (working_prompt env st Hp). unfold write_state, writeFileSync. gsimpl. eauto.
Qed.

(** X25. There is no way out of an active loop but a marker or time. A
    session that is not complete, in one of the phases PLAN, BUILD,
    REVIEW and FIX, whose state file was written within the last 8
    hours, is never allowed to exit while no force-exit, force-complete
    or ralph-handoff marker is present: whatever the escalation marker,
    the cost records, the test and git results, the validation state,
    the backlog, the failure log and the lock hold, readable or not, the
    evaluation ends with exit code 2. *)
Theorem X25_active_loop_never_allowed (env : Env) (d : FS) (mtime : Z) (st : SessionState) :
  STATE_FILE d = Some (mtime, Parsed st) ->
  is_true (complete st) = false -> working (phase st) = true ->
  now env - mtime <= STALE_THRESHOLD_MS ->
  FORCE_EXIT_FILE d = false -> FORCE_COMPLETE_FILE d = false ->
  RALPH_HANDOFF_FILE d = false ->
  exists dd, decision (run env d) = Some dd /\ dd <> ALLOW /\ exit_code dd = 2.
Proof.
  intros Es Hc Hp Hfresh Hfe Hfc Hrh.
  destruct (ESCALATION_FILE d) as [[|esc]|] eqn:Hesc.
  2:{ rewrite (escalation_pending env d esc Hfe Hfc Hrh Hesc).
      eexists. split; [reflexivity|]. split; [discriminate|reflexivity]. }
  all: unfold run, main;
    rewrite (bind_Ret _ _ _ _ _ (forceExitCheck_pass (start d) Hfe));
    rewrite (bind_Ret _ _ _ _ _ (forceCompleteCheck_pass (start d) Hfc));
    rewrite (bind_Ret _ _ _ _ _ (ralphHandoffCheck_pass (start d) Hrh));
    rewrite (bind_Ret _ _ _ _ _
               (userEscalationCheck_pass (start d) ltac:(cbn; now rewrite Hesc)));
    rewrite (bind_Ret _ _ _ _ _ (readState_eq (start d)));
    rewrite (bind_Ret _ _ _ _ _ (readPersistentTasks_eq (start d)));
    pose proof (rlmCostCheck_no_throw env (start d)) as Hnt;
    pose proof (rlmCostCheck_never_allows env (start d)) as Hna;
    pose proof (rlmCostCheck_keeps_state env (start d)) as Hks;
    unfold keeps_state in Hks; cbn [start files] in Hks;
    destruct (rlmCostCheck env (start d)) as [u w5|w5|dd w5] eqn:Er;
    cbn [final] in Hks; [|destruct Hnt|].
  1,3: rewrite (bind_Ret _ _ _ _ _ Er); unfold state_content; cbn [start files];
    rewrite Es; cbn [parsed]; rewrite Es in Hks;
    destruct (deepLoopCheck_blocks env st w5 mtime (Parsed st) Hc Hp Hks Hfresh)
      as (r & w' & Ed);
    rewrite (bind_Exit _ _ _ _ _ Ed); cbn [decision];
    eexists; (split; [reflexivity|]); split; [discriminate|reflexivity].
  all: rewrite (bind_Exit _ _ _ _ _ Er); cbn [decision] in *;
    exists dd; (split; [reflexivity|]);
    assert (Hdd : dd <> ALLOW) by congruence;
    split; [exact Hdd|]; destruct dd; [now destruct Hdd|reflexivity|reflexivity].
Qed.

Lemma X25_witness :
  exists dd, decision (run env0 busy_dir) = Some dd /\ dd <> ALLOW /\ exit_code dd = 2.
Proof.
  apply (X25_active_loop_never_allowed env0 busy_dir (t0 - hour) build_8_of_10).
  - reflexivity.
  - reflexivity.
  - reflexivity.
  - discriminate.
  - reflexivity.
  - reflexivity.
  - reflexivity.
Defined.
